(** * Orca event manager

    A shallow embedding of [src/orca/event_manager.py] (class
    [EventManager]) together with the parts of [src/orca/ax_object.py]
    it calls: the ignore filter, duplicate detection, deluge and flood
    control, the suspension gate, the listener reference counts, the
    enqueue/dequeue pair and the script-activation decider.

    Python objects are modelled by their identity: accessibles are
    handles, scripts are handles, and every event carries the identity
    of the Python object that holds it.  Calls that leave the module
    (AT-SPI, GLib, the script manager, the scripts) are answered by an
    environment record, and the calls whose only result is an effect are
    appended to a trace.  The two class-level caches of [AXObject]
    ([KNOWN_DEAD] and [KNOWN_ROLES]) are a state of their own, threaded
    through every function that reaches [AXObject]. *)

From Stdlib Require Import ZArith Bool List String Ascii.
From stdpp Require Import gmap strings list.

Open Scope string_scope.
Open Scope list_scope.

(** ** Python string methods used by the event manager *)

Module Py.

(** [s.startswith(p)] *)
Definition startswith (s p : string) : bool := String.prefix p s.

(** [s.endswith(suf)] *)
Fixpoint endswith (s suf : string) : bool :=
  String.eqb s suf ||
  match s with
  | EmptyString => false
  | String _ s' => endswith s' suf
  end.

(** [sub in s] on strings *)
Fixpoint contains (s sub : string) : bool :=
  String.prefix sub s ||
  match s with
  | EmptyString => false
  | String _ s' => contains s' sub
  end.

(** [s.replace(sub, "")] for a non-empty [sub]: occurrences are found
    left to right and do not overlap; [skip] counts the characters of
    the occurrence being dropped. *)
Fixpoint replace_del (sub s : string) (skip : nat) : string :=
  match s with
  | EmptyString => EmptyString
  | String c s' =>
      match skip with
      | S k => replace_del sub s' k
      | O =>
          if String.prefix sub s
          then replace_del sub s' (String.length sub - 1)
          else String c (replace_del sub s' 0)
      end
  end.


(** [s.lower()] follows Unicode's case mapping, which is not reproduced
    here: the environment answers it (see [str_lower]).  On a string of
    ASCII characters it is [ascii_lower]. *)
Definition ascii_lower_char (c : ascii) : ascii :=
  let n := nat_of_ascii c in
  if (65 <=? n)%nat && (n <=? 90)%nat then ascii_of_nat (n + 32) else c.

Fixpoint ascii_lower (s : string) : string :=
  match s with
  | EmptyString => EmptyString
  | String c s' => String (ascii_lower_char c) (ascii_lower s')
  end.

Fixpoint is_ascii (s : string) : bool :=
  match s with
  | EmptyString => true
  | String c s' => (nat_of_ascii c <? 128)%nat && is_ascii s'
  end.

(** [x in l] on a list, with [==] decided by [eqb]. *)
Definition list_in {A : Type} (eqb : A -> A -> bool) (x : A) (l : list A) : bool :=
  existsb (eqb x) l.

(** [l.remove(x)]: drops the first element equal to [x].  The source
    only calls it after [x in l] succeeded, so the [ValueError] of a
    missing element never arises. *)
Fixpoint list_remove {A : Type} (eqb : A -> A -> bool) (x : A) (l : list A) : list A :=
  match l with
  | [] => []
  | y :: l' => if eqb x y then l' else y :: list_remove eqb x l'
  end.

End Py.

(** ** Data model *)

(** An accessible object (an [Atspi.Accessible]); compared by identity. *)
Definition Handle := positive.

(** A script (the per-application handler); compared by identity. *)
Definition Script := positive.

(** The values an event's [any_data] takes: nothing, a string, or an
    accessible. *)
Inductive Value :=
| VNone
| VStr (s : string)
| VObj (h : Handle).

#[global] Instance Value_eq_dec : EqDecision Value.
Proof. solve_decision. Defined.

Definition obj (o : option Handle) : Value :=
  match o with
  | None => VNone
  | Some h => VObj h
  end.

(** The roles of [Atspi.Role] that the event manager names; every other
    role is [ROLE_OTHER] with its number. *)
Inductive Role :=
| INVALID | ALERT | ANIMATION | CANVAS | CHECK_BOX | CHECK_MENU_ITEM
| DIALOG | FILLER | ICON | IMAGE | INFO_BAR | LABEL | LAYERED_PANE
| LIST | LIST_ITEM | MENU | MENU_ITEM | NOTIFICATION | PANEL
| PUSH_BUTTON | RADIO_BUTTON | RADIO_MENU_ITEM | SECTION | SPLIT_PANE
| STATIC | STATUS_BAR | TABLE_CELL | TABLE_ROW | TEXT | TOOL_TIP
| TREE_ITEM
| ROLE_OTHER (n : nat).

#[global] Instance Role_eq_dec : EqDecision Role.
Proof. solve_decision. Defined.

Definition role_in (r : Role) (l : list Role) : bool :=
  Py.list_in (fun a b => bool_decide (a = b)) r l.

(** Modelled from the spec: the classes of [input_event.py]
    ([KeyboardEvent], [BrailleEvent], [MouseButtonEvent]) are not part of
    the sources at hand; the envelope's [kind] discriminator of the data
    model stands for the [isinstance] tests, and every envelope carries
    the fields the event manager reads. *)
Inductive Kind := ObjectChange | Keyboard | Braille | MouseButton.

#[global] Instance Kind_eq_dec : EqDecision Kind.
Proof. solve_decision. Defined.

Record Event := mkEvent {
  ev_id : positive;          (* identity of the Python object *)
  kind : Kind;
  type : string;
  source : option Handle;
  detail1 : Z;
  detail2 : Z;
  any_data : Value
}.

(** [x == y] on two events: the events are opaque boxed objects, so this
    is identity.  Where the source wants a comparison by content it
    compares the fields one by one (see [isSame]). *)
Definition same_object (x y : Event) : bool := Pos.eqb (ev_id x) (ev_id y).

(** [isinstance(e, (KeyboardEvent, BrailleEvent))] *)
Definition is_inputEvent (e : Event) : bool :=
  match kind e with
  | Keyboard | Braille => true
  | _ => false
  end.

(** ** Effects that leave the event manager *)

Inductive Effect :=
| ListenerRegister (eventType : string)     (* self._listener.register *)
| ListenerDeregister (eventType : string)   (* self._listener.deregister *)
| IdleAdd                                    (* GLib.idle_add(self._dequeue) *)
| TimeoutAdd                                 (* GLib.timeout_add(2500, self._onNoFocus) *)
| ReclaimScripts                             (* _scriptManager.reclaimScripts() *)
| SetActiveScript (s : option Script)        (* _scriptManager.setActiveScript *)
| EventCache (s : Script) (e : Event)        (* script.eventCache[e.type] = ... *)
| ProcessObjectEvent (s : Script) (e : Event)
| ProcessBrailleEvent (s : Script) (e : Event).

(** ** State: the [EventManager] instance and [orca_state] *)

Record World := mkWorld {
  _asyncMode : bool;
  _scriptListenerCounts : gmap string Z;
  _active : bool;
  _eventQueue : list Event;
  _gidleId : Z;
  _synchronousToolkits : list string;
  _eventsSuspended : bool;
  _suspendableEvents : list string;
  _eventsTriggeringSuspension : list Event;
  _ignoredEvents : list string;
  _parentsOfDefunctDescendants : list (option Handle);
  locusOfFocus : option Handle;      (* orca_state.locusOfFocus *)
  activeWindow : option Handle;      (* orca_state.activeWindow *)
  activeScript : option Script;      (* orca_state.activeScript *)
  trace : list Effect
}.

Definition set_counts (c : gmap string Z) (w : World) : World :=
  mkWorld (_asyncMode w) c (_active w) (_eventQueue w) (_gidleId w)
    (_synchronousToolkits w) (_eventsSuspended w) (_suspendableEvents w)
    (_eventsTriggeringSuspension w) (_ignoredEvents w)
    (_parentsOfDefunctDescendants w) (locusOfFocus w) (activeWindow w)
    (activeScript w) (trace w).

Definition set_queue (q : list Event) (w : World) : World :=
  mkWorld (_asyncMode w) (_scriptListenerCounts w) (_active w) q (_gidleId w)
    (_synchronousToolkits w) (_eventsSuspended w) (_suspendableEvents w)
    (_eventsTriggeringSuspension w) (_ignoredEvents w)
    (_parentsOfDefunctDescendants w) (locusOfFocus w) (activeWindow w)
    (activeScript w) (trace w).

Definition set_gidleId (g : Z) (w : World) : World :=
  mkWorld (_asyncMode w) (_scriptListenerCounts w) (_active w) (_eventQueue w) g
    (_synchronousToolkits w) (_eventsSuspended w) (_suspendableEvents w)
    (_eventsTriggeringSuspension w) (_ignoredEvents w)
    (_parentsOfDefunctDescendants w) (locusOfFocus w) (activeWindow w)
    (activeScript w) (trace w).

Definition set_suspended (b : bool) (w : World) : World :=
  mkWorld (_asyncMode w) (_scriptListenerCounts w) (_active w) (_eventQueue w)
    (_gidleId w) (_synchronousToolkits w) b (_suspendableEvents w)
    (_eventsTriggeringSuspension w) (_ignoredEvents w)
    (_parentsOfDefunctDescendants w) (locusOfFocus w) (activeWindow w)
    (activeScript w) (trace w).

Definition set_triggers (t : list Event) (w : World) : World :=
  mkWorld (_asyncMode w) (_scriptListenerCounts w) (_active w) (_eventQueue w)
    (_gidleId w) (_synchronousToolkits w) (_eventsSuspended w)
    (_suspendableEvents w) t (_ignoredEvents w)
    (_parentsOfDefunctDescendants w) (locusOfFocus w) (activeWindow w)
    (activeScript w) (trace w).

Definition set_parents (p : list (option Handle)) (w : World) : World :=
  mkWorld (_asyncMode w) (_scriptListenerCounts w) (_active w) (_eventQueue w)
    (_gidleId w) (_synchronousToolkits w) (_eventsSuspended w)
    (_suspendableEvents w) (_eventsTriggeringSuspension w) (_ignoredEvents w)
    p (locusOfFocus w) (activeWindow w) (activeScript w) (trace w).

Definition set_focus (l a : option Handle) (w : World) : World :=
  mkWorld (_asyncMode w) (_scriptListenerCounts w) (_active w) (_eventQueue w)
    (_gidleId w) (_synchronousToolkits w) (_eventsSuspended w)
    (_suspendableEvents w) (_eventsTriggeringSuspension w) (_ignoredEvents w)
    (_parentsOfDefunctDescendants w) l a (activeScript w) (trace w).

Definition set_activeScript (s : option Script) (w : World) : World :=
  mkWorld (_asyncMode w) (_scriptListenerCounts w) (_active w) (_eventQueue w)
    (_gidleId w) (_synchronousToolkits w) (_eventsSuspended w)
    (_suspendableEvents w) (_eventsTriggeringSuspension w) (_ignoredEvents w)
    (_parentsOfDefunctDescendants w) (locusOfFocus w) (activeWindow w) s
    (trace w).

Definition emit (x : Effect) (w : World) : World :=
  mkWorld (_asyncMode w) (_scriptListenerCounts w) (_active w) (_eventQueue w)
    (_gidleId w) (_synchronousToolkits w) (_eventsSuspended w)
    (_suspendableEvents w) (_eventsTriggeringSuspension w) (_ignoredEvents w)
    (_parentsOfDefunctDescendants w) (locusOfFocus w) (activeWindow w)
    (activeScript w) (trace w ++ [x]).

(** The state [EventManager.__init__] builds, for a given mode. *)
Definition init (asyncMode : bool) : World :=
  mkWorld asyncMode ∅ false [] 0 ["VCL"] false
    ["object:children-changed:add"; "object:children-changed:remove";
     "object:state-changed:sensitive"; "object:state-changed:showing";
     "object:text-changed:delete"]
    []
    ["object:bounds-changed"; "object:state-changed:defunct";
     "object:property-change:accessible-parent"]
    [] None None None [].

(** ** Listener reference counts *)

Definition registerListener (eventType : string) (w : World) : World :=
  match _scriptListenerCounts w !! eventType with
  | Some n => set_counts (<[eventType := (n + 1)%Z]> (_scriptListenerCounts w)) w
  | None =>
      let w := emit (ListenerRegister eventType) w in
      set_counts (<[eventType := 1%Z]> (_scriptListenerCounts w)) w
  end.

Definition deregisterListener (eventType : string) (w : World) : World :=
  match _scriptListenerCounts w !! eventType with
  | None => w
  | Some n =>
      let w := set_counts (<[eventType := (n - 1)%Z]> (_scriptListenerCounts w)) w in
      if (n - 1 =? 0)%Z
      then
        let w := emit (ListenerDeregister eventType) w in
        set_counts (delete eventType (_scriptListenerCounts w)) w
      else w
  end.

(** [for event in l: self.registerListener(event)] and its counterpart *)
Definition registerAll (l : list string) (w : World) : World :=
  fold_left (fun w event => registerListener event w) l w.

Definition deregisterAll (l : list string) (w : World) : World :=
  fold_left (fun w event => deregisterListener event w) l w.

(** ** Suspension gate *)

Definition _suspendEvents (triggeringEvent : Event) (w : World) : World :=
  let w := set_triggers (_eventsTriggeringSuspension w ++ [triggeringEvent]) w in
  if _eventsSuspended w then w
  else
    let w := deregisterAll (_suspendableEvents w) w in
    set_suspended true w.

Definition _unsuspendEvents (triggeringEvent : Event) (force : bool) (w : World) : World :=
  let w :=
    if Py.list_in same_object triggeringEvent (_eventsTriggeringSuspension w)
    then set_triggers
           (Py.list_remove same_object triggeringEvent (_eventsTriggeringSuspension w)) w
    else w in
  if negb (_eventsSuspended w) then w
  else
    match _eventsTriggeringSuspension w, force with
    | _ :: _, false => w
    | _, _ =>
        let w := registerAll (_suspendableEvents w) w in
        set_suspended false w
    end.

Definition _didSuspendEventsFor (event : Event) (w : World) : bool :=
  Py.list_in same_object event (_eventsTriggeringSuspension w).


(** ** The environment: everything the event manager asks of others *)

(** The predicates of [AXUtilities] the event manager calls.  The module
    [ax_utilities.py] is not part of the sources at hand, so each
    predicate is answered by the environment. *)
Inductive AXPredicate :=
| has_no_state | is_defunct | is_focused | is_frame | is_window
| is_document | is_table | is_notification | is_table_related
| is_tree_related | is_section | manages_descendants | is_image
| is_menu_item | is_menu | is_focusable | is_panel | is_modal
| is_iconified.

(** What an AT-SPI call does: it returns, or it raises.  Of the
    exception one thing only is looked at, by [AXObject.handle_error]:
    whether its message is one of the three that say that the object or
    its application is gone or hung ([gone]). *)
Inductive Answer (A : Type) :=
| Ok (a : A)
| Error (gone : bool).

Arguments Ok {A} a.
Arguments Error {A} gone.

(** One snapshot of the outside world.  The script callbacks are total:
    a script that raises inside [processObjectEvent] is caught by the
    caller and changes nothing the event manager owns.  [str_lower] is
    Python's [str.lower].  [debug_info] tells whether messages of level
    [debug.LEVEL_INFO] are printed ([debug.LEVEL_INFO >=
    debug.debugLevel]). *)
Record Env := mkEnv {
  Atspi_get_name : Handle -> Answer string;
  Atspi_get_application : Handle -> Answer (option Handle);
  Atspi_get_toolkit_name : Handle -> Answer string;
  Atspi_get_role : Handle -> Answer Role;
  AXUtilities : AXPredicate -> Value -> bool;
  get_desktop : option Handle;
  str_lower : string -> string;
  debug_info : bool;
  (* _scriptManager *)
  getScript : option Handle -> option Handle -> bool -> option Script;
  getScriptForMouseButtonEvent : Event -> option Script;
  setActiveScript_raises : option Script -> bool;
  (* scripts *)
  script_app : Script -> option Handle;
  isActivatableEvent : Script -> Event -> bool;
  forceScriptActivation : Script -> Event -> bool;
  processObjectEvent :
    Script -> Event -> option Handle * option Handle -> option Handle * option Handle;
  (* GLib.idle_add returns a non-zero source id *)
  idle_add : positive
}.

(** ** [AXObject] (ax_object.py) *)

(** The class attributes [AXObject.KNOWN_DEAD] and [AXObject.KNOWN_ROLES].
    An object's [hash] is its handle.  The daemon thread that empties
    both once a minute ([_clear_stored_data]) is not modelled: the
    caches are followed through the calls made between two runs of that
    thread. *)
Record Cache := mkCache {
  KNOWN_DEAD : list Handle;
  KNOWN_ROLES : gmap Handle Role
}.

Definition no_cache : Cache := mkCache [] ∅.

Module AXObject.

Definition object_is_known_dead (c : Cache) (h : Handle) : bool :=
  Py.list_in Pos.eqb h (KNOWN_DEAD c).

Definition is_valid (c : Cache) (o : option Handle) : bool :=
  match o with
  | None => false
  | Some h => negb (object_is_known_dead c h)
  end.

(** [handle_error]: an exception whose message says that the object is
    gone puts the object on [KNOWN_DEAD]. *)
Definition handle_error (h : Handle) (gone : bool) (c : Cache) : Cache :=
  if gone then mkCache (KNOWN_DEAD c ++ [h]) (KNOWN_ROLES c) else c.

Definition get_role (env : Env) (c : Cache) (o : option Handle) : Role * Cache :=
  match o with
  | None => (INVALID, c)
  | Some h =>
      if negb (is_valid c o) then (INVALID, c)
      else
        match KNOWN_ROLES c !! h with
        | Some role => (role, c)
        | None =>
            match Atspi_get_role env h with
            | Error gone => (INVALID, handle_error h gone c)
            | Ok role => (role, mkCache (KNOWN_DEAD c) (<[h := role]> (KNOWN_ROLES c)))
            end
        end
  end.

Definition get_name (env : Env) (c : Cache) (o : option Handle) : string * Cache :=
  match o with
  | None => ("", c)
  | Some h =>
      if negb (is_valid c o) then ("", c)
      else
        match Atspi_get_name env h with
        | Error gone => ("", handle_error h gone c)
        | Ok name => (name, c)
        end
  end.

Definition get_application (env : Env) (c : Cache) (o : option Handle)
    : option Handle * Cache :=
  match o with
  | None => (None, c)
  | Some h =>
      if negb (is_valid c o) then (None, c)
      else
        match Atspi_get_application env h with
        | Error gone => (None, handle_error h gone c)
        | Ok app => (app, c)
        end
  end.

(** An exception out of [Atspi.Accessible.get_toolkit_name] is only
    logged, not handed to [handle_error]. *)
Definition get_application_toolkit_name (env : Env) (c : Cache) (o : option Handle)
    : string * Cache :=
  if negb (is_valid c o) then ("", c)
  else
    let '(app, c) := get_application env c o in
    match app with
    | None => ("", c)
    | Some app =>
        match Atspi_get_toolkit_name env app with
        | Error _ => ("", c)
        | Ok name => (name, c)
        end
    end.

(** [is_dead] is also called on an event's [any_data].  On a string the
    AT-SPI call [Atspi.Accessible.get_name] raises a [TypeError], which
    [is_dead] catches and answers with [True]; its message is none that
    [handle_error] looks for. *)
Definition is_dead (env : Env) (c : Cache) (v : Value) : bool * Cache :=
  match v with
  | VNone => (false, c)
  | VStr _ => (true, c)
  | VObj h =>
      if negb (is_valid c (Some h)) then (true, c)
      else
        match Atspi_get_name env h with
        | Error gone => (true, handle_error h gone c)
        | Ok _ => (false, c)
        end
  end.

End AXObject.

(** ** Flow control: deluge and flood *)

Definition _eventSourceIsDead (env : Env) (c : Cache) (event : Event) : bool * Cache :=
  AXObject.is_dead env c (obj (source event)).

(** The list [ignore] of [_ignoreDuringDeluge] and [_processDuringFlood]
    (the two copies in the source are identical). *)
Definition high_volume : list string :=
  ["object:text-changed:delete";
   "object:text-changed:insert";
   "object:text-changed:delete:system";
   "object:text-changed:insert:system";
   "object:text-attributes-changed";
   "object:text-caret-moved";
   "object:children-changed:add";
   "object:children-changed:add:system";
   "object:children-changed:remove";
   "object:children-changed:remove:system";
   "object:property-change:accessible-name";
   "object:property-change:accessible-description";
   "object:selection-changed";
   "object:state-changed:showing";
   "object:state-changed:sensitive"].

Definition same_handle (a b : option Handle) : bool := bool_decide (a = b).

Definition _ignoreDuringDeluge (env : Env) (c : Cache) (w : World) (event : Event)
    : bool * Cache :=
  let '(dead, c) := _eventSourceIsDead env c event in
  if dead then (true, c)
  else if negb (Py.list_in String.eqb (type event) high_volume) then (false, c)
  else (negb (same_handle (source event) (locusOfFocus w)), c).

Definition qsize (w : World) : Z := Z.of_nat (length (_eventQueue w)).

Definition _inDeluge (w : World) : bool := (100 <? qsize w)%Z.

Definition _inFlood (w : World) : bool := (50 <? qsize w)%Z.

Definition _processDuringFlood (env : Env) (c : Cache) (w : World) (event : Event)
    : bool * Cache :=
  let '(dead, c) := _eventSourceIsDead env c event in
  if dead then (false, c)
  else if negb (Py.list_in String.eqb (type event) high_volume) then (true, c)
  else (same_handle (source event) (locusOfFocus w), c).

(** Python truth of an integer. *)
Definition truthy (n : Z) : bool := negb (n =? 0)%Z.

Definition _prioritizeDuringFlood (env : Env) (event : Event) : bool :=
  if Py.startswith (type event) "object:state-changed:focused" then truthy (detail1 event)
  else if Py.startswith (type event) "object:state-changed:selected" then truthy (detail1 event)
  else if Py.startswith (type event) "object:text-selection-changed" then true
  else if Py.startswith (type event) "window:activate" then true
  else if Py.startswith (type event) "window:deactivate" then true
  else if Py.startswith (type event) "object:state-changed:active"
  then AXUtilities env is_frame (obj (source event))
       || AXUtilities env is_window (obj (source event))
  else if Py.startswith (type event) "document:load-complete" then true
  else if Py.startswith (type event) "object:state-changed:busy" then true
  else false.

(** The loop of [_pruneEventsDuringFlood]: events are taken from the old
    queue one at a time and put on the new one when they are to be
    processed. *)
Fixpoint prune_loop (env : Env) (c : Cache) (w : World) (old new : list Event)
    : list Event * Cache :=
  match old with
  | [] => (new, c)
  | event :: old' =>
      let '(keep, c) := _processDuringFlood env c w event in
      if keep
      then prune_loop env c w old' (new ++ [event])
      else prune_loop env c w old' new
  end.

Definition _pruneEventsDuringFlood (env : Env) (c : Cache) (w : World) : World * Cache :=
  let '(q, c) := prune_loop env c w (_eventQueue w) [] in
  (set_queue q w, c).

(** ** Duplicate detection *)

(** The local function [isSame] of [_isDuplicateEvent]. *)
Definition isSame (event x : Event) : bool :=
  String.eqb (type x) (type event)
  && same_handle (source x) (source event)
  && (detail1 x =? detail1 event)%Z
  && (detail2 x =? detail2 event)%Z
  && bool_decide (any_data x = any_data event).

Definition _isDuplicateEvent (env : Env) (w : World) (event : Event) : bool :=
  if _inFlood w && _prioritizeDuringFlood env event then false
  else existsb (isSame event) (_eventQueue w).

(** ** The ignore filter *)

(** What a call does: it returns a value or it raises. *)
Inductive Outcome (A : Type) :=
| Returns (a : A)
| Raises.

Arguments Returns {A} a.
Arguments Raises {A}.

(** U+FFFC, as the three bytes of its UTF-8 encoding (strings are byte
    strings here). *)
Definition EMBEDDED_OBJECT_CHARACTER : string :=
  String (ascii_of_nat 239) (String (ascii_of_nat 191) (String (ascii_of_nat 188) EmptyString)).

(** Lines 205-207: the changed text is only embedded objects.  The test
    [EMBEDDED_OBJECT_CHARACTER in event.any_data] raises a [TypeError]
    when [any_data] is not a string. *)
Definition only_embedded_objects (event : Event) : Outcome bool :=
  if Py.startswith (type event) "object:text-changed"
  then
    match any_data event with
    | VStr s =>
        Returns (Py.contains s EMBEDDED_OBJECT_CHARACTER
                 && String.eqb (Py.replace_del EMBEDDED_OBJECT_CHARACTER s 0) "")
    | _ => Raises
    end
  else Returns false.

(** Lines 232-310: the [if]/[elif] chain on [role], the role of the
    source read at line 231; the result tells whether one of its
    [return True] is reached. *)
Definition ignore_by_role (env : Env) (c : Cache) (w : World) (event : Event) (role : Role)
    : bool * Cache :=
  let sw := Py.startswith (type event) in
  let src := obj (source event) in
  if sw "object:property-change:accessible-name" then
    if role_in role [CANVAS; ICON; LIST_ITEM; LIST; PANEL; SECTION; TABLE_ROW;
                     TABLE_CELL; TREE_ITEM; IMAGE; MENU; MENU_ITEM]
    then (true, c)
    else (negb (AXUtilities env is_focused src)
          && role_in role [PUSH_BUTTON; CHECK_BOX; RADIO_BUTTON], c)
  else if sw "object:property-change:accessible-value" then
    (bool_decide (role = SPLIT_PANE) && negb (AXUtilities env is_focused src), c)
  else if sw "object:text-changed:insert" && (1000 <? detail2 event)%Z
          && role_in role [TEXT; STATIC] then
    (true, c)
  else if sw "object:state-changed:sensitive" then
    (role_in role [MENU_ITEM; MENU; FILLER; PANEL; CHECK_MENU_ITEM; RADIO_MENU_ITEM], c)
  else if sw "object:state-changed:selected" then
    (negb (truthy (detail1 event)) && role_in role [PUSH_BUTTON], c)
  else if sw "object:state-changed:showing" then
    (negb (role_in role [ALERT; ANIMATION; INFO_BAR; MENU; NOTIFICATION; DIALOG;
                         STATUS_BAR; TOOL_TIP]), c)
  else if sw "object:text-caret-moved" then
    (role_in role [LABEL] && negb (AXUtilities env is_focused src), c)
  else if sw "object:selection-changed" then
    if Py.list_in same_handle (source event) (_parentsOfDefunctDescendants w)
    then (true, c)
    else AXObject.is_dead env c src
  else (false, c).

(** Lines 312-366: structural changes and active-descendant changes.
    This is the part of the filter that writes to
    [_parentsOfDefunctDescendants]. *)
Definition ignore_structural (env : Env) (c : Cache) (w : World) (event : Event)
    (role : Role) : bool * World * Cache :=
  let sw := Py.startswith (type event) in
  let src := obj (source event) in
  let parents := _parentsOfDefunctDescendants w in
  if sw "object:children-changed" || sw "object:active-descendant-changed" then
    if role_in role [MENU; LAYERED_PANE; MENU_ITEM] then (true, w, c)
    else if bool_decide (any_data event = VNone) then (true, w, c)
    else
      let '(focus_lost, c) :=
        if Py.endswith (type event) "remove" then
          if bool_decide (any_data event = obj (locusOfFocus w)) then (true, c)
          else AXObject.is_dead env c (obj (locusOfFocus w))
        else (false, c) in
      if focus_lost then (false, w, c)
      else
        let '(dead, c) := AXObject.is_dead env c (any_data event) in
        if dead || AXUtilities env is_defunct (any_data event)
        then
          if AXUtilities env manages_descendants src
             && negb (Py.list_in same_handle (source event) parents)
          then (true, set_parents (parents ++ [source event]) w, c)
          else (true, w, c)
        else
          let w :=
            if Py.list_in same_handle (source event) parents
            then set_parents (Py.list_remove same_handle (source event) parents) w
            else w in
          if AXUtilities env is_image (any_data event) then (true, w, c)
          else if sw "object:children-changed"
                  && AXUtilities env is_menu_item (any_data event)
          then (true, w, c)
          else (false, w, c)
  else (false, w, c).

Definition _ignore (env : Env) (c : Cache) (w : World) (event : Event)
    : Outcome bool * World * Cache :=
  let sw := Py.startswith (type event) in
  let src := obj (source event) in
  if negb (_active w) then (Returns true, w, c)
  else if existsb (fun p => Py.startswith (type event) p) (_ignoredEvents w)
  then (Returns true, w, c)
  else
  let '(app, c) := AXObject.get_application env c (source event) in
  let '(name, c) := AXObject.get_name env c app in
  if String.eqb name "gnome-shell" && sw "object:children-changed:remove"
  then (Returns true, w, c)
  else if sw "window" then (Returns false, w, c)
  else if sw "mouse:button" then (Returns false, w, c)
  else if _isDuplicateEvent env w event then (Returns true, w, c)
  else
  let '(thunderbird, c) :=
    if Py.endswith (type event) "system" then
      let '(name, c) := AXObject.get_name env c app in
      (Py.startswith (str_lower env name) "thunderbird", c)
    else (false, c) in
  if thunderbird
     && (AXUtilities env is_table_related src
         || AXUtilities env is_tree_related src
         || AXUtilities env is_section src)
  then (Returns true, w, c)
  else
  let '(deluge, c) :=
    if _inDeluge w then _ignoreDuringDeluge env c w event else (false, c) in
  if deluge then (Returns true, w, c)
  else if (sw "object:children-changed" || sw "object:state-changed:sensitive")
          && match activeScript w with
             | None => true
             | Some script => negb (same_handle (script_app env script) app)
             end
  then (Returns true, w, c)
  else
  match only_embedded_objects event with
  | Raises => (Raises, w, c)
  | Returns true => (Returns true, w, c)
  | Returns false =>
      if AXUtilities env has_no_state src then (Returns true, w, c)
      else if AXUtilities env is_defunct src then (Returns true, w, c)
      else
        let '(role, c) := AXObject.get_role env c (source event) in
        let '(ignore, c) := ignore_by_role env c w event role in
        if ignore then (Returns true, w, c)
        else
          let '(ignore, w, c) := ignore_structural env c w event role in
          (Returns ignore, w, c)
  end.

(** ** Suspension predicates *)

Definition _shouldSuspendEventsFor (env : Env) (c : Cache) (event : Event) : bool * Cache :=
  let src := obj (source event) in
  let '(window, c) :=
    if AXUtilities env is_frame src then (true, c)
    else if AXUtilities env is_window src then
      let '(toolkit, c) := AXObject.get_application_toolkit_name env c (source event) in
      (String.eqb toolkit "clutter", c)
    else (false, c) in
  if window && (Py.startswith (type event) "window" || Py.endswith (type event) "active")
  then (true, c)
  else
    (AXUtilities env is_document src
     && Py.endswith (type event) "busy" && truthy (detail1 event), c).

Definition _shouldUnsuspendEventsFor (env : Env) (event : Event) : bool :=
  if Py.startswith (type event) "object:state-changed:focused" && truthy (detail1 event)
  then true
  else
    AXUtilities env is_document (obj (source event))
    && ((Py.endswith (type event) "busy" && negb (truthy (detail1 event)))
        || Py.startswith (type event) "document:load-complete").

(** ** Dispatch: which script, and whether to activate it *)

Definition skipCheck : list string :=
  ["object:children-changed"; "object:column-reordered"; "object:row-reordered";
   "object:property-change"; "object:selection-changed";
   "object:state-changed:checked"; "object:state-changed:expanded";
   "object:state-changed:indeterminate"; "object:state-changed:pressed";
   "object:state-changed:selected"; "object:state-changed:sensitive";
   "object:state-changed:showing"; "object:text-changed"].

Definition _getScriptForEvent (env : Env) (c : Cache) (event : Event)
    : option Script * Cache :=
  if Py.startswith (type event) "mouse:" then (getScriptForMouseButtonEvent env event, c)
  else
    let '(app, c) := AXObject.get_application env c (source event) in
    if AXUtilities env is_defunct (obj app) then (None, c)
    else
      let check := negb (existsb (fun x => Py.startswith (type event) x) skipCheck) in
      (getScript env app (source event) check, c).

Definition _isActivatableEvent (env : Env) (c : Cache) (w : World) (event : Event)
    (script : option Script) : bool * string * Cache :=
  match source event with
  | None => (false, "event.source? What event.source??", c)
  | Some _ =>
  let '(script, c) :=
    match script with
    | Some s => (Some s, c)
    | None => _getScriptForEvent env c event
    end in
  match script with
  | None => (false, "There is no script for this event.", c)
  | Some script =>
  let eType := type event in
  let src := obj (source event) in
  if bool_decide (Some script = activeScript w)
  then (false, "The script for this event is already active.", c)
  else if negb (isActivatableEvent env script event)
  then (false, "The script says not to activate for this event.", c)
  else if forceScriptActivation env script event
  then (true, "The script insists it should be activated for this event.", c)
  else
  let windowActivation :=
    if Py.startswith eType "window:activate" then true
    else Py.startswith eType "object:state-changed:active"
         && truthy (detail1 event) && AXUtilities env is_frame src in
  if windowActivation then
    if negb (same_handle (source event) (activeWindow w))
    then (true, "Window activation", c)
    else (false, "Window activation for already-active window", c)
  else if Py.startswith eType "focus"
          || (Py.startswith eType "object:state-changed:focused" && truthy (detail1 event))
  then (true, "Event source claimed focus.", c)
  else if Py.startswith eType "object:state-changed:selected" && truthy (detail1 event)
          && AXUtilities env is_menu src && AXUtilities env is_focusable src
  then (true, "Selection change in focused menu", c)
  else if Py.startswith eType "object:state-changed:showing"
          && AXUtilities env is_panel src && AXUtilities env is_modal src
  then (true, "Modal panel is showing.", c)
  else (false, "No reason found to activate a different script.", c)
  end
  end.

(** ** Processing one event *)

Definition _processInputEvent (event : Event) (w : World) : World :=
  match activeScript w with
  | None => w
  | Some script =>
      match kind event with
      | Braille => emit (ProcessBrailleEvent script event) w
      | _ => w
      end
  end.

(** The flood test in the middle of [_processObjectEvent]: [None] when
    the event is not to be processed. *)
Definition flood_gate (env : Env) (c : Cache) (event : Event) (w : World)
    : option World * Cache :=
  if _inFlood w then
    let '(process, c) := _processDuringFlood env c w event in
    if negb process then (None, c)
    else if _prioritizeDuringFlood env event
    then let '(w, c) := _pruneEventsDuringFlood env c w in (Some w, c)
    else (Some w, c)
  else (Some w, c).

(** The end of [_processObjectEvent]: activation of the script when it is
    called for, then the script's own [processObjectEvent]. *)
Definition deliver (env : Env) (c : Cache) (script : Script) (event : Event) (w : World)
    : World * Cache :=
  let run w :=
    let '(l, a) := processObjectEvent env script event (locusOfFocus w, activeWindow w) in
    set_focus l a (emit (ProcessObjectEvent script event) w) in
  let '(setNewActiveScript, _, c) := _isActivatableEvent env c w event (Some script) in
  if setNewActiveScript then
    if setActiveScript_raises env (Some script) then (w, c)
    else (run (set_activeScript (Some script) (emit (SetActiveScript (Some script)) w)), c)
  else (run w, c).

Definition _processObjectEvent (env : Env) (c : Cache) (event : Event) (w : World)
    : Outcome unit * World * Cache :=
  let eType := type event in
  let src := obj (source event) in
  if Py.startswith eType "object:children-changed:remove"
     && same_handle (source event) (get_desktop env)
  then (Returns tt, emit ReclaimScripts w, c)
  else
  let w :=
    if Py.startswith eType "window:" && negb (Py.endswith eType "create")
    then emit ReclaimScripts w
    else if Py.startswith eType "object:state-changed:active"
            && AXUtilities env is_frame src
    then emit ReclaimScripts w
    else w in
  let '(dead, c) := AXObject.is_dead env c src in
  if dead || AXUtilities env is_defunct src then
    if Py.startswith eType "window:deactivate"
       || (Py.startswith eType "window:destroy"
           && same_handle (activeWindow w) (source event))
    then
      let w := set_focus None None w in
      if setActiveScript_raises env None then (Raises, w, c)
      else (Returns tt, set_activeScript None (emit (SetActiveScript None) w), c)
    else (Returns tt, w, c)
  else if AXUtilities env is_iconified src then (Returns tt, w, c)
  else
  let '(gate, c) := flood_gate env c event w in
  match gate with
  | None => (Returns tt, w, c)
  | Some w =>
      if Py.startswith eType "object:selection-changed"
         && Py.list_in same_handle (source event) (_parentsOfDefunctDescendants w)
      then (Returns tt, w, c)
      else
        let '(script, c) := _getScriptForEvent env c event in
        match script with
        | None => (Returns tt, w, c)
        | Some script =>
            let '(w, c) := deliver env c script event w in (Returns tt, w, c)
        end
  end.

(** ** The queue: [_addToQueue], [_dequeue], [_enqueue] *)

Definition _addToQueue (env : Env) (event : Event) (asyncMode : bool) (w : World) : World :=
  let w := set_queue (_eventQueue w ++ [event]) w in
  if asyncMode && (_gidleId w =? 0)%Z
  then set_gidleId (Zpos (idle_add env)) (emit IdleAdd w)
  else w.

(** What [_dequeue] does once an object event has been processed:
    lines 608-611. *)
Definition after_processing (env : Env) (event : Event) (w : World) : World :=
  if _didSuspendEventsFor event w then _unsuspendEvents event false w
  else if _eventsSuspended w && _shouldUnsuspendEventsFor env event
  then _unsuspendEvents event true w
  else w.

(** The end of the [try] block of [_dequeue]: lines 622-627. *)
Definition dequeue_epilogue (w : World) : bool * World :=
  match _eventQueue w with
  | [] => (false, set_gidleId 0 (emit TimeoutAdd w))
  | _ :: _ => (true, w)
  end.

(** The body of the [try] block of [_dequeue] once [event] has been
    taken off the queue.  An exception out of the processing reaches the
    last handler, which leaves [rerun] as it was and skips the rest of
    the block. *)
Definition drain (env : Env) (c : Cache) (event : Event) (w : World)
    : bool * World * Cache :=
  if is_inputEvent event
  then (dequeue_epilogue (_processInputEvent event w), c)
  else
    match _processObjectEvent env c event w with
    | (Raises, w, c) => (true, w, c)
    | (Returns _, w, c) => (dequeue_epilogue (after_processing env event w), c)
    end.

(** [_dequeue] returns [rerun].  An empty queue is the [queue.Empty]
    handler; otherwise the event at the head is taken and processed. *)
Definition _dequeue (env : Env) (c : Cache) (w : World) : bool * World * Cache :=
  match _eventQueue w with
  | [] => (false, set_gidleId 0 w, c)
  | event :: rest => drain env c event (set_queue rest w)
  end.

(** The mode [_enqueue] chooses for one event: lines 540-551. *)
Definition choose_asyncMode (env : Env) (c : Cache) (w : World) (e : Event)
    : bool * Cache :=
  if negb (is_inputEvent e) then
    if bool_decide (kind e = MouseButton) then (true, c)
    else
      let '(toolkit, c) := AXObject.get_application_toolkit_name env c (source e) in
      if Py.list_in String.eqb toolkit (_synchronousToolkits w) then (false, c)
      else if Py.startswith (type e) "object:children-changed"
      then (AXUtilities env is_table (obj (source e)), c)
      else if AXUtilities env is_notification (obj (source e)) then (false, c)
      else (_asyncMode w, c)
  else (_asyncMode w, c).

(** Lines 519-528: the filter is asked under [try]; an exception counts
    as "ignore". *)
Definition enqueue_filter (env : Env) (c : Cache) (w : World) (e : Event)
    : bool * World * Cache :=
  if negb (is_inputEvent e) then
    match _ignore env c w e with
    | (Returns ignore, w, c) => (ignore, w, c)
    | (Raises, w, c) => (true, w, c)
    end
  else (false, w, c).

(** Lines 532-535: a prioritized event that arrives during a flood
    prunes the queue. *)
Definition enqueue_prune (env : Env) (c : Cache) (e : Event) (w : World) : World * Cache :=
  if _inFlood w && _prioritizeDuringFlood env e
  then _pruneEventsDuringFlood env c w
  else (w, c).

(** Lines 537-538: the suspension gate. *)
Definition enqueue_suspend (env : Env) (c : Cache) (e : Event) (w : World) : World * Cache :=
  if negb (is_inputEvent e) then
    let '(suspend, c) := _shouldSuspendEventsFor env c e in
    if suspend then (_suspendEvents e w, c) else (w, c)
  else (w, c).

(** Lines 540-557: the mode is chosen and, for an object event,
    [script.eventCache] is written on the result of [getScript] (when
    there is none the attribute access raises); then the event goes on
    the queue, and in synchronous mode [_dequeue] is called at once. *)
Definition enqueue_put (env : Env) (c : Cache) (e : Event) (w : World)
    : Outcome unit * World * Cache :=
  let '(asyncMode, c) := choose_asyncMode env c w e in
  let put w c :=
    let w := _addToQueue env e asyncMode w in
    if asyncMode then (Returns tt, w, c)
    else let '(_, w, c) := _dequeue env c w in (Returns tt, w, c) in
  if negb (is_inputEvent e) then
    let '(app, c) := AXObject.get_application env c (source e) in
    match getScript env app (source e) false with
    | None => (Raises, w, c)
    | Some script => put (emit (EventCache script e) w) c
    end
  else put w c.

Definition _enqueue (env : Env) (c : Cache) (w : World) (e : Event)
    : Outcome unit * World * Cache :=
  let '(ignore, w, c) := enqueue_filter env c w e in
  if ignore then (Returns tt, w, c)
  else
    let '(w, c) := enqueue_prune env c e w in
    let '(w, c) := enqueue_suspend env c e w in
    enqueue_put env c e w.

(** The idle callback GLib runs: [_dequeue], again for as long as it
    returns [True].  [fuel] bounds the number of calls. *)
Fixpoint run_idle (env : Env) (fuel : nat) (c : Cache) (w : World) : World * Cache :=
  match fuel with
  | O => (w, c)
  | S fuel' =>
      let '(rerun, w, c) := _dequeue env c w in
      if rerun then run_idle env fuel' c w else (w, c)
  end.

(** The events handed to a script's [processObjectEvent], in order. *)
Definition delivered (w : World) : list Event :=
  omap (fun x => match x with ProcessObjectEvent _ e => Some e | _ => None end) (trace w).

(** ** The rest of the manager's interface *)

Definition set_active (b : bool) (w : World) : World :=
  mkWorld (_asyncMode w) (_scriptListenerCounts w) b (_eventQueue w) (_gidleId w)
    (_synchronousToolkits w) (_eventsSuspended w) (_suspendableEvents w)
    (_eventsTriggeringSuspension w) (_ignoredEvents w)
    (_parentsOfDefunctDescendants w) (locusOfFocus w) (activeWindow w)
    (activeScript w) (trace w).

Definition set_ignored (l : list string) (w : World) : World :=
  mkWorld (_asyncMode w) (_scriptListenerCounts w) (_active w) (_eventQueue w)
    (_gidleId w) (_synchronousToolkits w) (_eventsSuspended w)
    (_suspendableEvents w) (_eventsTriggeringSuspension w) l
    (_parentsOfDefunctDescendants w) (locusOfFocus w) (activeWindow w)
    (activeScript w) (trace w).

(** [activate] and [deactivate].  The AT-SPI device they create and drop
    ([orca_state.device]) belongs to the keyboard path and is not part of
    the state here. *)
Definition activate (w : World) : World := set_active true w.

Definition deactivate (w : World) : World :=
  set_counts ∅ (set_queue [] (set_active false w)).

Definition ignoreEventTypes (eventTypeList : list string) (w : World) : World :=
  fold_left
    (fun w eventType =>
       if negb (Py.list_in String.eqb eventType (_ignoredEvents w))
       then set_ignored (_ignoredEvents w ++ [eventType]) w
       else w)
    eventTypeList w.

Definition unignoreEventTypes (eventTypeList : list string) (w : World) : World :=
  fold_left
    (fun w eventType =>
       if Py.list_in String.eqb eventType (_ignoredEvents w)
       then set_ignored (Py.list_remove String.eqb eventType (_ignoredEvents w)) w
       else w)
    eventTypeList w.

(** [registerScriptListeners] and [deregisterScriptListeners]; the
    argument is [script.listeners.keys()], the event types the script
    listens to. *)
Definition registerScriptListeners (listeners : list string) (w : World) : World :=
  registerAll listeners w.

Definition deregisterScriptListeners (listeners : list string) (w : World) : World :=
  deregisterAll listeners w.

(** [processBrailleEvent]: the event is queued when there is an active
    script and it consumes the event ([consumes] is the script's
    [consumesBrailleEvent]); the result tells whether it was.  The
    argument is a [BrailleEvent], an input event, and for an input event
    [_enqueue] has nothing that raises: it asks neither the filter nor
    the script manager. *)
Definition processBrailleEvent (env : Env) (consumes : Script -> Event -> bool)
    (c : Cache) (w : World) (brailleEvent : Event) : bool * World * Cache :=
  match activeScript w with
  | Some script =>
      if consumes script brailleEvent
      then let '(_, w, c) := _enqueue env c w brailleEvent in (true, w, c)
      else (false, w, c)
  | None => (false, w, c)
  end.

(** ** [AXObject]: the tree and the actions (ax_object.py) *)

(** What AT-SPI answers about the tree and about actions, as one
    snapshot. *)
Record Tree := mkTree {
  Atspi_get_parent : Handle -> Answer (option Handle);
  Atspi_get_index_in_parent : Handle -> Answer Z;
  Atspi_get_child_count : Handle -> Answer Z;
  Atspi_get_child_at_index : Handle -> Z -> Answer (option Handle);
  Atspi_get_action_iface : Handle -> Answer bool;   (* [iface is not None] *)
  Atspi_get_n_actions : Handle -> Answer Z;
  Atspi_get_action_name : Handle -> Z -> Answer string
}.

(** [Atspi.Role.APPLICATION], number 75 of AT-SPI's roles. *)
Definition APPLICATION : Role := ROLE_OTHER 75.

(** [range(n)] *)
Definition range (n : Z) : list Z := map Z.of_nat (seq 0 (Z.to_nat n)).

Module AXTree.

Definition get_index_in_parent (t : Tree) (c : Cache) (o : option Handle) : Z * Cache :=
  match o with
  | None => ((-1)%Z, c)
  | Some h =>
      if negb (AXObject.is_valid c o) then ((-1)%Z, c)
      else match Atspi_get_index_in_parent t h with
           | Error gone => ((-1)%Z, AXObject.handle_error h gone c)
           | Ok index => (index, c)
           end
  end.

Definition get_parent (t : Tree) (c : Cache) (o : option Handle)
    : option Handle * Cache :=
  match o with
  | None => (None, c)
  | Some h =>
      if negb (AXObject.is_valid c o) then (None, c)
      else match Atspi_get_parent t h with
           | Error gone => (None, AXObject.handle_error h gone c)
           | Ok parent => if same_handle parent o then (None, c) else (parent, c)
           end
  end.

Definition get_child_count (t : Tree) (c : Cache) (o : option Handle) : Z * Cache :=
  match o with
  | None => (0%Z, c)
  | Some h =>
      if negb (AXObject.is_valid c o) then (0%Z, c)
      else match Atspi_get_child_count t h with
           | Error gone => (0%Z, AXObject.handle_error h gone c)
           | Ok count => (count, c)
           end
  end.

Definition get_child (t : Tree) (c : Cache) (o : option Handle) (index : Z)
    : option Handle * Cache :=
  match o with
  | None => (None, c)
  | Some h =>
      if negb (AXObject.is_valid c o) then (None, c)
      else
        let '(n_children, c) := get_child_count t c o in
        if (n_children <=? 0)%Z then (None, c)
        else
          let index := if (index =? -1)%Z then (n_children - 1)%Z else index in
          if negb ((0 <=? index)%Z && (index <? n_children)%Z) then (None, c)
          else match Atspi_get_child_at_index t h index with
               | Error gone => (None, AXObject.handle_error h gone c)
               | Ok child => if same_handle child o then (None, c) else (child, c)
               end
  end.

(** The loop at the end of [get_parent_checked] that looks for [o]
    among the children of [parent], for the log. *)
Fixpoint scan_children (t : Tree) (c : Cache) (parent o : option Handle)
    (indices : list Z) : Cache :=
  match indices with
  | [] => c
  | i :: rest =>
      let '(child, c) := get_child t c parent i in
      if same_handle child o then c else scan_children t c parent o rest
  end.

(** [get_parent_checked]: past the tests on the role and on the parent,
    every path returns the parent; when messages of level
    [debug.LEVEL_INFO] are printed, the checks made for the log go on
    asking AT-SPI. *)
Definition get_parent_checked (env : Env) (t : Tree) (c : Cache) (o : option Handle)
    : option Handle * Cache :=
  if negb (AXObject.is_valid c o) then (None, c)
  else
    let '(role, c) := AXObject.get_role env c o in
    if role_in role [INVALID; APPLICATION] then (None, c)
    else
      let '(parent, c) := get_parent t c o in
      match parent with
      | None => (None, c)
      | Some p =>
          if negb (debug_info env) then (parent, c)
          else
            let '(dead, c) := AXObject.is_dead env c (obj o) in
            if dead then (parent, c)
            else
              let '(index, c) := get_index_in_parent t c o in
              let '(nchildren, c) := get_child_count t c parent in
              if (index <? 0)%Z || (nchildren <=? index)%Z then (parent, c)
              else
                match Atspi_get_child_at_index t p index with
                | Error gone => (parent, AXObject.handle_error p gone c)
                | Ok child =>
                    if same_handle child o then (parent, c)
                    else (parent, scan_children t c parent o (range nchildren))
                end
      end.

Definition get_previous_sibling (t : Tree) (c : Cache) (o : option Handle)
    : option Handle * Cache :=
  if negb (AXObject.is_valid c o) then (None, c)
  else
    let '(parent, c) := get_parent t c o in
    match parent with
    | None => (None, c)
    | Some parent =>
        let '(index, c) := get_index_in_parent t c o in
        if (index <=? 0)%Z then (None, c)
        else
          let '(sibling, c) := get_child t c (Some parent) (index - 1) in
          if same_handle sibling o then (None, c) else (sibling, c)
    end.

Definition get_next_sibling (t : Tree) (c : Cache) (o : option Handle)
    : option Handle * Cache :=
  if negb (AXObject.is_valid c o) then (None, c)
  else
    let '(parent, c) := get_parent t c o in
    match parent with
    | None => (None, c)
    | Some parent =>
        let '(index, c) := get_index_in_parent t c o in
        if (index <? 0)%Z then (None, c)
        else
          let '(sibling, c) := get_child t c (Some parent) (index + 1) in
          if same_handle sibling o then (None, c) else (sibling, c)
    end.

(** The loop of [find_ancestor].  [objects] are the objects met so far;
    [fuel] bounds the number of further turns, and the outer [None] says
    that it ran out.  [pred] is a test that does not reach [AXObject]. *)
Fixpoint find_ancestor_loop (env : Env) (t : Tree) (pred : Handle -> bool)
    (fuel : nat) (c : Cache) (objects : list Handle) (parent : option Handle)
    : option (option Handle) * Cache :=
  match parent with
  | None => (Some None, c)
  | Some p =>
      if Py.list_in Pos.eqb p objects then (Some None, c)
      else if pred p then (Some (Some p), c)
      else
        match fuel with
        | O => (None, c)
        | S fuel' =>
            let '(parent, c) := get_parent_checked env t c (Some p) in
            find_ancestor_loop env t pred fuel' c (objects ++ [p]) parent
        end
  end.

Definition find_ancestor (env : Env) (t : Tree) (fuel : nat) (c : Cache)
    (o : option Handle) (pred : Handle -> bool) : option (option Handle) * Cache :=
  match o with
  | None => (Some None, c)
  | Some h =>
      if negb (AXObject.is_valid c o) then (Some None, c)
      else
        let '(parent, c) := get_parent_checked env t c o in
        find_ancestor_loop env t pred fuel c [h] parent
  end.

Definition is_ancestor (env : Env) (t : Tree) (fuel : nat) (c : Cache)
    (o ancestor : option Handle) : option bool * Cache :=
  if negb (AXObject.is_valid c o) then (Some false, c)
  else if negb (AXObject.is_valid c ancestor) then (Some false, c)
  else
    let '(r, c) := find_ancestor env t fuel c o (fun x => same_handle (Some x) ancestor) in
    (match r with
     | None => None
     | Some r => Some (match r with Some _ => true | None => false end)
     end, c).

(** *** Actions *)

Definition supports_action (t : Tree) (c : Cache) (o : option Handle) : bool * Cache :=
  match o with
  | None => (false, c)
  | Some h =>
      if negb (AXObject.is_valid c o) then (false, c)
      else match Atspi_get_action_iface t h with
           | Error gone => (false, AXObject.handle_error h gone c)
           | Ok iface => (iface, c)
           end
  end.

Definition get_n_actions (t : Tree) (c : Cache) (o : option Handle) : Z * Cache :=
  let '(supported, c) := supports_action t c o in
  if negb supported then (0%Z, c)
  else
    match o with
    | None => (0%Z, c)
    | Some h =>
        match Atspi_get_n_actions t h with
        | Error gone => (0%Z, AXObject.handle_error h gone c)
        | Ok count => (count, c)
        end
    end.

Definition is_lower (c : ascii) : bool :=
  (97 <=? nat_of_ascii c)%nat && (nat_of_ascii c <=? 122)%nat.

Definition is_upper (c : ascii) : bool :=
  (65 <=? nat_of_ascii c)%nat && (nat_of_ascii c <=? 90)%nat.

(** The character class of the second substitution: the ASCII
    punctuation, the backslash excepted (in the class it only escapes
    the bracket that follows it). *)
Definition is_punctuation (c : ascii) : bool :=
  let n := nat_of_ascii c in
  ((33 <=? n)%nat && (n <=? 47)%nat)
  || ((58 <=? n)%nat && (n <=? 64)%nat)
  || (n =? 91)%nat
  || ((93 <=? n)%nat && (n <=? 96)%nat)
  || ((123 <=? n)%nat && (n <=? 126)%nat).

(** [re.sub(r'(?<=[a-z])([A-Z])', r'-\1', s)]: a dash goes before every
    capital that follows a small letter; [after_lower] tells whether the
    character before is a small letter.  The two classes hold ASCII
    letters only. *)
Fixpoint dash_capitals (after_lower : bool) (s : string) : string :=
  match s with
  | EmptyString => EmptyString
  | String c s' =>
      if after_lower && is_upper c
      then String "-"%char (String c (dash_capitals (is_lower c) s'))
      else String c (dash_capitals (is_lower c) s')
  end.

Fixpoint dash_punctuation (s : string) : string :=
  match s with
  | EmptyString => EmptyString
  | String c s' =>
      String (if is_punctuation c then "-"%char else c) (dash_punctuation s')
  end.

Definition _normalize_action_name (env : Env) (action_name : string) : string :=
  if String.eqb action_name "" then ""
  else dash_punctuation (str_lower env (dash_capitals false action_name)).

Definition get_action_name (env : Env) (t : Tree) (c : Cache) (o : option Handle) (i : Z)
    : string * Cache :=
  if negb (0 <=? i)%Z then ("", c)
  else
    let '(n, c) := get_n_actions t c o in
    if negb (i <? n)%Z then ("", c)
    else
      match o with
      | None => ("", c)
      | Some h =>
          match Atspi_get_action_name t h i with
          | Error gone => ("", AXObject.handle_error h gone c)
          | Ok name => (_normalize_action_name env name, c)
          end
      end.

(** The loop of [get_action_index] over the indices still to try. *)
Fixpoint action_index_loop (env : Env) (t : Tree) (c : Cache) (o : option Handle)
    (action_name : string) (indices : list Z) : Z * Cache :=
  match indices with
  | [] => ((-1)%Z, c)
  | i :: rest =>
      let '(name, c) := get_action_name env t c o i in
      if String.eqb action_name name then (i, c)
      else action_index_loop env t c o action_name rest
  end.

Definition get_action_index (env : Env) (t : Tree) (c : Cache) (o : option Handle)
    (action_name : string) : Z * Cache :=
  let action_name := _normalize_action_name env action_name in
  let '(n, c) := get_n_actions t c o in
  action_index_loop env t c o action_name (range n).

Definition has_action (env : Env) (t : Tree) (c : Cache) (o : option Handle)
    (action_name : string) : bool * Cache :=
  let '(index, c) := get_action_index env t c o action_name in
  ((0 <=? index)%Z, c).

End AXTree.

(** ** Predicates used to state the properties *)

(** Every category of the subscription table has a positive count. *)
Definition counts_positive (c : gmap string Z) : Prop :=
  forall k n, c !! k = Some n -> (0 < n)%Z.


Definition set_trace (t : list Effect) (w : World) : World :=
  mkWorld (_asyncMode w) (_scriptListenerCounts w) (_active w) (_eventQueue w)
    (_gidleId w) (_synchronousToolkits w) (_eventsSuspended w)
    (_suspendableEvents w) (_eventsTriggeringSuspension w) (_ignoredEvents w)
    (_parentsOfDefunctDescendants w) (locusOfFocus w) (activeWindow w)
    (activeScript w) t.

(** [w'] is [w] except, at most, for the listener counts and the trace:
    all that [registerListener] and [deregisterListener] may touch. *)
Definition listeners_only (w w' : World) : Prop :=
  w' = set_trace (trace w') (set_counts (_scriptListenerCounts w') w).

(** [w'] is [w] except, at most, for the memo of parents of defunct
    descendants: all that the filter may touch. *)
Definition parents_only (w w' : World) : Prop :=
  w' = set_parents (_parentsOfDefunctDescendants w') w.

(** The suspension gate together with the subscription table it acts
    on. *)
Definition gate (w : World) : gmap string Z * bool * list string * list Event :=
  (_scriptListenerCounts w, _eventsSuspended w, _suspendableEvents w,
   _eventsTriggeringSuspension w).

(** The "process during flood" predicate, spelled out: the category is
    outside the high-volume set or the source is the locus of focus, and
    the source is not dead. *)
Definition survives_flood (env : Env) (c : Cache) (w : World) (x : Event) : Prop :=
  (~ In (type x) high_volume \/ source x = locusOfFocus w)
  /\ fst (AXObject.is_dead env c (obj (source x))) = false.

(** The script [_isActivatableEvent] decides about: the one passed in,
    or else the one [_getScriptForEvent] finds. *)
Definition candidate_script (env : Env) (c : Cache) (event : Event)
    (script : option Script) : option Script :=
  match script with
  | Some s => Some s
  | None => fst (_getScriptForEvent env c event)
  end.

(** What one [registerListener] and one [deregisterListener] do to the
    entry of their own category. *)
Definition bump (o : option Z) : option Z :=
  match o with
  | Some n => Some (n + 1)%Z
  | None => Some 1%Z
  end.

Definition drop (o : option Z) : option Z :=
  match o with
  | Some n => if (n - 1 =? 0)%Z then None else Some (n - 1)%Z
  | None => None
  end.

(** An entry of the table: absent, or a positive count. *)
Definition entry_ok (o : option Z) : Prop :=
  match o with
  | Some n => (0 < n)%Z
  | None => True
  end.

(** No event waits without a drain being scheduled: while the queue is
    not empty, [_gidleId] holds the id of the pending idle callback. *)
Definition pending_scheduled (w : World) : Prop :=
  _eventQueue w <> [] -> _gidleId w <> 0%Z.

(** Every character of [s] passes the test [ok]. *)
Fixpoint all_chars (ok : ascii -> bool) (s : string) : bool :=
  match s with
  | EmptyString => true
  | String c s' => ok c && all_chars ok s'
  end.

(** A character a normalized action name of ASCII text may hold: no
    capital from A to Z, and none of the punctuation characters of the
    class but the dash (the backslash is not in the class). *)
Definition normal_char (c : ascii) : bool :=
  negb (AXTree.is_upper c)
  && (negb (AXTree.is_punctuation c) || Ascii.eqb c "-"%char).

(** Asking AT-SPI for the name of [h] raises. *)
Definition names_fail (env : Env) (h : Handle) : bool :=
  match Atspi_get_name env h with
  | Ok _ => false
  | Error _ => true
  end.

(** [c'] knows as dead the objects [c] knows, and besides only objects
    whose name cannot be read. *)
Definition dead_grows (env : Env) (c c' : Cache) : Prop :=
  forall h,
    (AXObject.object_is_known_dead c h = true ->
     AXObject.object_is_known_dead c' h = true)
    /\ (AXObject.object_is_known_dead c' h = true ->
        AXObject.object_is_known_dead c h = true \/ names_fail env h = true).

(** What a call may do to the caches of [AXObject]: [KNOWN_DEAD] gets
    longer, and [KNOWN_ROLES] gets entries it did not have. *)
Definition cache_grows (c c' : Cache) : Prop :=
  (exists added, KNOWN_DEAD c' = KNOWN_DEAD c ++ added)
  /\ KNOWN_ROLES c ⊆ KNOWN_ROLES c'.

(** ** A concrete desktop, used to run the definitions *)

Module Scenario.

(** An office suite drawn with the VCL toolkit, and an editor drawn with
    GTK. *)
Definition office_app : Handle := 1%positive.
Definition office_doc : Handle := 2%positive.
Definition editor_app : Handle := 10%positive.
Definition editor_frame : Handle := 11%positive.
Definition editor_text : Handle := 12%positive.

Definition office_script : Script := 1%positive.
Definition editor_script : Script := 2%positive.
Definition default_script : Script := 9%positive.

Definition application_of (h : Handle) : option Handle :=
  if (h =? office_doc)%positive then Some office_app
  else if (h =? editor_frame)%positive || (h =? editor_text)%positive then Some editor_app
  else None.

Definition script_of (app : option Handle) : Script :=
  match app with
  | Some a =>
      if (a =? office_app)%positive then office_script
      else if (a =? editor_app)%positive then editor_script
      else default_script
  | None => default_script
  end.

Definition utilities (p : AXPredicate) (v : Value) : bool :=
  match p, v with
  | is_frame, VObj h => (h =? editor_frame)%positive
  | is_document, VObj h => (h =? office_doc)%positive
  | _, _ => false
  end.

Definition env : Env := {|
  Atspi_get_name := fun h =>
    if (h =? office_app)%positive then Ok "soffice"
    else if (h =? editor_app)%positive then Ok "gedit"
    else Ok "";
  Atspi_get_application := fun h => Ok (application_of h);
  Atspi_get_toolkit_name := fun h =>
    if (h =? office_app)%positive then Ok "VCL" else Ok "gtk";
  Atspi_get_role := fun h =>
    if (h =? editor_text)%positive then Ok TEXT else Ok (ROLE_OTHER 0);
  AXUtilities := utilities;
  get_desktop := None;
  str_lower := Py.ascii_lower;
  debug_info := false;
  getScript := fun app _ _ => Some (script_of app);
  getScriptForMouseButtonEvent := fun _ => Some default_script;
  setActiveScript_raises := fun _ => false;
  script_app := fun s =>
    if (s =? office_script)%positive then Some office_app
    else if (s =? editor_script)%positive then Some editor_app
    else None;
  isActivatableEvent := fun _ _ => true;
  forceScriptActivation := fun _ _ => false;
  processObjectEvent := fun _ _ focus => focus;
  idle_add := 1%positive
|}.

(** The same desktop with scripts that force their activation for every
    event. *)
Definition pushy_env : Env := {|
  Atspi_get_name := Atspi_get_name env;
  Atspi_get_application := Atspi_get_application env;
  Atspi_get_toolkit_name := Atspi_get_toolkit_name env;
  Atspi_get_role := Atspi_get_role env;
  AXUtilities := AXUtilities env;
  get_desktop := get_desktop env;
  str_lower := str_lower env;
  debug_info := debug_info env;
  getScript := getScript env;
  getScriptForMouseButtonEvent := getScriptForMouseButtonEvent env;
  setActiveScript_raises := setActiveScript_raises env;
  script_app := script_app env;
  isActivatableEvent := isActivatableEvent env;
  forceScriptActivation := fun _ _ => true;
  processObjectEvent := processObjectEvent env;
  idle_add := idle_add env
|}.

(** An activated manager (what [activate] leaves after [__init__]) whose
    active script is the editor's, with the focus in the editor's text. *)
Definition start (asyncMode : bool) : World :=
  mkWorld asyncMode ∅ true [] 0 (_synchronousToolkits (init asyncMode)) false
    (_suspendableEvents (init asyncMode)) [] (_ignoredEvents (init asyncMode)) []
    (Some editor_text) (Some editor_frame) (Some editor_script) [].

Definition object_event (id : positive) (t : string) (src : Handle) (d1 d2 : Z)
    (data : Value) : Event :=
  mkEvent id ObjectChange t (Some src) d1 d2 data.

(** Text typed into the office document, which does not have the focus. *)
Definition insert (id : positive) : Event :=
  object_event id "object:text-changed:insert" office_doc 0 1 (VStr "a").

(** Another insertion there, at another offset. *)
Definition insert_later (id : positive) : Event :=
  object_event id "object:text-changed:insert" office_doc 7 1 (VStr "b").

(** [n] pending insertions, with identities [1 .. n]. *)
Definition backlog (n : nat) : list Event :=
  map (fun i => insert (Pos.of_nat i)) (seq 1 n).

(** The caret moves in the editor's text, which has the focus. *)
Definition caret_moved (id : positive) : Event :=
  object_event id "object:text-caret-moved" editor_text 3 0 VNone.

Definition focus_gained (id : positive) : Event :=
  object_event id "object:state-changed:focused" editor_text 1 0 VNone.

Definition window_activate (id : positive) : Event :=
  object_event id "window:activate" editor_frame 0 0 VNone.

(** The focus moves into the office document. *)
Definition office_focus (id : positive) : Event :=
  object_event id "object:state-changed:focused" office_doc 1 0 VNone.

Definition office_busy (id : positive) : Event :=
  object_event id "object:state-changed:busy" office_doc 1 0 VNone.

(** The same desktop at a moment when the office document is going
    away: asking for its role raises with the message that the object
    does not exist, while its name can still be read. *)
Definition gone_env : Env := {|
  Atspi_get_name := Atspi_get_name env;
  Atspi_get_application := Atspi_get_application env;
  Atspi_get_toolkit_name := Atspi_get_toolkit_name env;
  Atspi_get_role := fun h =>
    if (h =? office_doc)%positive then Error true else Atspi_get_role env h;
  AXUtilities := AXUtilities env;
  get_desktop := get_desktop env;
  str_lower := str_lower env;
  debug_info := debug_info env;
  getScript := getScript env;
  getScriptForMouseButtonEvent := getScriptForMouseButtonEvent env;
  setActiveScript_raises := setActiveScript_raises env;
  script_app := script_app env;
  isActivatableEvent := isActivatableEvent env;
  forceScriptActivation := forceScriptActivation env;
  processObjectEvent := processObjectEvent env;
  idle_add := idle_add env
|}.



(** The same desktop, where the editor's text manages its descendants
    and one of its children, [lost_child], is defunct. *)
Definition lost_child : Handle := 13%positive.

Definition memo_env : Env := {|
  Atspi_get_name := Atspi_get_name env;
  Atspi_get_application := Atspi_get_application env;
  Atspi_get_toolkit_name := Atspi_get_toolkit_name env;
  Atspi_get_role := Atspi_get_role env;
  AXUtilities := fun p v =>
    match p, v with
    | manages_descendants, VObj h => (h =? editor_text)%positive
    | is_defunct, VObj h => (h =? lost_child)%positive
    | _, _ => utilities p v
    end;
  get_desktop := get_desktop env;
  str_lower := str_lower env;
  debug_info := debug_info env;
  getScript := getScript env;
  getScriptForMouseButtonEvent := getScriptForMouseButtonEvent env;
  setActiveScript_raises := setActiveScript_raises env;
  script_app := script_app env;
  isActivatableEvent := isActivatableEvent env;
  forceScriptActivation := forceScriptActivation env;
  processObjectEvent := processObjectEvent env;
  idle_add := idle_add env
|}.

(** A child is added to the editor's text. *)
Definition child_added (id : positive) (child : Handle) : Event :=
  object_event id "object:children-changed:add" editor_text 0 0 (VObj child).

(** The editor's tree as AT-SPI reports it: the frame under the
    application, the text under the frame with [lost_child] after it. *)
Definition editor_tree : Tree := {|
  Atspi_get_parent := fun h =>
    if (h =? editor_frame)%positive then Ok (Some editor_app)
    else if (h =? editor_text)%positive || (h =? lost_child)%positive
    then Ok (Some editor_frame)
    else Ok None;
  Atspi_get_index_in_parent := fun h =>
    if (h =? lost_child)%positive then Ok 1%Z
    else if (h =? editor_app)%positive then Ok (-1)%Z
    else Ok 0%Z;
  Atspi_get_child_count := fun h =>
    if (h =? editor_app)%positive then Ok 1%Z
    else if (h =? editor_frame)%positive then Ok 2%Z
    else Ok 0%Z;
  Atspi_get_child_at_index := fun h i =>
    if (h =? editor_app)%positive && (i =? 0)%Z then Ok (Some editor_frame)
    else if (h =? editor_frame)%positive && (i =? 0)%Z then Ok (Some editor_text)
    else if (h =? editor_frame)%positive && (i =? 1)%Z then Ok (Some lost_child)
    else Ok None;
  Atspi_get_action_iface := fun h => Ok (h =? editor_text)%positive;
  Atspi_get_n_actions := fun h =>
    if (h =? editor_text)%positive then Ok 2%Z else Error false;
  Atspi_get_action_name := fun h i =>
    if (h =? editor_text)%positive && (i =? 0)%Z then Ok "activate"
    else if (h =? editor_text)%positive && (i =? 1)%Z then Ok "ShowMenu"
    else Error false
|}.

(** A broken tree, in which the application claims the text as its
    parent. *)
Definition circular_tree : Tree := {|
  Atspi_get_parent := fun h =>
    if (h =? editor_app)%positive then Ok (Some editor_text)
    else Atspi_get_parent editor_tree h;
  Atspi_get_index_in_parent := Atspi_get_index_in_parent editor_tree;
  Atspi_get_child_count := Atspi_get_child_count editor_tree;
  Atspi_get_child_at_index := Atspi_get_child_at_index editor_tree;
  Atspi_get_action_iface := Atspi_get_action_iface editor_tree;
  Atspi_get_n_actions := Atspi_get_n_actions editor_tree;
  Atspi_get_action_name := Atspi_get_action_name editor_tree
|}.

End Scenario.
(** * Properties *)

(** ** The definitions at work *)

Example endswith_system :
  Py.endswith "object:text-changed:insert:system" "system" = true
  /\ Py.endswith "object:text-changed:insert" "system" = false.
Proof. split; reflexivity. Qed.

Example lower_name : Py.ascii_lower "Thunderbird Mail" = "thunderbird mail".
Proof. reflexivity. Qed.

Example replace_del_overlapping : Py.replace_del "aa" "aaa" 0 = "a".
Proof. reflexivity. Qed.

Example embedded_objects_only :
  only_embedded_objects
    (Scenario.object_event 1 "object:text-changed:insert" Scenario.editor_text 0 2
       (VStr (EMBEDDED_OBJECT_CHARACTER ++ EMBEDDED_OBJECT_CHARACTER)%string))
  = Returns true
  /\ only_embedded_objects (Scenario.insert 1) = Returns false.
Proof. split; reflexivity. Qed.

(** 120 insertions from a source without the focus are pending when the
    focus is gained: the insertions are pruned and the focus event is
    the one left to drain. *)
Example backlog_pruned_by_focus :
  _eventQueue
    (snd (fst (_enqueue Scenario.env no_cache
                 (set_queue (Scenario.backlog 120) (Scenario.start true))
                 (Scenario.focus_gained 500))))
  = [Scenario.focus_gained 500].
Proof. reflexivity. Qed.

(** A window is activated on an idle desktop: events are suspended while
    the event waits, and the drain that delivers it lifts the
    suspension. *)
Example window_activation_round_trip :
  let w := snd (fst (_enqueue Scenario.env no_cache (Scenario.start true)
                       (Scenario.window_activate 1))) in
  _eventsSuspended w = true
  /\ _eventsSuspended (fst (run_idle Scenario.env 2 no_cache w)) = false
  /\ delivered (fst (run_idle Scenario.env 2 no_cache w)) = [Scenario.window_activate 1].
Proof. repeat split. Qed.

(** ** Frame lemmas *)

Lemma listeners_only_refl (w : World) : listeners_only w w.
Proof. unfold listeners_only. destruct w; reflexivity. Qed.

Lemma listeners_only_trans (w1 w2 w3 : World) :
  listeners_only w1 w2 -> listeners_only w2 w3 -> listeners_only w1 w3.
Proof.
  unfold listeners_only, set_trace, set_counts. destruct w1, w2, w3; simpl.
  intros H12 H23. inversion H12; subst. inversion H23; subst. reflexivity.
Qed.

Lemma registerListener_frame (t : string) (w : World) :
  listeners_only w (registerListener t w).
Proof.
  unfold listeners_only, registerListener.
  destruct (_scriptListenerCounts w !! t); destruct w; reflexivity.
Qed.

Lemma deregisterListener_frame (t : string) (w : World) :
  listeners_only w (deregisterListener t w).
Proof.
  unfold listeners_only, deregisterListener.
  destruct (_scriptListenerCounts w !! t) as [n|]; [|destruct w; reflexivity].
  destruct (n - 1 =? 0)%Z; destruct w; reflexivity.
Qed.

Lemma registerAll_frame (l : list string) (w : World) :
  listeners_only w (registerAll l w).
Proof.
  revert w. induction l as [|t l IH]; intros w; simpl.
  - apply listeners_only_refl.
  - eapply listeners_only_trans; [apply registerListener_frame | apply IH].
Qed.

Lemma deregisterAll_frame (l : list string) (w : World) :
  listeners_only w (deregisterAll l w).
Proof.
  revert w. induction l as [|t l IH]; intros w; simpl.
  - apply listeners_only_refl.
  - eapply listeners_only_trans; [apply deregisterListener_frame | apply IH].
Qed.

(** What [listeners_only] keeps, field by field. *)
Lemma listeners_only_fields (w w' : World) :
  listeners_only w w' ->
  _eventsSuspended w' = _eventsSuspended w
  /\ _suspendableEvents w' = _suspendableEvents w
  /\ _eventsTriggeringSuspension w' = _eventsTriggeringSuspension w
  /\ _eventQueue w' = _eventQueue w
  /\ _gidleId w' = _gidleId w
  /\ locusOfFocus w' = locusOfFocus w
  /\ _asyncMode w' = _asyncMode w
  /\ _synchronousToolkits w' = _synchronousToolkits w.
Proof.
  unfold listeners_only. intros H.
  repeat split.
  - apply (f_equal _eventsSuspended) in H; exact H.
  - apply (f_equal _suspendableEvents) in H; exact H.
  - apply (f_equal _eventsTriggeringSuspension) in H; exact H.
  - apply (f_equal _eventQueue) in H; exact H.
  - apply (f_equal _gidleId) in H; exact H.
  - apply (f_equal locusOfFocus) in H; exact H.
  - apply (f_equal _asyncMode) in H; exact H.
  - apply (f_equal _synchronousToolkits) in H; exact H.
Qed.

(** The counts after a run of registrations depend on the counts
    before it only. *)
Lemma registerListener_counts (t : string) (w1 w2 : World) :
  _scriptListenerCounts w1 = _scriptListenerCounts w2 ->
  _scriptListenerCounts (registerListener t w1)
  = _scriptListenerCounts (registerListener t w2).
Proof.
  intros H. unfold registerListener. rewrite H.
  destruct (_scriptListenerCounts w2 !! t); simpl; rewrite ?H; reflexivity.
Qed.

Lemma registerAll_counts (l : list string) (w1 w2 : World) :
  _scriptListenerCounts w1 = _scriptListenerCounts w2 ->
  _scriptListenerCounts (registerAll l w1) = _scriptListenerCounts (registerAll l w2).
Proof.
  revert w1 w2. induction l as [|t l IH]; intros w1 w2 H; simpl; [exact H|].
  apply IH, registerListener_counts, H.
Qed.

Lemma deregisterListener_counts (t : string) (w1 w2 : World) :
  _scriptListenerCounts w1 = _scriptListenerCounts w2 ->
  _scriptListenerCounts (deregisterListener t w1)
  = _scriptListenerCounts (deregisterListener t w2).
Proof.
  intros H. unfold deregisterListener. rewrite H.
  destruct (_scriptListenerCounts w2 !! t) as [n|]; [|exact H].
  destruct (n - 1 =? 0)%Z; reflexivity.
Qed.

Lemma deregisterAll_counts (l : list string) (w1 w2 : World) :
  _scriptListenerCounts w1 = _scriptListenerCounts w2 ->
  _scriptListenerCounts (deregisterAll l w1)
  = _scriptListenerCounts (deregisterAll l w2).
Proof.
  revert w1 w2. induction l as [|t l IH]; intros w1 w2 H; simpl; [exact H|].
  apply IH, deregisterListener_counts, H.
Qed.

(** Registering a category leaves it in the table. *)
Lemma registerListener_is_Some (t t' : string) (w : World) :
  t = t' \/ is_Some (_scriptListenerCounts w !! t') ->
  is_Some (_scriptListenerCounts (registerListener t w) !! t').
Proof.
  intros H. unfold registerListener.
  destruct (_scriptListenerCounts w !! t) as [n|] eqn:E; simpl;
    (destruct (decide (t = t')) as [->|Hne];
     [rewrite lookup_insert_eq; eauto
     |rewrite lookup_insert_ne by exact Hne; destruct H as [H|H]; [contradiction|exact H]]).
Qed.

Lemma registerAll_is_Some (l : list string) (t : string) (w : World) :
  In t l \/ is_Some (_scriptListenerCounts w !! t) ->
  is_Some (_scriptListenerCounts (registerAll l w) !! t).
Proof.
  revert w. induction l as [|a l IH]; intros w H; simpl.
  - destruct H as [[]|H]; exact H.
  - apply IH. destruct H as [[->|H]|H].
    + right. apply registerListener_is_Some. left; reflexivity.
    + left; exact H.
    + right. apply registerListener_is_Some. right; exact H.
Qed.

(** ** The subscription table *)

Lemma counts_positive_insert (c : gmap string Z) (t : string) (n : Z) :
  counts_positive c -> (0 < n)%Z -> counts_positive (<[t := n]> c).
Proof.
  intros Hc Hn k m Hk. apply lookup_insert_Some in Hk as [[_ <-]|[_ Hk]].
  - exact Hn.
  - exact (Hc k m Hk).
Qed.

Lemma counts_positive_delete (c : gmap string Z) (t : string) :
  counts_positive c -> counts_positive (delete t c).
Proof.
  intros Hc k m Hk. apply lookup_delete_Some in Hk as [_ Hk]. exact (Hc k m Hk).
Qed.

(** C7.  The subscription table keeps a positive reference count per
    category.  [registerListener] adds one to the count of a category
    that is present, without touching the bus; for an absent category it
    subscribes on the bus and sets the count to 1.  [deregisterListener]
    takes one off the count; when, and only when, that makes it zero the
    category is removed from the table and unsubscribed on the bus.  An
    absent category is left alone. *)
Theorem subscription_table_reference_counts (eventType : string) (w : World) :
  counts_positive (_scriptListenerCounts w) ->
  let r := registerListener eventType w in
  let d := deregisterListener eventType w in
  counts_positive (_scriptListenerCounts r)
  /\ counts_positive (_scriptListenerCounts d)
  /\ match _scriptListenerCounts w !! eventType with
     | None =>
         _scriptListenerCounts r = <[eventType := 1%Z]> (_scriptListenerCounts w)
         /\ trace r = trace w ++ [ListenerRegister eventType]
         /\ d = w
     | Some n =>
         _scriptListenerCounts r = <[eventType := (n + 1)%Z]> (_scriptListenerCounts w)
         /\ trace r = trace w
         /\ if (n =? 1)%Z
            then _scriptListenerCounts d = delete eventType (_scriptListenerCounts w)
                 /\ trace d = trace w ++ [ListenerDeregister eventType]
            else _scriptListenerCounts d
                 = <[eventType := (n - 1)%Z]> (_scriptListenerCounts w)
                 /\ trace d = trace w
     end.
Proof.
  intros Hpos r d. subst r d. unfold registerListener, deregisterListener.
  destruct (_scriptListenerCounts w !! eventType) as [n|] eqn:E; simpl.
  - pose proof (Hpos _ _ E) as Hn.
    destruct (n =? 1)%Z eqn:E1.
    + apply Z.eqb_eq in E1. subst n. simpl.
      repeat split.
      * apply counts_positive_insert; [exact Hpos | lia].
      * rewrite delete_insert_eq. apply counts_positive_delete, Hpos.
      * apply delete_insert_eq.
    + apply Z.eqb_neq in E1.
      replace (n - 1 =? 0)%Z with false by (symmetry; apply Z.eqb_neq; lia).
      simpl. repeat split.
      * apply counts_positive_insert; [exact Hpos | lia].
      * apply counts_positive_insert; [exact Hpos | lia].
  - repeat split.
    + apply counts_positive_insert; [exact Hpos | lia].
    + exact Hpos.
Qed.

Lemma subscription_table_reference_counts_witness :
  let w := registerListener "object:text-caret-moved" (init true) in
  counts_positive (_scriptListenerCounts w)
  /\ _scriptListenerCounts (registerListener "object:text-caret-moved" w)
     !! "object:text-caret-moved" = Some 2%Z
  /\ trace (deregisterListener "object:text-caret-moved" w)
     = [ListenerRegister "object:text-caret-moved";
        ListenerDeregister "object:text-caret-moved"].
Proof.
  intros w.
  assert (Hw : counts_positive (_scriptListenerCounts w)).
  { subst w. unfold registerListener, init; simpl.
    apply counts_positive_insert; [|lia].
    intros k n Hk. rewrite lookup_empty in Hk. discriminate. }
  pose proof (subscription_table_reference_counts "object:text-caret-moved" w Hw)
    as (_ & _ & H).
  assert (E : _scriptListenerCounts w !! "object:text-caret-moved" = Some 1%Z)
    by (subst w; unfold registerListener, init; simpl; apply lookup_insert_eq).
  rewrite E in H. simpl in H. destruct H as (Hr & _ & _ & Hd).
  split; [exact Hw|]. split.
  - rewrite Hr. apply lookup_insert_eq.
  - rewrite Hd. reflexivity.
Defined.


(** ** The suspension gate *)

Lemma suspended_unsuspend_not_forced (w : World) (e : Event) :
  _eventsSuspended w = true ->
  _eventsSuspended (_unsuspendEvents e false w) = false ->
  _eventsTriggeringSuspension (_unsuspendEvents e false w) = [].
Proof.
  unfold _unsuspendEvents.
  set (w' := if Py.list_in same_object e (_eventsTriggeringSuspension w)
             then _ else w).
  intros Hs.
  assert (Hs' : _eventsSuspended w' = true).
  { subst w'. destruct (Py.list_in _ _ _); [destruct w|]; exact Hs. }
  rewrite Hs'. simpl.
  destruct (_eventsTriggeringSuspension w') as [|x l] eqn:E.
  - intros _.
    destruct (listeners_only_fields _ _ (registerAll_frame (_suspendableEvents w') w'))
      as (_ & _ & Ht & _).
    transitivity (_eventsTriggeringSuspension (registerAll (_suspendableEvents w') w')).
    + destruct (registerAll _ _); reflexivity.
    + rewrite Ht. exact E.
  - rewrite Hs'. discriminate.
Qed.

Lemma suspend_when_active (w : World) (e : Event) :
  _eventsSuspended w = false ->
  _suspendEvents e w
  = set_suspended true
      (deregisterAll (_suspendableEvents w)
         (set_triggers (_eventsTriggeringSuspension w ++ [e]) w)).
Proof.
  intros H. unfold _suspendEvents.
  destruct w; simpl in *; subst; reflexivity.
Qed.

Lemma suspend_when_suspended (w : World) (e : Event) :
  _eventsSuspended w = true ->
  _suspendEvents e w = set_triggers (_eventsTriggeringSuspension w ++ [e]) w.
Proof.
  intros H. unfold _suspendEvents.
  destruct w; simpl in *; subst; reflexivity.
Qed.

Lemma unsuspend_other_trigger_left (w : World) (e x : Event) (l : list Event) :
  _eventsSuspended w = true ->
  Py.list_in same_object e (_eventsTriggeringSuspension w) = true ->
  Py.list_remove same_object e (_eventsTriggeringSuspension w) = x :: l ->
  _unsuspendEvents e false w = set_triggers (x :: l) w.
Proof.
  intros Hs Hin Hrm. unfold _unsuspendEvents. rewrite Hin, Hrm.
  destruct w; simpl in *; subst; reflexivity.
Qed.

Lemma unsuspend_last_trigger (w : World) (e : Event) :
  _eventsSuspended w = true ->
  Py.list_in same_object e (_eventsTriggeringSuspension w) = true ->
  Py.list_remove same_object e (_eventsTriggeringSuspension w) = [] ->
  _unsuspendEvents e false w
  = set_suspended false (registerAll (_suspendableEvents w) (set_triggers [] w)).
Proof.
  intros Hs Hin Hrm. unfold _unsuspendEvents. rewrite Hin, Hrm.
  destruct w; simpl in *; subst; reflexivity.
Qed.

Lemma unsuspend_forced (w : World) (e : Event) :
  _eventsSuspended w = true ->
  Py.list_in same_object e (_eventsTriggeringSuspension w) = false ->
  _unsuspendEvents e true w
  = set_suspended false (registerAll (_suspendableEvents w) w).
Proof.
  intros Hs Hin. unfold _unsuspendEvents. rewrite Hin, Hs. simpl.
  destruct (_eventsTriggeringSuspension w); reflexivity.
Qed.

Lemma list_in_last (x : Event) (l : list Event) :
  Py.list_in same_object x (l ++ [x]) = true.
Proof.
  unfold Py.list_in. rewrite existsb_app. simpl.
  unfold same_object. rewrite Pos.eqb_refl. apply orb_true_iff; right; reflexivity.
Qed.

Lemma list_remove_keeps_other (x a b : Event) (l : list Event) :
  same_object x a = false ->
  Py.list_remove same_object x (l ++ [a; b]) <> [].
Proof.
  intros Hxa. induction l as [|y l IH]; simpl.
  - rewrite Hxa. discriminate.
  - destruct (same_object x y); [|discriminate].
    destruct l; discriminate.
Qed.


Lemma list_in_string (t : string) (l : list string) :
  Py.list_in String.eqb t l = true <-> In t l.
Proof.
  unfold Py.list_in. rewrite existsb_exists. split.
  - intros (x & Hx & E). apply String.eqb_eq in E. subst x. exact Hx.
  - intros H. exists t. split; [exact H|apply String.eqb_refl].
Qed.


Lemma registerListener_lookup (t k : string) (w : World) :
  _scriptListenerCounts (registerListener t w) !! k
  = if decide (t = k) then bump (_scriptListenerCounts w !! k)
    else _scriptListenerCounts w !! k.
Proof.
  unfold registerListener.
  destruct (_scriptListenerCounts w !! t) as [n|] eqn:E; simpl;
    (destruct (decide (t = k)) as [<-|Hne];
     [rewrite lookup_insert_eq, E; reflexivity
     |rewrite lookup_insert_ne by exact Hne; reflexivity]).
Qed.

Lemma deregisterListener_lookup (t k : string) (w : World) :
  _scriptListenerCounts (deregisterListener t w) !! k
  = if decide (t = k) then drop (_scriptListenerCounts w !! k)
    else _scriptListenerCounts w !! k.
Proof.
  unfold deregisterListener.
  destruct (_scriptListenerCounts w !! t) as [n|] eqn:E; simpl.
  - destruct (n - 1 =? 0)%Z eqn:E0; simpl;
      (destruct (decide (t = k)) as [<-|Hne]; [rewrite E; simpl; rewrite E0|]).
    + apply lookup_delete_eq.
    + rewrite lookup_delete_ne by exact Hne. apply lookup_insert_ne, Hne.
    + apply lookup_insert_eq.
    + apply lookup_insert_ne, Hne.
  - destruct (decide (t = k)) as [<-|Hne]; [rewrite E|]; reflexivity.
Qed.

Lemma iter_shift {A : Type} (f : A -> A) (n : nat) (x : A) :
  Nat.iter n f (f x) = f (Nat.iter n f x).
Proof. induction n as [|n IH]; simpl; [reflexivity|rewrite IH; reflexivity]. Qed.

Lemma registerAll_lookup (l : list string) (k : string) (w : World) :
  _scriptListenerCounts (registerAll l w) !! k
  = Nat.iter (count_occ String.string_dec l k) bump (_scriptListenerCounts w !! k).
Proof.
  revert w. induction l as [|t l IH]; intros w; [reflexivity|].
  change (registerAll (t :: l) w) with (registerAll l (registerListener t w)).
  rewrite IH, registerListener_lookup. simpl.
  destruct (String.string_dec t k) as [->|Hne].
  - rewrite decide_True by reflexivity. simpl. apply iter_shift.
  - rewrite decide_False by exact Hne. reflexivity.
Qed.

Lemma deregisterAll_lookup (l : list string) (k : string) (w : World) :
  _scriptListenerCounts (deregisterAll l w) !! k
  = Nat.iter (count_occ String.string_dec l k) drop (_scriptListenerCounts w !! k).
Proof.
  revert w. induction l as [|t l IH]; intros w; [reflexivity|].
  change (deregisterAll (t :: l) w) with (deregisterAll l (deregisterListener t w)).
  rewrite IH, deregisterListener_lookup. simpl.
  destruct (String.string_dec t k) as [->|Hne].
  - rewrite decide_True by reflexivity. simpl. apply iter_shift.
  - rewrite decide_False by exact Hne. reflexivity.
Qed.

Lemma bump_ok (o : option Z) : entry_ok o -> entry_ok (bump o).
Proof. destruct o as [n|]; unfold entry_ok, bump; intros; lia. Qed.

Lemma drop_bump (o : option Z) : entry_ok o -> drop (bump o) = o.
Proof.
  destruct o as [n|]; simpl; intros H; [|reflexivity].
  replace (n + 1 - 1)%Z with n by lia.
  destruct (Z.eqb_spec n 0); [lia|reflexivity].
Qed.

Lemma iter_drop_bump (m : nat) (o : option Z) :
  entry_ok o -> Nat.iter m drop (Nat.iter m bump o) = o.
Proof.
  intros H. induction m as [|m IH]; [reflexivity|].
  simpl. rewrite <- iter_shift. rewrite drop_bump; [exact IH|].
  clear IH. induction m as [|m IHm]; simpl; [exact H|apply bump_ok, IHm].
Qed.

Lemma bump_drop (o : option Z) : bump (drop o) = Some (default 1%Z o).
Proof.
  destruct o as [n|]; simpl; [|reflexivity].
  destruct (Z.eqb_spec (n - 1) 0) as [E|E]; simpl; f_equal; lia.
Qed.


(** What the loops of [_suspendEvents] and [_unsuspendEvents] send to
    the bus. *)
Lemma deregisterListener_trace (t : string) (w : World) :
  trace (deregisterListener t w)
  = trace w ++ (if bool_decide (_scriptListenerCounts w !! t = Some 1%Z)
                then [ListenerDeregister t] else []).
Proof.
  unfold deregisterListener.
  destruct (_scriptListenerCounts w !! t) as [n|] eqn:E.
  - destruct (bool_decide_reflect (Some n = Some 1%Z)) as [H|H].
    + injection H as ->. reflexivity.
    + destruct (Z.eqb_spec (n - 1) 0) as [E0|E0];
        [exfalso; apply H; f_equal; lia|].
      destruct w; simpl. symmetry; apply app_nil_r.
  - destruct (bool_decide_reflect (@None Z = Some 1%Z)) as [H|H]; [discriminate|].
    symmetry; apply app_nil_r.
Qed.

Lemma registerListener_trace (t : string) (w : World) :
  trace (registerListener t w)
  = trace w ++ (if bool_decide (_scriptListenerCounts w !! t = None)
                then [ListenerRegister t] else []).
Proof.
  unfold registerListener.
  destruct (_scriptListenerCounts w !! t) as [n|] eqn:E.
  - destruct (bool_decide_reflect (Some n = @None Z)) as [H|H]; [discriminate|].
    destruct w; simpl. symmetry; apply app_nil_r.
  - destruct (bool_decide_reflect (@None Z = None)) as [H|H]; [|contradiction].
    reflexivity.
Qed.

Lemma deregisterAll_trace (l : list string) (w : World) :
  NoDup l ->
  trace (deregisterAll l w)
  = trace w ++ map ListenerDeregister
      (List.filter (fun k => bool_decide (_scriptListenerCounts w !! k = Some 1%Z)) l).
Proof.
  revert w. induction l as [|t l IH]; intros w Hnd.
  - symmetry; apply app_nil_r.
  - apply NoDup_cons in Hnd as [Hnot Hnd].
    change (deregisterAll (t :: l) w) with (deregisterAll l (deregisterListener t w)).
    rewrite (IH _ Hnd), deregisterListener_trace. rewrite <- app_assoc. f_equal.
    rewrite (List.filter_ext_in
               (fun k => bool_decide
                           (_scriptListenerCounts (deregisterListener t w) !! k = Some 1%Z))
               (fun k => bool_decide (_scriptListenerCounts w !! k = Some 1%Z))).
    + simpl. destruct (bool_decide (_scriptListenerCounts w !! t = Some 1%Z)); reflexivity.
    + intros k Hk. rewrite deregisterListener_lookup.
      destruct (decide (t = k)) as [->|Hne]; [|reflexivity].
      exfalso. apply Hnot, list_elem_of_In, Hk.
Qed.

Lemma registerAll_trace (l : list string) (w : World) :
  NoDup l ->
  trace (registerAll l w)
  = trace w ++ map ListenerRegister
      (List.filter (fun k => bool_decide (_scriptListenerCounts w !! k = None)) l).
Proof.
  revert w. induction l as [|t l IH]; intros w Hnd.
  - symmetry; apply app_nil_r.
  - apply NoDup_cons in Hnd as [Hnot Hnd].
    change (registerAll (t :: l) w) with (registerAll l (registerListener t w)).
    rewrite (IH _ Hnd), registerListener_trace. rewrite <- app_assoc. f_equal.
    rewrite (List.filter_ext_in
               (fun k => bool_decide
                           (_scriptListenerCounts (registerListener t w) !! k = None))
               (fun k => bool_decide (_scriptListenerCounts w !! k = None))).
    + simpl. destruct (bool_decide (_scriptListenerCounts w !! t = None)); reflexivity.
    + intros k Hk. rewrite registerListener_lookup.
      destruct (decide (t = k)) as [->|Hne]; [|reflexivity].
      exfalso. apply Hnot, list_elem_of_In, Hk.
Qed.

(** The entries of the table after one pass of either loop over a list
    without repetition. *)
Lemma deregisterAll_lookup_NoDup (l : list string) (k : string) (w : World) :
  NoDup l ->
  _scriptListenerCounts (deregisterAll l w) !! k
  = if Py.list_in String.eqb k l then drop (_scriptListenerCounts w !! k)
    else _scriptListenerCounts w !! k.
Proof.
  intros Hnd. rewrite deregisterAll_lookup.
  destruct (Py.list_in String.eqb k l) eqn:Ein.
  - apply list_in_string in Ein.
    assert (C : count_occ String.string_dec l k = 1).
    { pose proof (proj1 (List.NoDup_count_occ String.string_dec l)
                    (proj1 (NoDup_ListNoDup l) Hnd) k) as Hle.
      pose proof (proj1 (List.count_occ_In String.string_dec l k) Ein) as Hgt. lia. }
    rewrite C. reflexivity.
  - assert (C : count_occ String.string_dec l k = 0).
    { apply List.count_occ_not_In. intros Hin. apply list_in_string in Hin. congruence. }
    rewrite C. reflexivity.
Qed.

Lemma registerAll_lookup_NoDup (l : list string) (k : string) (w : World) :
  NoDup l ->
  _scriptListenerCounts (registerAll l w) !! k
  = if Py.list_in String.eqb k l then bump (_scriptListenerCounts w !! k)
    else _scriptListenerCounts w !! k.
Proof.
  intros Hnd. rewrite registerAll_lookup.
  destruct (Py.list_in String.eqb k l) eqn:Ein.
  - apply list_in_string in Ein.
    assert (C : count_occ String.string_dec l k = 1).
    { pose proof (proj1 (List.NoDup_count_occ String.string_dec l)
                    (proj1 (NoDup_ListNoDup l) Hnd) k) as Hle.
      pose proof (proj1 (List.count_occ_In String.string_dec l k) Ein) as Hgt. lia. }
    rewrite C. reflexivity.
  - assert (C : count_occ String.string_dec l k = 0).
    { apply List.count_occ_not_In. intros Hin. apply list_in_string in Hin. congruence. }
    rewrite C. reflexivity.
Qed.

(** Removing one trigger from the list. *)
Lemma list_remove_length (x : Event) (l : list Event) :
  Py.list_in same_object x l = true ->
  S (length (Py.list_remove same_object x l)) = length l.
Proof.
  induction l as [|y l IH]; simpl; [discriminate|].
  destruct (same_object x y); simpl; [reflexivity|].
  intros H. rewrite (IH H). reflexivity.
Qed.

Lemma list_in_remove_other (a x : Event) (l : list Event) :
  same_object a x = false ->
  Py.list_in same_object a (Py.list_remove same_object x l)
  = Py.list_in same_object a l.
Proof.
  intros Hax. unfold Py.list_in. induction l as [|y l IH]; simpl; [reflexivity|].
  destruct (same_object x y) eqn:Exy; simpl.
  - assert (Hay : same_object a y = false).
    { unfold same_object in *. apply Pos.eqb_eq in Exy. rewrite <- Exy. exact Hax. }
    rewrite Hay. reflexivity.
  - rewrite IH. reflexivity.
Qed.

Lemma list_in_app_event (x : Event) (l l' : list Event) :
  Py.list_in same_object x (l ++ l')
  = Py.list_in same_object x l || Py.list_in same_object x l'.
Proof. unfold Py.list_in. apply existsb_app. Qed.

(** C4, as the code has it.  Events are not suspended; trigger [A]
    suspends them, and a different trigger [B] joins while [A] is held.
    Entering for [A] takes one reference off every suspendable category:
    the category leaves the table, and the bus, only where that was the
    last reference.  The second suspension and the non-forced
    unsuspension for [B] leave the system suspended and the table and
    the bus as they are.  The non-forced unsuspension for [A] that
    follows resumes exactly when no trigger from before was still held:
    then every suspendable category is registered again (on the bus
    where it had left the table) and no trigger is left; with an older
    trigger still held, the system stays suspended and nothing is
    registered.  In every state, a non-forced unsuspension that resumes
    leaves the trigger set empty. *)
Theorem overlapping_triggers_hold_suspension (w : World) (A B : Event) :
  _eventsSuspended w = false ->
  same_object A B = false ->
  NoDup (_suspendableEvents w) ->
  let S := _suspendableEvents w in
  let w1 := _suspendEvents A w in
  let w2 := _suspendEvents B w1 in
  let w3 := _unsuspendEvents B false w2 in
  let w4 := _unsuspendEvents A false w3 in
  (_eventsSuspended w1 = true
   /\ _scriptListenerCounts w1 = _scriptListenerCounts (deregisterAll S w)
   /\ (forall k,
         _scriptListenerCounts w1 !! k
         = if Py.list_in String.eqb k S then drop (_scriptListenerCounts w !! k)
           else _scriptListenerCounts w !! k)
   /\ trace w1
      = trace w
        ++ map ListenerDeregister
             (List.filter (fun k => bool_decide (_scriptListenerCounts w !! k = Some 1%Z)) S))
  /\ (_eventsSuspended w2 = true
      /\ _scriptListenerCounts w2 = _scriptListenerCounts w1
      /\ trace w2 = trace w1)
  /\ (_eventsSuspended w3 = true
      /\ _scriptListenerCounts w3 = _scriptListenerCounts w1
      /\ trace w3 = trace w1)
  /\ (_eventsSuspended w4 = false <-> _eventsTriggeringSuspension w = [])
  /\ (_eventsTriggeringSuspension w = [] ->
      w3 = w1
      /\ _eventsTriggeringSuspension w3 = [A]
      /\ _eventsTriggeringSuspension w4 = []
      /\ w4 = set_suspended false (registerAll S (set_triggers [] w1))
      /\ (forall k,
            _scriptListenerCounts w4 !! k
            = if Py.list_in String.eqb k S
              then Some (default 1%Z (_scriptListenerCounts w !! k))
              else _scriptListenerCounts w !! k)
      /\ trace w4
         = trace w1
           ++ map ListenerRegister
                (List.filter
                   (fun k => bool_decide (_scriptListenerCounts w1 !! k = None)) S))
  /\ (_eventsTriggeringSuspension w <> [] ->
      _eventsTriggeringSuspension w4 <> []
      /\ _scriptListenerCounts w4 = _scriptListenerCounts w1
      /\ trace w4 = trace w1)
  /\ (forall (s : World) (e : Event),
        _eventsSuspended s = true ->
        _eventsSuspended (_unsuspendEvents e false s) = false ->
        _eventsTriggeringSuspension (_unsuspendEvents e false s) = []).
Proof.
  intros Hs Hne Hnd S w1 w2 w3 w4.
  assert (HBA : same_object B A = false)
    by (unfold same_object in *; rewrite Pos.eqb_sym; exact Hne).
  assert (HAA : same_object A A = true) by apply Pos.eqb_refl.
  assert (HBB : same_object B B = true) by apply Pos.eqb_refl.
  set (T := _eventsTriggeringSuspension w).
  pose (w0 := set_triggers (T ++ [A]) w).
  assert (E1 : w1 = set_suspended true (deregisterAll S w0)).
  { subst w1 w0 T S. apply suspend_when_active, Hs. }
  destruct (listeners_only_fields _ _ (deregisterAll_frame S w0))
    as (Fs & Fl & Ftr & _).
  assert (S1 : _eventsSuspended w1 = true) by (rewrite E1; reflexivity).
  assert (T1 : _eventsTriggeringSuspension w1 = T ++ [A]).
  { rewrite E1. transitivity (_eventsTriggeringSuspension (deregisterAll S w0)).
    - destruct (deregisterAll _ _); reflexivity.
    - rewrite Ftr. reflexivity. }
  assert (L1 : _suspendableEvents w1 = S).
  { rewrite E1. transitivity (_suspendableEvents (deregisterAll S w0)).
    - destruct (deregisterAll _ _); reflexivity.
    - rewrite Fl. destruct w; reflexivity. }
  assert (C1 : _scriptListenerCounts w1 = _scriptListenerCounts (deregisterAll S w)).
  { rewrite E1.
    transitivity (_scriptListenerCounts (deregisterAll S w0)).
    + destruct (deregisterAll _ _); reflexivity.
    + apply deregisterAll_counts. subst w0. destruct w; reflexivity. }
  assert (Tr1 : trace w1
                = trace w ++ map ListenerDeregister
                    (List.filter
                       (fun k => bool_decide (_scriptListenerCounts w !! k = Some 1%Z)) S)).
  { rewrite E1.
    transitivity (trace (deregisterAll S w0)); [destruct (deregisterAll _ _); reflexivity|].
    rewrite (deregisterAll_trace S w0 Hnd). subst w0. destruct w; reflexivity. }
  assert (E2 : w2 = set_triggers (T ++ [A; B]) w1).
  { subst w2. rewrite suspend_when_suspended by exact S1. rewrite T1.
    rewrite <- app_assoc. reflexivity. }
  set (R3 := Py.list_remove same_object B (T ++ [A; B])).
  assert (HinB : Py.list_in same_object B (T ++ [A; B]) = true).
  { replace (T ++ [A; B]) with ((T ++ [A]) ++ [B]) by (rewrite <- app_assoc; reflexivity).
    apply list_in_last. }
  assert (E3 : w3 = set_triggers R3 w1).
  { subst w3. rewrite E2.
    pose proof (list_remove_keeps_other B A B T HBA) as Hrm. fold R3 in Hrm.
    destruct R3 as [|x l] eqn:Er; [contradiction|].
    rewrite (unsuspend_other_trigger_left _ B x l).
    - destruct w1; reflexivity.
    - destruct w1; exact S1.
    - destruct w1; exact HinB.
    - destruct w1; exact Er. }
  set (R4 := Py.list_remove same_object A R3).
  assert (HinA : Py.list_in same_object A R3 = true).
  { unfold R3. rewrite (list_in_remove_other A B _ Hne).
    rewrite list_in_app_event. simpl. rewrite HAA. simpl. apply orb_true_r. }
  assert (Len4 : length R4 = length T).
  { pose proof (list_remove_length A R3 HinA) as H4. fold R4 in H4.
    pose proof (list_remove_length B _ HinB) as H3. fold R3 in H3.
    rewrite length_app in H3. simpl in H3. lia. }
  assert (S3 : _eventsSuspended w3 = true) by (rewrite E3; destruct w1; exact S1).
  assert (T3 : _eventsTriggeringSuspension w3 = R3) by (rewrite E3; destruct w1; reflexivity).
  assert (L3 : _suspendableEvents w3 = S) by (rewrite E3; destruct w1; exact L1).
  assert (E4 : w4 = match R4 with
                    | [] => set_suspended false (registerAll S (set_triggers [] w1))
                    | _ :: _ => set_triggers R4 w1
                    end).
  { subst w4. unfold _unsuspendEvents. rewrite T3, HinA. fold R4.
    replace (_eventsSuspended (set_triggers R4 w3)) with true
      by (symmetry; destruct w3; exact S3).
    cbn [negb].
    replace (_eventsTriggeringSuspension (set_triggers R4 w3)) with R4
      by (destruct w3; reflexivity).
    destruct R4 as [|x l].
    - replace (_suspendableEvents (set_triggers [] w3)) with S
        by (symmetry; destruct w3; exact L3).
      rewrite E3. destruct w1; reflexivity.
    - rewrite E3. destruct w1; reflexivity. }
  split; [|split; [|split; [|split; [|split; [|split]]]]].
  - split; [exact S1|]. split; [exact C1|]. split; [|exact Tr1].
    intros k. rewrite C1. apply deregisterAll_lookup_NoDup, Hnd.
  - rewrite E2. destruct w1; repeat split. exact S1.
  - rewrite E3. destruct w1; repeat split. exact S1.
  - rewrite E4. destruct R4 as [|x l]; simpl in Len4.
    + split; [intros _|intros _; reflexivity].
      destruct T; [reflexivity|discriminate Len4].
    + split.
      * destruct w1; simpl in *. congruence.
      * intros HT. fold T in HT. rewrite HT in Len4. discriminate Len4.
  - intros Ht. fold T in Ht.
    assert (R3A : R3 = [A]).
    { unfold R3. rewrite Ht. simpl. rewrite HBA, HBB. reflexivity. }
    assert (R4n : R4 = []).
    { unfold R4. rewrite R3A. simpl. rewrite HAA. reflexivity. }
    rewrite R4n in E4.
    assert (E3' : w3 = w1).
    { rewrite E3, R3A. rewrite Ht in T1. destruct w1; simpl in *; subst; reflexivity. }
    destruct (listeners_only_fields _ _ (registerAll_frame S (set_triggers [] w1)))
      as (_ & _ & Ftr' & _).
    split; [exact E3'|]. split; [rewrite T3; exact R3A|].
    split; [|split; [exact E4|split]].
    + rewrite E4.
      transitivity (_eventsTriggeringSuspension (registerAll S (set_triggers [] w1))).
      * destruct (registerAll _ _); reflexivity.
      * rewrite Ftr'. destruct w1; reflexivity.
    + intros k. rewrite E4.
      transitivity (_scriptListenerCounts (registerAll S (set_triggers [] w1)) !! k);
        [destruct (registerAll _ _); reflexivity|].
      rewrite (registerAll_lookup_NoDup S k _ Hnd).
      replace (_scriptListenerCounts (set_triggers [] w1)) with (_scriptListenerCounts w1)
        by (destruct w1; reflexivity).
      rewrite C1, (deregisterAll_lookup_NoDup S k w Hnd).
      destruct (Py.list_in String.eqb k S); [apply bump_drop|reflexivity].
    + rewrite E4.
      transitivity (trace (registerAll S (set_triggers [] w1)));
        [destruct (registerAll _ _); reflexivity|].
      rewrite (registerAll_trace S _ Hnd). destruct w1; reflexivity.
  - intros Ht. fold T in Ht.
    destruct R4 as [|x l]; [destruct T; [contradiction|discriminate Len4]|].
    rewrite E4. destruct w1; repeat split. discriminate.
  - intros s e. apply suspended_unsuspend_not_forced.
Qed.

Lemma overlapping_triggers_hold_suspension_witness :
  let w := registerListener "object:state-changed:showing"
             (registerAll (_suspendableEvents (Scenario.start true)) (Scenario.start true)) in
  let A := Scenario.window_activate 1 in
  let B := Scenario.office_busy 2 in
  let w3 := _unsuspendEvents B false (_suspendEvents B (_suspendEvents A w)) in
  let w4 := _unsuspendEvents A false w3 in
  (_eventsSuspended w = false /\ _eventsTriggeringSuspension w = []
   /\ same_object A B = false)
  /\ _eventsSuspended w3 = true
  /\ _scriptListenerCounts w3 !! "object:text-changed:delete" = None
  /\ _scriptListenerCounts w3 !! "object:state-changed:showing" = Some 1%Z
  /\ w3 = _suspendEvents A w
  /\ _eventsSuspended w4 = false
  /\ _scriptListenerCounts w4 !! "object:text-changed:delete" = Some 1%Z
  /\ _scriptListenerCounts w4 !! "object:state-changed:showing" = Some 2%Z.
Proof.
  intros w A B w3 w4.
  assert (H1 : _eventsSuspended w = false) by reflexivity.
  assert (H2 : _eventsTriggeringSuspension w = []) by reflexivity.
  assert (H3 : same_object A B = false) by reflexivity.
  assert (H4 : NoDup (_suspendableEvents w)).
  { repeat constructor; simpl; intros H; apply list_elem_of_In in H; simpl in H;
      intuition discriminate. }
  pose proof (overlapping_triggers_hold_suspension w A B H1 H3 H4)
    as ((_ & _ & L1 & _) & _ & (S3 & C3 & _) & R & E & _).
  destruct (E H2) as (E3 & _ & _ & _ & L4 & _).
  split; [split; [exact H1|split; [exact H2|exact H3]]|].
  split; [exact S3|].
  split; [unfold w3; rewrite C3, L1; reflexivity|].
  split; [unfold w3; rewrite C3, L1; reflexivity|].
  split; [exact E3|].
  split; [apply R, H2|].
  split; [unfold w4, w3; rewrite L4; reflexivity|].
  unfold w4, w3; rewrite L4; reflexivity.
Defined.

(** C4, as the specification has it, fails in two ways.  A trigger left
    in the set by a forced unsuspension holds the next suspension: with
    [S0] left behind, entering for [A] and [B] and clearing [B] and then
    [A] leaves the system suspended, and nothing is registered again.
    And a suspendable category with two references is not deregistered
    by a suspension: it stays in the table with one reference, and no
    call goes to the bus for it. *)
Lemma stale_trigger_keeps_suspension :
  let S0 := Scenario.window_activate 1 in
  let F := Scenario.focus_gained 2 in
  let A := Scenario.window_activate 3 in
  let B := Scenario.office_busy 4 in
  let w0 := registerListener "object:state-changed:showing"
              (registerAll (_suspendableEvents (Scenario.start true))
                 (Scenario.start true)) in
  let w := _unsuspendEvents F true (_suspendEvents S0 w0) in
  let w1 := _suspendEvents A w in
  let w4 := _unsuspendEvents A false
              (_unsuspendEvents B false (_suspendEvents B w1)) in
  (_eventsSuspended w = false /\ _eventsTriggeringSuspension w = [S0]
   /\ same_object A B = false)
  /\ (_eventsSuspended w4 = true
      /\ _eventsTriggeringSuspension w4 = [S0]
      /\ _scriptListenerCounts w4 !! "object:text-changed:delete" = None)
  /\ (_eventsSuspended w1 = true
      /\ _scriptListenerCounts w !! "object:state-changed:showing" = Some 2%Z
      /\ _scriptListenerCounts w1 !! "object:state-changed:showing" = Some 1%Z
      /\ ~ In (ListenerDeregister "object:state-changed:showing") (trace w1)).
Proof.
  intros S0 F A B w0 w w1 w4.
  split; [repeat split|]. split; [repeat split|].
  split; [reflexivity|]. split; [reflexivity|]. split; [reflexivity|].
  vm_compute. intuition discriminate.
Qed.

(** ** Processing an event leaves the gate alone *)

Lemma gate_emit (x : Effect) (w : World) : gate (emit x w) = gate w.
Proof. reflexivity. Qed.

Lemma gate_set_focus (l a : option Handle) (w : World) : gate (set_focus l a w) = gate w.
Proof. reflexivity. Qed.

Lemma gate_set_activeScript (s : option Script) (w : World) :
  gate (set_activeScript s w) = gate w.
Proof. reflexivity. Qed.

Lemma gate_set_queue (q : list Event) (w : World) : gate (set_queue q w) = gate w.
Proof. reflexivity. Qed.

Lemma gate_set_gidleId (g : Z) (w : World) : gate (set_gidleId g w) = gate w.
Proof. reflexivity. Qed.

Lemma gate_prune (env : Env) (c : Cache) (w : World) :
  gate (fst (_pruneEventsDuringFlood env c w)) = gate w.
Proof.
  unfold _pruneEventsDuringFlood. destruct (prune_loop env c w (_eventQueue w) []).
  reflexivity.
Qed.

Lemma gate_deliver (env : Env) (c : Cache) (script : Script) (event : Event) (w : World) :
  gate (fst (deliver env c script event w)) = gate w.
Proof.
  unfold deliver.
  destruct (_isActivatableEvent env c w event (Some script)) as [[b r] c'].
  destruct b.
  - destruct (setActiveScript_raises env (Some script)); [reflexivity|].
    destruct (processObjectEvent env script event _); reflexivity.
  - destruct (processObjectEvent env script event _); reflexivity.
Qed.

Lemma gate_flood_gate (env : Env) (c : Cache) (event : Event) (w w' : World) :
  fst (flood_gate env c event w) = Some w' -> gate w' = gate w.
Proof.
  unfold flood_gate.
  destruct (_inFlood w); [|intros [= <-]; reflexivity].
  destruct (_processDuringFlood env c w event) as [p c1].
  destruct p; [|discriminate]. cbn [negb].
  destruct (_prioritizeDuringFlood env event); [|intros [= <-]; reflexivity].
  pose proof (gate_prune env c1 w) as G.
  destruct (_pruneEventsDuringFlood env c1 w) as [wp cp]. intros [= <-]. exact G.
Qed.

Lemma gate_processObjectEvent (env : Env) (c : Cache) (event : Event) (w : World) :
  gate (snd (fst (_processObjectEvent env c event w))) = gate w.
Proof.
  unfold _processObjectEvent.
  destruct (_ && same_handle (source event) (get_desktop env)); [reflexivity|].
  set (w1 := if Py.startswith (type event) "window:" && _ then _ else _).
  assert (G1 : gate w1 = gate w).
  { subst w1. destruct (_ && negb _); [reflexivity|].
    destruct (_ && AXUtilities env is_frame _); reflexivity. }
  destruct (AXObject.is_dead env c (obj (source event))) as [dead c1].
  destruct (dead || AXUtilities env is_defunct _).
  - destruct (_ || _).
    + destruct (setActiveScript_raises env None); simpl; exact G1.
    + exact G1.
  - destruct (AXUtilities env is_iconified _); [exact G1|].
    destruct (flood_gate env c1 event w1) as [[w2|] c2] eqn:E; [|exact G1].
    apply (f_equal fst) in E. apply gate_flood_gate in E.
    destruct (_ && Py.list_in _ _ _); simpl; [congruence|].
    destruct (_getScriptForEvent env c2 event) as [[script|] c3]; simpl; [|congruence].
    pose proof (gate_deliver env c3 script event w2) as Gd.
    destruct (deliver env c3 script event w2) as [wd cd]. simpl in *. congruence.
Qed.

Lemma gate_dequeue_epilogue (w : World) : gate (snd (dequeue_epilogue w)) = gate w.
Proof. unfold dequeue_epilogue. destruct (_eventQueue w); reflexivity. Qed.

(** When events should be unsuspended for an event, case by case. *)
Lemma shouldUnsuspendEventsFor_cases (env : Env) (event : Event) :
  _shouldUnsuspendEventsFor env event = true <->
  (Py.startswith (type event) "object:state-changed:focused" = true
   /\ detail1 event <> 0%Z)
  \/ (AXUtilities env is_document (obj (source event)) = true
      /\ ((Py.endswith (type event) "busy" = true /\ detail1 event = 0%Z)
          \/ Py.startswith (type event) "document:load-complete" = true)).
Proof.
  unfold _shouldUnsuspendEventsFor, truthy.
  destruct (Py.startswith (type event) "object:state-changed:focused");
    destruct (Z.eqb_spec (detail1 event) 0) as [E|E]; simpl;
    destruct (AXUtilities env is_document (obj (source event)));
    destruct (Py.endswith (type event) "busy");
    destruct (Py.startswith (type event) "document:load-complete"); simpl;
    intuition congruence.
Qed.

(** C10.  Events are suspended and [_dequeue] takes an object event that
    is not one of the triggers but for which events should be
    unsuspended; its processing returns.  Then the unsuspension is
    forced: afterwards events are no longer suspended, every suspendable
    category has been registered again, and the trigger set is what it
    was, whatever it holds. *)
Theorem forced_unsuspension_keeps_triggers
    (env : Env) (c : Cache) (w : World) (event : Event) (rest : list Event) :
  _eventsSuspended w = true ->
  _eventQueue w = event :: rest ->
  is_inputEvent event = false ->
  _didSuspendEventsFor event w = false ->
  _shouldUnsuspendEventsFor env event = true ->
  fst (fst (_processObjectEvent env c event (set_queue rest w))) = Returns tt ->
  let w' := snd (fst (_dequeue env c w)) in
  _eventsSuspended w' = false
  /\ _eventsTriggeringSuspension w' = _eventsTriggeringSuspension w
  /\ _scriptListenerCounts w'
     = _scriptListenerCounts (registerAll (_suspendableEvents w) w)
  /\ (forall t, In t (_suspendableEvents w) -> is_Some (_scriptListenerCounts w' !! t)).
Proof.
  intros Hs Hq Hobj Hnot Hun Hret w'.
  pose proof (gate_processObjectEvent env c event (set_queue rest w)) as G.
  rewrite gate_set_queue in G.
  subst w'. unfold _dequeue, drain. rewrite Hq, Hobj.
  destruct (_processObjectEvent env c event (set_queue rest w)) as [[o wp] cp].
  simpl in Hret, G. subst o.
  unfold gate in G. injection G as Gc Gs Gl Gt.
  assert (Ha : after_processing env event wp
               = set_suspended false (registerAll (_suspendableEvents w) wp)).
  { unfold after_processing, _didSuspendEventsFor. rewrite Gt.
    unfold _didSuspendEventsFor in Hnot. rewrite Hnot, Gs, Hs, Hun. simpl.
    rewrite unsuspend_forced; [rewrite Gl; reflexivity|congruence|congruence]. }
  pose proof (gate_dequeue_epilogue (after_processing env event wp)) as Ge.
  rewrite Ha in Ge. unfold gate in Ge. injection Ge as Ec Es El Et.
  rewrite Ha. cbn [fst snd].
  destruct (listeners_only_fields _ _ (registerAll_frame (_suspendableEvents w) wp))
    as (_ & _ & Ftr & _).
  assert (Hc : _scriptListenerCounts
                 (snd (dequeue_epilogue
                         (set_suspended false (registerAll (_suspendableEvents w) wp))))
               = _scriptListenerCounts (registerAll (_suspendableEvents w) w)).
  { rewrite Ec.
    transitivity (_scriptListenerCounts (registerAll (_suspendableEvents w) wp)).
    - destruct (registerAll _ _); reflexivity.
    - apply registerAll_counts, Gc. }
  split; [rewrite Es; reflexivity|]. split; [|split; [exact Hc|]].
  - rewrite Et.
    transitivity (_eventsTriggeringSuspension (registerAll (_suspendableEvents w) wp)).
    + destruct (registerAll _ _); reflexivity.
    + rewrite Ftr. exact Gt.
  - intros t Ht. rewrite Hc. apply registerAll_is_Some. left; exact Ht.
Qed.

Lemma forced_unsuspension_keeps_triggers_witness :
  let F := Scenario.focus_gained 5 in
  let A := Scenario.window_activate 1 in
  let w0 := registerAll (_suspendableEvents (Scenario.start true)) (Scenario.start true) in
  let w := snd (fst (_enqueue Scenario.env no_cache
                       (snd (fst (_enqueue Scenario.env no_cache w0 F))) A)) in
  (_eventQueue w = [F; A] /\ _eventsTriggeringSuspension w = [A])
  /\ _eventsSuspended (snd (fst (_dequeue Scenario.env no_cache w))) = false
  /\ _eventsTriggeringSuspension (snd (fst (_dequeue Scenario.env no_cache w))) = [A].
Proof.
  intros F A w0 w.
  assert (H1 : _eventsSuspended w = true) by reflexivity.
  assert (H2 : _eventQueue w = F :: [A]) by reflexivity.
  assert (H3 : is_inputEvent F = false) by reflexivity.
  assert (H4 : _didSuspendEventsFor F w = false) by reflexivity.
  assert (H5 : _shouldUnsuspendEventsFor Scenario.env F = true) by reflexivity.
  assert (H6 : fst (fst (_processObjectEvent Scenario.env no_cache F (set_queue [A] w)))
               = Returns tt)
    by reflexivity.
  pose proof (forced_unsuspension_keeps_triggers Scenario.env no_cache w F [A]
                H1 H2 H3 H4 H5 H6)
    as (S & T & _).
  split; [split; [exact H2|reflexivity]|].
  split; [exact S|]. rewrite T. reflexivity.
Defined.

(** ** The allow-list of the filter *)

Lemma prefix_head (a c : ascii) (p t : string) :
  String.prefix (String a p) (String c t) = true -> a = c.
Proof.
  cbn [String.prefix]. destruct (ascii_dec a c); [auto|discriminate].
Qed.

Lemma prefix_head_ne (a c : ascii) (p t : string) :
  a <> c -> String.prefix (String a p) (String c t) = false.
Proof.
  intros H. cbn [String.prefix]. destruct (ascii_dec a c); [contradiction|reflexivity].
Qed.

Lemma window_not_children_changed (t : string) :
  Py.startswith t "window" = true ->
  Py.startswith t "object:children-changed:remove" = false.
Proof.
  unfold Py.startswith. destruct t as [|c t]; intros H.
  - cbn in H. discriminate H.
  - apply prefix_head in H. subst c. apply prefix_head_ne. discriminate.
Qed.

Lemma mouse_button_not_children_changed (t : string) :
  Py.startswith t "mouse:button" = true ->
  Py.startswith t "object:children-changed:remove" = false.
Proof.
  unfold Py.startswith. destruct t as [|c t]; intros H.
  - cbn in H. discriminate H.
  - apply prefix_head in H. subst c. apply prefix_head_ne. discriminate.
Qed.

(** C5.  The manager is active, no ignored prefix matches, and the type
    begins with "window" or with "mouse:button".  Then [_ignore] returns
    [False] and changes nothing of the manager, whatever the queue
    holds, however long it is, whatever the source is and whatever
    [AXObject] has cached; [_enqueue] goes on to queue the event.  (The
    gnome-shell rule cannot apply: it wants a type that begins with
    "object:children-changed:remove".) *)
Theorem allow_listed_never_ignored (env : Env) (c : Cache) (w : World) (event : Event) :
  _active w = true ->
  existsb (fun p => Py.startswith (type event) p) (_ignoredEvents w) = false ->
  Py.startswith (type event) "window" = true
  \/ Py.startswith (type event) "mouse:button" = true ->
  fst (_ignore env c w event) = (Returns false, w)
  /\ fst (enqueue_filter env c w event) = (false, w).
Proof.
  intros Ha Hig Hty.
  assert (Hcc : Py.startswith (type event) "object:children-changed:remove" = false).
  { destruct Hty as [H|H].
    - apply window_not_children_changed, H.
    - apply mouse_button_not_children_changed, H. }
  assert (Hi : fst (_ignore env c w event) = (Returns false, w)).
  { unfold _ignore. rewrite Ha, Hig, Hcc. cbn [negb].
    destruct (AXObject.get_application env c (source event)) as [app c1].
    destruct (AXObject.get_name env c1 app) as [name c2].
    rewrite andb_false_r.
    destruct Hty as [H|H]; rewrite H; [reflexivity|].
    destruct (Py.startswith (type event) "window"); reflexivity. }
  split; [exact Hi|].
  unfold enqueue_filter. destruct (negb (is_inputEvent event)); [|reflexivity].
  destruct (_ignore env c w event) as [[o w'] c']. simpl in Hi.
  injection Hi as -> ->. reflexivity.
Qed.

Lemma allow_listed_never_ignored_witness :
  let w := set_queue (Scenario.backlog 120 ++ [Scenario.window_activate 500])
             (Scenario.start true) in
  fst (_ignore Scenario.env no_cache w (Scenario.window_activate 501)) = (Returns false, w)
  /\ _isDuplicateEvent Scenario.env
       (set_queue [Scenario.window_activate 500] (Scenario.start true))
       (Scenario.window_activate 501) = true.
Proof.
  intros w. split; [|reflexivity].
  apply (allow_listed_never_ignored Scenario.env no_cache w (Scenario.window_activate 501)).
  - reflexivity.
  - reflexivity.
  - left. reflexivity.
Defined.

(** ** The activation decider *)

(** C6.  An event without a source, an event for which no script is
    found, and an event whose script is the active one are not
    activatable, each for its own reason; this holds for every script
    and so also for one whose [forceScriptActivation] says yes. *)
Theorem active_script_never_activated
    (env : Env) (c : Cache) (w : World) (event : Event) (script : option Script) :
  source event = None
  \/ candidate_script env c event script = None
  \/ candidate_script env c event script = activeScript w ->
  fst (fst (_isActivatableEvent env c w event script)) = false
  /\ In (snd (fst (_isActivatableEvent env c w event script)))
       ["event.source? What event.source??";
        "There is no script for this event.";
        "The script for this event is already active."].
Proof.
  intros H. unfold _isActivatableEvent.
  destruct (source event) as [h|] eqn:Es; [|simpl; auto].
  assert (Hc : fst (match script with
                    | Some s => (Some s, c)
                    | None => _getScriptForEvent env c event
                    end) = candidate_script env c event script)
    by (destruct script; reflexivity).
  destruct (match script with Some s => (Some s, c) | None => _ end) as [cand c1].
  simpl in Hc. subst cand.
  destruct H as [H|[H|H]]; [discriminate| |].
  - rewrite H. simpl; auto.
  - destruct (candidate_script env c event script) as [s|] eqn:Ec; [|simpl; auto].
    rewrite bool_decide_eq_true_2 by exact H. simpl; auto.
Qed.

Lemma active_script_never_activated_witness :
  let w := Scenario.start true in
  let e := Scenario.focus_gained 1 in
  forceScriptActivation Scenario.pushy_env Scenario.editor_script e = true
  /\ fst (fst (_isActivatableEvent Scenario.pushy_env no_cache w e None)) = false
  /\ fst (fst (_isActivatableEvent Scenario.pushy_env no_cache (set_activeScript None w)
                 e None)) = true.
Proof.
  intros w e. split; [reflexivity|]. split; [|reflexivity].
  apply (active_script_never_activated Scenario.pushy_env no_cache w e None).
  right; right. reflexivity.
Defined.

(** ** Deluge *)

Lemma high_volume_not_allow_listed (t : string) :
  In t high_volume ->
  Py.startswith t "window" = false /\ Py.startswith t "mouse:button" = false.
Proof.
  unfold high_volume. intros H. simpl in H.
  repeat (destruct H as [<-|H]; [split; reflexivity|]).
  destruct H.
Qed.

Lemma ignoreDuringDeluge_high_volume (env : Env) (c : Cache) (w : World) (event : Event) :
  In (type event) high_volume ->
  source event <> locusOfFocus w ->
  fst (_ignoreDuringDeluge env c w event) = true.
Proof.
  intros Hin Hne. unfold _ignoreDuringDeluge.
  destruct (_eventSourceIsDead env c event) as [dead c1].
  destruct dead; [reflexivity|].
  apply list_in_string in Hin. rewrite Hin. simpl.
  unfold same_handle. rewrite bool_decide_eq_false_2 by exact Hne. reflexivity.
Qed.

(** C2.  More than 100 events are pending, the type is one of the
    high-volume types and the source is not the locus of focus.  Then
    [_ignoreDuringDeluge] says to ignore, [_ignore] returns [True], and
    [_enqueue] returns with nothing of the manager changed: the event is
    not put on the queue and nothing is handed to a script. *)
Theorem deluge_ignores_high_volume (env : Env) (c : Cache) (w : World) (event : Event) :
  (100 < qsize w)%Z ->
  In (type event) high_volume ->
  source event <> locusOfFocus w ->
  (forall c', fst (_ignoreDuringDeluge env c' w event) = true)
  /\ fst (_ignore env c w event) = (Returns true, w)
  /\ (is_inputEvent event = false -> fst (_enqueue env c w event) = (Returns tt, w)).
Proof.
  intros Hq Hin Hne.
  pose proof (fun c' => ignoreDuringDeluge_high_volume env c' w event Hin Hne) as Hd.
  destruct (high_volume_not_allow_listed _ Hin) as [Hw Hm].
  assert (Hdel : _inDeluge w = true) by (unfold _inDeluge; apply Z.ltb_lt, Hq).
  assert (Hi : fst (_ignore env c w event) = (Returns true, w)).
  { unfold _ignore. rewrite Hw, Hm, Hdel.
    destruct (negb (_active w)); [reflexivity|].
    destruct (existsb _ (_ignoredEvents w)); [reflexivity|].
    destruct (AXObject.get_application env c (source event)) as [app c1].
    destruct (AXObject.get_name env c1 app) as [name c2].
    destruct (_ && Py.startswith (type event) "object:children-changed:remove");
      [reflexivity|].
    destruct (_isDuplicateEvent env w event); [reflexivity|].
    destruct (if Py.endswith (type event) "system" then _ else _) as [tb c3].
    destruct (tb && _); [reflexivity|].
    specialize (Hd c3).
    destruct (_ignoreDuringDeluge env c3 w event) as [d c4]. simpl in Hd. subst d.
    reflexivity. }
  split; [exact Hd|]. split; [exact Hi|].
  intros Hobj. unfold _enqueue, enqueue_filter. rewrite Hobj. cbn [negb].
  destruct (_ignore env c w event) as [[o w'] c']. simpl in Hi.
  injection Hi as -> ->. reflexivity.
Qed.

Lemma deluge_ignores_high_volume_witness :
  let w := set_queue (Scenario.backlog 120) (Scenario.start true) in
  fst (_enqueue Scenario.env no_cache w (Scenario.insert_later 500)) = (Returns tt, w)
  /\ _isDuplicateEvent Scenario.env w (Scenario.insert_later 500) = false
  /\ fst (fst (_ignore Scenario.env no_cache
                 (set_queue (Scenario.backlog 100) (Scenario.start true))
                 (Scenario.insert_later 500))) = Returns false.
Proof.
  intros w. split; [|split; reflexivity].
  apply (deluge_ignores_high_volume Scenario.env no_cache w (Scenario.insert_later 500)).
  - reflexivity.
  - right; left; reflexivity.
  - discriminate.
  - reflexivity.
Defined.

(** ** Exceptions in the filter *)

(** The filter raises before it has written anything to the manager. *)
Lemma ignore_raises_unchanged (env : Env) (c : Cache) (w : World) (e : Event) :
  fst (fst (_ignore env c w e)) = Raises -> fst (_ignore env c w e) = (Raises, w).
Proof.
  unfold _ignore.
  destruct (negb (_active w)); [intros; discriminate|].
  destruct (existsb _ (_ignoredEvents w)); [intros; discriminate|].
  destruct (AXObject.get_application env c (source e)) as [app c1].
  destruct (AXObject.get_name env c1 app) as [name c2].
  destruct (_ && Py.startswith (type e) "object:children-changed:remove");
    [intros; discriminate|].
  destruct (Py.startswith (type e) "window"); [intros; discriminate|].
  destruct (Py.startswith (type e) "mouse:button"); [intros; discriminate|].
  destruct (_isDuplicateEvent env w e); [intros; discriminate|].
  destruct (if Py.endswith (type e) "system" then _ else _) as [tb c3].
  destruct (tb && _); [intros; discriminate|].
  destruct (if _inDeluge w then _ else _) as [d c4].
  destruct d; [intros; discriminate|].
  destruct ((_ || _) && _); [intros; discriminate|].
  destruct (only_embedded_objects e) as [[|]|]; [intros; discriminate| |reflexivity].
  destruct (AXUtilities env has_no_state _); [intros; discriminate|].
  destruct (AXUtilities env is_defunct _); [intros; discriminate|].
  destruct (AXObject.get_role env c4 (source e)) as [role c5].
  destruct (ignore_by_role env c5 w e role) as [i c6].
  destruct i; [intros; discriminate|].
  destruct (ignore_structural env c6 w e role) as [[i' w'] c7]. intros; discriminate.
Qed.

(** C8.  When [_ignore] raises while [_enqueue] evaluates an object
    event, [_enqueue] returns normally and nothing of the manager has
    changed: the event is not on the queue, no script has seen it, and
    the caller sees no exception. *)
Theorem filter_exception_counts_as_ignore (env : Env) (c : Cache) (w : World) (e : Event) :
  is_inputEvent e = false ->
  fst (fst (_ignore env c w e)) = Raises ->
  fst (_enqueue env c w e) = (Returns tt, w)
  /\ _eventQueue (snd (fst (_enqueue env c w e))) = _eventQueue w
  /\ trace (snd (fst (_enqueue env c w e))) = trace w.
Proof.
  intros Hobj Hr. apply ignore_raises_unchanged in Hr.
  assert (E : fst (_enqueue env c w e) = (Returns tt, w)).
  { unfold _enqueue, enqueue_filter. rewrite Hobj. cbn [negb].
    destruct (_ignore env c w e) as [[o w'] c']. simpl in Hr.
    injection Hr as -> ->. reflexivity. }
  rewrite E. repeat split.
Qed.

Lemma filter_exception_counts_as_ignore_witness :
  let e := Scenario.object_event 1 "object:text-changed:insert" Scenario.editor_text
             0 1 VNone in
  fst (fst (_ignore Scenario.env no_cache (Scenario.start true) e)) = Raises
  /\ fst (_enqueue Scenario.env no_cache (Scenario.start true) e)
     = (Returns tt, Scenario.start true)
  /\ fst (fst (_ignore Scenario.env no_cache (Scenario.start true)
                 (Scenario.object_event 1 "object:text-changed:insert"
                    Scenario.editor_text 0 1 (VStr "a")))) = Returns false.
Proof.
  intros e.
  assert (H1 : is_inputEvent e = false) by reflexivity.
  assert (H2 : fst (fst (_ignore Scenario.env no_cache (Scenario.start true) e)) = Raises)
    by reflexivity.
  destruct (filter_exception_counts_as_ignore Scenario.env no_cache (Scenario.start true)
              e H1 H2)
    as (E & _).
  split; [exact H2|]. split; [exact E|reflexivity].
Defined.

(** ** Duplicates *)

Lemma isSame_fields (e x : Event) :
  isSame e x = true <->
  type x = type e /\ source x = source e /\ detail1 x = detail1 e
  /\ detail2 x = detail2 e /\ any_data x = any_data e.
Proof.
  unfold isSame, same_handle.
  rewrite !andb_true_iff, String.eqb_eq, !Z.eqb_eq, !bool_decide_eq_true.
  tauto.
Qed.

(** C3, as the code has it.  The type begins neither with "window" nor
    with "mouse:button", an event with the same type, source, details
    and data is pending, and there is no flood.  Then [_ignore] returns
    [True] and [_enqueue] of such an object event changes nothing of the
    manager: the second event is never queued, so only the first is
    delivered. *)
Theorem pending_duplicate_is_dropped (env : Env) (c : Cache) (w : World) (e x : Event) :
  Py.startswith (type e) "window" = false ->
  Py.startswith (type e) "mouse:button" = false ->
  In x (_eventQueue w) ->
  type x = type e /\ source x = source e /\ detail1 x = detail1 e
  /\ detail2 x = detail2 e /\ any_data x = any_data e ->
  _inFlood w = false ->
  _isDuplicateEvent env w e = true
  /\ fst (_ignore env c w e) = (Returns true, w)
  /\ (is_inputEvent e = false -> fst (_enqueue env c w e) = (Returns tt, w)).
Proof.
  intros Hw Hm Hin Hsame Hfl.
  assert (Hd : _isDuplicateEvent env w e = true).
  { unfold _isDuplicateEvent. rewrite Hfl. simpl.
    apply existsb_exists. exists x. split; [exact Hin|].
    apply isSame_fields, Hsame. }
  assert (Hi : fst (_ignore env c w e) = (Returns true, w)).
  { unfold _ignore. rewrite Hw, Hm, Hd.
    destruct (negb (_active w)); [reflexivity|].
    destruct (existsb _ (_ignoredEvents w)); [reflexivity|].
    destruct (AXObject.get_application env c (source e)) as [app c1].
    destruct (AXObject.get_name env c1 app) as [name c2].
    destruct (_ && Py.startswith (type e) "object:children-changed:remove");
      reflexivity. }
  split; [exact Hd|]. split; [exact Hi|].
  intros Hobj. unfold _enqueue, enqueue_filter. rewrite Hobj. cbn [negb].
  destruct (_ignore env c w e) as [[o w'] c']. simpl in Hi.
  injection Hi as -> ->. reflexivity.
Qed.

Lemma pending_duplicate_is_dropped_witness :
  let first := Scenario.focus_gained 1 in
  let second := Scenario.focus_gained 2 in
  let w := snd (fst (_enqueue Scenario.env no_cache (Scenario.start true) first)) in
  _eventQueue w = [first]
  /\ fst (_enqueue Scenario.env no_cache w second) = (Returns tt, w)
  /\ delivered
       (fst (run_idle Scenario.env 3 no_cache
               (snd (fst (_enqueue Scenario.env no_cache w second))))) = [first].
Proof.
  intros first second w.
  assert (Hq : _eventQueue w = [first]) by reflexivity.
  assert (E : fst (_enqueue Scenario.env no_cache w second) = (Returns tt, w)).
  { apply (pending_duplicate_is_dropped Scenario.env no_cache w second first).
    - reflexivity.
    - reflexivity.
    - rewrite Hq. left; reflexivity.
    - repeat split.
    - reflexivity.
    - reflexivity. }
  split; [exact Hq|]. split; [exact E|]. rewrite E. reflexivity.
Defined.

(** C3, as the specification has it, fails for a window event: with one
    "window:activate" event pending and no flood, a second event with
    the same type, source, details and data is not ignored, is queued
    behind the first, and both reach the script. *)
Lemma duplicate_window_event_delivered_twice :
  let first := Scenario.window_activate 1 in
  let second := Scenario.window_activate 2 in
  let w := snd (fst (_enqueue Scenario.env no_cache (Scenario.start true) first)) in
  (_eventQueue w = [first] /\ _inFlood w = false /\ isSame second first = true)
  /\ fst (_ignore Scenario.env no_cache w second) = (Returns false, w)
  /\ _eventQueue (snd (fst (_enqueue Scenario.env no_cache w second))) = [first; second]
  /\ delivered
       (fst (run_idle Scenario.env 3 no_cache
               (snd (fst (_enqueue Scenario.env no_cache w second)))))
     = [first; second].
Proof.
  intros first second w. repeat split.
Qed.

(** ** The caches of [AXObject] *)

Lemma known_dead_handle_error (h x : Handle) (gone : bool) (c : Cache) :
  AXObject.object_is_known_dead (AXObject.handle_error h gone c) x
  = AXObject.object_is_known_dead c x || (gone && Pos.eqb x h).
Proof.
  unfold AXObject.handle_error, AXObject.object_is_known_dead, Py.list_in.
  destruct gone; simpl.
  - rewrite existsb_app. simpl. rewrite orb_false_r. reflexivity.
  - rewrite orb_false_r. reflexivity.
Qed.

(** [is_dead] as a value: the object is known dead, or asking for its
    name raises. *)
Lemma is_dead_value (env : Env) (c : Cache) (h : Handle) :
  fst (AXObject.is_dead env c (VObj h))
  = AXObject.object_is_known_dead c h || names_fail env h.
Proof.
  unfold AXObject.is_dead, AXObject.is_valid, names_fail.
  destruct (AXObject.object_is_known_dead c h); cbn [negb orb]; [reflexivity|].
  destruct (Atspi_get_name env h); reflexivity.
Qed.

Lemma dead_grows_refl (env : Env) (c : Cache) : dead_grows env c c.
Proof. intros h. split; [auto|left; assumption]. Qed.

Lemma dead_grows_trans (env : Env) (c1 c2 c3 : Cache) :
  dead_grows env c1 c2 -> dead_grows env c2 c3 -> dead_grows env c1 c3.
Proof.
  intros H12 H23 h. destruct (H12 h) as [A1 B1]. destruct (H23 h) as [A2 B2].
  split; [auto|]. intros H. destruct (B2 H) as [H2|H2]; [auto|right; exact H2].
Qed.

Lemma is_dead_grows (env : Env) (c : Cache) (v : Value) :
  dead_grows env c (snd (AXObject.is_dead env c v)).
Proof.
  destruct v as [|s|h]; unfold AXObject.is_dead; try apply dead_grows_refl.
  destruct (negb (AXObject.is_valid c (Some h))); [apply dead_grows_refl|].
  destruct (Atspi_get_name env h) as [n|gone] eqn:E; [apply dead_grows_refl|].
  intros x. cbn [snd]. rewrite known_dead_handle_error. split.
  - intros ->. reflexivity.
  - intros H. apply orb_true_iff in H as [H|H]; [left; exact H|].
    apply andb_true_iff in H as [_ H]. apply Pos.eqb_eq in H. subst x.
    right. unfold names_fail. rewrite E. reflexivity.
Qed.

(** Along such a growth [is_dead] keeps its answers. *)
Lemma is_dead_stable (env : Env) (c c' : Cache) (v : Value) :
  dead_grows env c c' ->
  fst (AXObject.is_dead env c' v) = fst (AXObject.is_dead env c v).
Proof.
  intros G. destruct v as [|s|h]; [reflexivity|reflexivity|].
  rewrite !is_dead_value. destruct (G h) as [A B].
  destruct (names_fail env h); [rewrite !orb_true_r; reflexivity|].
  rewrite !orb_false_r.
  destruct (AXObject.object_is_known_dead c h) eqn:E1.
  - apply A. reflexivity.
  - destruct (AXObject.object_is_known_dead c' h) eqn:E2; [|reflexivity].
    destruct (B eq_refl); discriminate.
Qed.

Lemma processDuringFlood_grows (env : Env) (c : Cache) (w : World) (x : Event) :
  dead_grows env c (snd (_processDuringFlood env c w x)).
Proof.
  unfold _processDuringFlood, _eventSourceIsDead.
  pose proof (is_dead_grows env c (obj (source x))) as G.
  destruct (AXObject.is_dead env c (obj (source x))) as [dead c1]. simpl in G.
  destruct dead; [exact G|]. destruct (negb _); exact G.
Qed.

Lemma processDuringFlood_value (env : Env) (c : Cache) (w : World) (x : Event) :
  fst (_processDuringFlood env c w x)
  = negb (fst (AXObject.is_dead env c (obj (source x))))
    && (negb (Py.list_in String.eqb (type x) high_volume)
        || same_handle (source x) (locusOfFocus w)).
Proof.
  unfold _processDuringFlood, _eventSourceIsDead.
  destruct (AXObject.is_dead env c (obj (source x))) as [dead c1]. simpl.
  destruct dead; [reflexivity|]. destruct (negb _); reflexivity.
Qed.

Lemma processDuringFlood_stable (env : Env) (c c' : Cache) (w : World) (x : Event) :
  dead_grows env c c' ->
  fst (_processDuringFlood env c' w x) = fst (_processDuringFlood env c w x).
Proof.
  intros G. rewrite !processDuringFlood_value, (is_dead_stable env c c' _ G). reflexivity.
Qed.

(** ** Flood: pruning *)

Lemma parents_only_refl (w : World) : parents_only w w.
Proof. unfold parents_only. destruct w; reflexivity. Qed.

Lemma parents_only_set_parents (p : list (option Handle)) (w : World) :
  parents_only w (set_parents p w).
Proof. unfold parents_only. destruct w; reflexivity. Qed.

Lemma parents_only_fields (w w' : World) :
  parents_only w w' ->
  _eventQueue w' = _eventQueue w /\ locusOfFocus w' = locusOfFocus w
  /\ trace w' = trace w /\ gate w' = gate w
  /\ _asyncMode w' = _asyncMode w
  /\ _synchronousToolkits w' = _synchronousToolkits w.
Proof.
  unfold parents_only. intros H. repeat split.
  - apply (f_equal _eventQueue) in H; exact H.
  - apply (f_equal locusOfFocus) in H; exact H.
  - apply (f_equal trace) in H; exact H.
  - apply (f_equal gate) in H; exact H.
  - apply (f_equal _asyncMode) in H; exact H.
  - apply (f_equal _synchronousToolkits) in H; exact H.
Qed.

Lemma ignore_structural_frame (env : Env) (c : Cache) (w : World) (e : Event) (role : Role) :
  parents_only w (snd (fst (ignore_structural env c w e role))).
Proof.
  unfold ignore_structural.
  destruct (_ || Py.startswith (type e) "object:active-descendant-changed");
    [|apply parents_only_refl].
  destruct (role_in _ _); [apply parents_only_refl|].
  destruct (bool_decide (any_data e = VNone)); [apply parents_only_refl|].
  destruct (if Py.endswith (type e) "remove" then _ else _) as [lost c1].
  destruct lost; [apply parents_only_refl|].
  destruct (AXObject.is_dead env c1 (any_data e)) as [dead c2].
  destruct (dead || _).
  - destruct (_ && negb _); [apply parents_only_set_parents|apply parents_only_refl].
  - set (w' := if Py.list_in same_handle (source e) _ then _ else w).
    assert (F : parents_only w w').
    { subst w'. destruct (Py.list_in _ _ _);
        [apply parents_only_set_parents|apply parents_only_refl]. }
    destruct (AXUtilities env is_image _); [exact F|].
    destruct (_ && AXUtilities env is_menu_item _); exact F.
Qed.

(** Of the manager's state, the filter writes to the memo of parents of
    defunct descendants only. *)
Lemma ignore_frame (env : Env) (c : Cache) (w : World) (e : Event) :
  parents_only w (snd (fst (_ignore env c w e))).
Proof.
  unfold _ignore.
  destruct (negb (_active w)); [apply parents_only_refl|].
  destruct (existsb _ (_ignoredEvents w)); [apply parents_only_refl|].
  destruct (AXObject.get_application env c (source e)) as [app c1].
  destruct (AXObject.get_name env c1 app) as [name c2].
  destruct (_ && Py.startswith (type e) "object:children-changed:remove");
    [apply parents_only_refl|].
  destruct (Py.startswith (type e) "window"); [apply parents_only_refl|].
  destruct (Py.startswith (type e) "mouse:button"); [apply parents_only_refl|].
  destruct (_isDuplicateEvent env w e); [apply parents_only_refl|].
  destruct (if Py.endswith (type e) "system" then _ else _) as [tb c3].
  destruct (tb && _); [apply parents_only_refl|].
  destruct (if _inDeluge w then _ else _) as [d c4].
  destruct d; [apply parents_only_refl|].
  destruct ((_ || _) && _); [apply parents_only_refl|].
  destruct (only_embedded_objects e) as [[|]|]; try apply parents_only_refl.
  destruct (AXUtilities env has_no_state _); [apply parents_only_refl|].
  destruct (AXUtilities env is_defunct _); [apply parents_only_refl|].
  destruct (AXObject.get_role env c4 (source e)) as [role c5].
  destruct (ignore_by_role env c5 w e role) as [i c6].
  destruct i; [apply parents_only_refl|].
  pose proof (ignore_structural_frame env c6 w e role) as F.
  destruct (ignore_structural env c6 w e role) as [[i' w'] c7]. exact F.
Qed.

Lemma enqueue_filter_frame (env : Env) (c : Cache) (w : World) (e : Event) :
  parents_only w (snd (fst (enqueue_filter env c w e))).
Proof.
  unfold enqueue_filter. destruct (negb (is_inputEvent e)); [|apply parents_only_refl].
  pose proof (ignore_frame env c w e) as F.
  destruct (_ignore env c w e) as [[[b|] w'] c']; exact F.
Qed.

(** The loop of the pruning keeps the events that are to be processed,
    as [_processDuringFlood] sees them when the loop starts: what one
    turn adds to [KNOWN_DEAD] does not change the answer for another
    event. *)
Lemma prune_loop_filter (env : Env) (c : Cache) (w : World) (old new : list Event) :
  fst (prune_loop env c w old new)
  = new ++ List.filter (fun x => fst (_processDuringFlood env c w x)) old
  /\ dead_grows env c (snd (prune_loop env c w old new)).
Proof.
  revert c new. induction old as [|x old IH]; intros c new; simpl.
  - rewrite app_nil_r. split; [reflexivity|apply dead_grows_refl].
  - pose proof (processDuringFlood_grows env c w x) as G.
    destruct (_processDuringFlood env c w x) as [keep c1]. simpl in G. simpl.
    assert (F : List.filter (fun y => fst (_processDuringFlood env c1 w y)) old
                = List.filter (fun y => fst (_processDuringFlood env c w y)) old).
    { apply List.filter_ext. intros y. apply processDuringFlood_stable, G. }
    destruct keep.
    + destruct (IH c1 (new ++ [x])) as [E Gr]. rewrite E, F. split.
      * rewrite <- app_assoc. reflexivity.
      * eapply dead_grows_trans; [exact G|exact Gr].
    + destruct (IH c1 new) as [E Gr]. rewrite E, F. split; [reflexivity|].
      eapply dead_grows_trans; [exact G|exact Gr].
Qed.

Lemma prune_queue (env : Env) (c : Cache) (w : World) :
  _eventQueue (fst (_pruneEventsDuringFlood env c w))
  = List.filter (fun x => fst (_processDuringFlood env c w x)) (_eventQueue w)
  /\ dead_grows env c (snd (_pruneEventsDuringFlood env c w)).
Proof.
  unfold _pruneEventsDuringFlood.
  destruct (prune_loop_filter env c w (_eventQueue w) []) as [E G].
  destruct (prune_loop env c w (_eventQueue w) []) as [q c1]. simpl in *.
  split; [exact E|exact G].
Qed.

Lemma processDuringFlood_survives (env : Env) (c : Cache) (w : World) (x : Event) :
  fst (_processDuringFlood env c w x) = true <-> survives_flood env c w x.
Proof.
  rewrite processDuringFlood_value. unfold survives_flood.
  destruct (fst (AXObject.is_dead env c (obj (source x)))).
  - split; [discriminate|intros [_ H]; discriminate].
  - cbn [negb andb].
    destruct (Py.list_in String.eqb (type x) high_volume) eqn:E; cbn [negb orb].
    + apply list_in_string in E. unfold same_handle. rewrite bool_decide_eq_true.
      split; [intros H; split; [right; exact H|reflexivity]|].
      intros [[H|H] _]; [contradiction|exact H].
    + split; [intros _|reflexivity]. split; [left|reflexivity].
      intros H. apply list_in_string in H. congruence.
Qed.

Lemma processDuringFlood_locus (env : Env) (c : Cache) (w w' : World) (x : Event) :
  locusOfFocus w' = locusOfFocus w ->
  _processDuringFlood env c w' x = _processDuringFlood env c w x.
Proof. intros H. unfold _processDuringFlood. rewrite H. reflexivity. Qed.

Lemma filter_sublist (f : Event -> bool) (l : list Event) :
  sublist (List.filter f l) l.
Proof.
  induction l as [|x l IH]; simpl; [constructor|].
  destruct (f x); [apply sublist_skip|apply sublist_cons]; exact IH.
Qed.

Lemma suspendEvents_queue (e : Event) (w : World) :
  _eventQueue (_suspendEvents e w) = _eventQueue w.
Proof.
  unfold _suspendEvents. simpl.
  destruct (_eventsSuspended w); [reflexivity|].
  set (w0 := set_triggers _ w).
  destruct (listeners_only_fields _ _ (deregisterAll_frame (_suspendableEvents w0) w0))
    as (_ & _ & _ & Fq & _).
  transitivity (_eventQueue (deregisterAll (_suspendableEvents w0) w0)).
  - destruct (deregisterAll _ _); reflexivity.
  - rewrite Fq. reflexivity.
Qed.

Lemma enqueue_suspend_queue (env : Env) (c : Cache) (e : Event) (w : World) :
  _eventQueue (fst (enqueue_suspend env c e w)) = _eventQueue w.
Proof.
  unfold enqueue_suspend. destruct (negb (is_inputEvent e)); [|reflexivity].
  destruct (_shouldSuspendEventsFor env c e) as [s c1].
  destruct s; [apply suspendEvents_queue|reflexivity].
Qed.

(** C1.  More than 50 events are pending and a prioritized event gets
    past the filter.  Then [_enqueue] prunes before it goes on: the
    queue handed to the rest of [_enqueue] is the old queue filtered by
    [_processDuringFlood], as it answers once the filter has run.  Every
    event left on it is one whose type is outside the high-volume set or
    whose source is the locus of focus, and whose source is not dead;
    every such event is left; and the events left are in the order they
    had.  The events left are not dead for [AXObject] after the pruning
    either. *)
Theorem prioritized_event_prunes_flood
    (env : Env) (c c1 : Cache) (w w1 : World) (e : Event) :
  (50 < qsize w)%Z ->
  _prioritizeDuringFlood env e = true ->
  enqueue_filter env c w e = (false, w1, c1) ->
  let pruned := fst (_pruneEventsDuringFlood env c1 w1) in
  let c2 := snd (_pruneEventsDuringFlood env c1 w1) in
  _enqueue env c w e
  = enqueue_put env (snd (enqueue_suspend env c2 e pruned)) e
      (fst (enqueue_suspend env c2 e pruned))
  /\ _eventQueue (fst (enqueue_suspend env c2 e pruned)) = _eventQueue pruned
  /\ _eventQueue pruned
     = List.filter (fun x => fst (_processDuringFlood env c1 w x)) (_eventQueue w)
  /\ Forall (survives_flood env c1 w) (_eventQueue pruned)
  /\ sublist (_eventQueue pruned) (_eventQueue w)
  /\ (forall x, In x (_eventQueue w) -> survives_flood env c1 w x ->
                In x (_eventQueue pruned))
  /\ Forall (survives_flood env c2 w) (_eventQueue pruned).
Proof.
  intros Hq Hp Hf pruned c2.
  pose proof (enqueue_filter_frame env c w e) as F. rewrite Hf in F. simpl in F.
  destruct (parents_only_fields _ _ F) as (Fq & Fl & _).
  assert (Hfl : _inFlood w1 = true).
  { unfold _inFlood, qsize. rewrite Fq. apply Z.ltb_lt, Hq. }
  destruct (prune_queue env c1 w1) as [Eq0 G]. fold pruned in Eq0. fold c2 in G.
  assert (Eq : _eventQueue pruned
               = List.filter (fun x => fst (_processDuringFlood env c1 w x))
                   (_eventQueue w)).
  { rewrite Eq0, Fq. apply List.filter_ext. intros x.
    rewrite (processDuringFlood_locus env c1 w w1 x Fl). reflexivity. }
  assert (Hall : Forall (survives_flood env c1 w) (_eventQueue pruned)).
  { rewrite Eq. apply List.Forall_forall. intros x Hx.
    apply List.filter_In in Hx as [_ Hx]. apply processDuringFlood_survives, Hx. }
  split.
  { unfold _enqueue. rewrite Hf. unfold enqueue_prune. rewrite Hfl, Hp. cbn [andb].
    subst pruned c2. destruct (_pruneEventsDuringFlood env c1 w1) as [wp cp].
    cbn [fst snd]. destruct (enqueue_suspend env cp e wp) as [ws cs]. reflexivity. }
  split; [apply enqueue_suspend_queue|].
  split; [exact Eq|]. split; [exact Hall|]. split; [|split].
  - rewrite Eq. apply filter_sublist.
  - intros x Hx Hs. rewrite Eq. apply List.filter_In. split; [exact Hx|].
    apply processDuringFlood_survives, Hs.
  - eapply List.Forall_impl; [|exact Hall].
    intros x [H1 H2]. split; [exact H1|].
    rewrite (is_dead_stable env c1 c2 _ G). exact H2.
Qed.

Lemma prioritized_event_prunes_flood_witness :
  let q := Scenario.caret_moved 100 :: Scenario.backlog 60
           ++ [Scenario.window_activate 200] in
  let w := set_queue q (Scenario.start true) in
  let e := Scenario.focus_gained 500 in
  let c1 := snd (enqueue_filter Scenario.env no_cache w e) in
  _eventQueue (fst (_pruneEventsDuringFlood Scenario.env c1 w))
  = [Scenario.caret_moved 100; Scenario.window_activate 200]
  /\ _eventQueue (snd (fst (_enqueue Scenario.env no_cache w e)))
     = [Scenario.caret_moved 100; Scenario.window_activate 200; e].
Proof.
  intros q w e c1.
  assert (H1 : (50 < qsize w)%Z) by reflexivity.
  assert (H2 : _prioritizeDuringFlood Scenario.env e = true) by reflexivity.
  assert (H3 : enqueue_filter Scenario.env no_cache w e = (false, w, c1)) by reflexivity.
  destruct (prioritized_event_prunes_flood Scenario.env no_cache c1 w w e H1 H2 H3)
    as (E & _ & Eq & _).
  split.
  - rewrite Eq. reflexivity.
  - rewrite E. reflexivity.
Defined.

(** ** Synchronous and asynchronous delivery *)

Lemma delivered_emit (x : Effect) (w : World) :
  (forall s e, x <> ProcessObjectEvent s e) -> delivered (emit x w) = delivered w.
Proof.
  intros H. unfold delivered. simpl. rewrite omap_app. simpl.
  destruct x; try (rewrite app_nil_r; reflexivity).
  exfalso. eapply H. reflexivity.
Qed.









(** * Further properties of the event manager *)

(** ** How deluge, flood, priority and suspension fit together *)

(** X1.  The deluge test and the flood test are complements: an event is
    ignored during a deluge exactly when it would not be processed
    during a flood, and the two tests leave the same behind in
    [AXObject].  A deluge is also a flood. *)
Theorem deluge_rejects_what_flood_drops
    (env : Env) (c : Cache) (w : World) (event : Event) :
  fst (_ignoreDuringDeluge env c w event) = negb (fst (_processDuringFlood env c w event))
  /\ snd (_ignoreDuringDeluge env c w event) = snd (_processDuringFlood env c w event)
  /\ (_inDeluge w = true -> _inFlood w = true).
Proof.
  split; [|split].
  - unfold _ignoreDuringDeluge, _processDuringFlood.
    destruct (_eventSourceIsDead env c event) as [dead c1].
    destruct dead; [reflexivity|].
    destruct (negb (Py.list_in String.eqb (type event) high_volume)); reflexivity.
  - unfold _ignoreDuringDeluge, _processDuringFlood.
    destruct (_eventSourceIsDead env c event) as [dead c1].
    destruct dead; [reflexivity|].
    destruct (negb (Py.list_in String.eqb (type event) high_volume)); reflexivity.
  - unfold _inDeluge, _inFlood. intros H. apply Z.ltb_lt in H. apply Z.ltb_lt. lia.
Qed.

Lemma prioritized_type_not_high_volume (env : Env) (event : Event) :
  _prioritizeDuringFlood env event = true -> ~ In (type event) high_volume.
Proof.
  intros Hp Hin. unfold high_volume in Hin. simpl in Hin.
  unfold _prioritizeDuringFlood in Hp.
  repeat (destruct Hin as [Hin|Hin];
          [rewrite <- Hin in Hp; vm_compute in Hp; discriminate Hp|]).
  destruct Hin.
Qed.

Lemma not_high_volume_processed (env : Env) (c : Cache) (w : World) (event : Event) :
  ~ In (type event) high_volume ->
  fst (_processDuringFlood env c w event) = negb (fst (_eventSourceIsDead env c event))
  /\ fst (_ignoreDuringDeluge env c w event) = fst (_eventSourceIsDead env c event).
Proof.
  intros Hn.
  assert (E : Py.list_in String.eqb (type event) high_volume = false).
  { destruct (Py.list_in String.eqb (type event) high_volume) eqn:E; [|reflexivity].
    apply list_in_string in E. contradiction. }
  unfold _processDuringFlood, _ignoreDuringDeluge. rewrite E.
  destruct (_eventSourceIsDead env c event) as [dead c1].
  destruct dead; split; reflexivity.
Qed.

(** X2.  A prioritized event never has a high-volume type.  So the only
    thing that keeps it from being processed during a flood, or gets it
    ignored during a deluge, is a dead source; the locus of focus plays
    no part. *)
Theorem prioritized_event_only_stopped_by_dead_source
    (env : Env) (c : Cache) (w : World) (event : Event) :
  _prioritizeDuringFlood env event = true ->
  ~ In (type event) high_volume
  /\ fst (_processDuringFlood env c w event) = negb (fst (_eventSourceIsDead env c event))
  /\ fst (_ignoreDuringDeluge env c w event) = fst (_eventSourceIsDead env c event).
Proof.
  intros Hp. pose proof (prioritized_type_not_high_volume env event Hp) as Hn.
  split; [exact Hn|]. apply not_high_volume_processed, Hn.
Qed.

Lemma prioritized_event_only_stopped_by_dead_source_witness :
  let w := set_queue (Scenario.backlog 120) (Scenario.start true) in
  fst (_processDuringFlood Scenario.env no_cache w (Scenario.office_focus 500)) = true
  /\ fst (_ignoreDuringDeluge Scenario.env no_cache w (Scenario.office_focus 500)) = false
  /\ fst (_processDuringFlood Scenario.env no_cache w (Scenario.insert 501)) = false.
Proof.
  intros w.
  assert (Hp : _prioritizeDuringFlood Scenario.env (Scenario.office_focus 500) = true)
    by reflexivity.
  destruct (prioritized_event_only_stopped_by_dead_source Scenario.env no_cache w
              (Scenario.office_focus 500) Hp) as (_ & H1 & H2).
  split; [rewrite H1; reflexivity|]. split; [rewrite H2; reflexivity|reflexivity].
Defined.

Lemma high_volume_not_a_trigger_type (t : string) :
  In t high_volume ->
  Py.startswith t "window" = false
  /\ Py.endswith t "active" = false
  /\ Py.endswith t "busy" = false.
Proof.
  unfold high_volume. intros H. simpl in H.
  repeat (destruct H as [<-|H]; [repeat split; vm_compute; reflexivity|]).
  destruct H.
Qed.

(** X3.  An event for which events are suspended never has a high-volume
    type, so pruning during a flood takes it off the queue only when its
    source is dead. *)
Theorem suspension_trigger_only_pruned_when_dead
    (env : Env) (c : Cache) (w : World) (event : Event) :
  fst (_shouldSuspendEventsFor env c event) = true ->
  ~ In (type event) high_volume
  /\ forall c',
       fst (_processDuringFlood env c' w event)
       = negb (fst (_eventSourceIsDead env c' event)).
Proof.
  intros Hs.
  assert (Hn : ~ In (type event) high_volume).
  { intros Hin. destruct (high_volume_not_a_trigger_type _ Hin) as (Hw & Ha & Hb).
    unfold _shouldSuspendEventsFor in Hs. rewrite Hw, Ha, Hb in Hs.
    destruct (if AXUtilities env is_frame (obj (source event)) then _ else _)
      as [window c1].
    cbn [orb] in Hs. rewrite !andb_false_r in Hs. simpl in Hs. discriminate Hs. }
  split; [exact Hn|]. intros c'. apply not_high_volume_processed, Hn.
Qed.

Lemma suspension_trigger_only_pruned_when_dead_witness :
  let w := set_queue (Scenario.backlog 60 ++ [Scenario.window_activate 100])
             (Scenario.start true) in
  fst (_shouldSuspendEventsFor Scenario.env no_cache (Scenario.window_activate 100)) = true
  /\ fst (_processDuringFlood Scenario.env no_cache w (Scenario.window_activate 100)) = true
  /\ _eventQueue (fst (_pruneEventsDuringFlood Scenario.env no_cache w))
     = [Scenario.window_activate 100].
Proof.
  intros w.
  assert (Hs : fst (_shouldSuspendEventsFor Scenario.env no_cache
                      (Scenario.window_activate 100)) = true)
    by reflexivity.
  destruct (suspension_trigger_only_pruned_when_dead Scenario.env no_cache w
              (Scenario.window_activate 100) Hs) as (_ & H).
  split; [exact Hs|]. split; [rewrite H; reflexivity|reflexivity].
Defined.

(** ** The list of ignored event types *)

Lemma ignoreEventTypes_cons (t : string) (l : list string) (w : World) :
  ignoreEventTypes (t :: l) w
  = ignoreEventTypes l
      (if negb (Py.list_in String.eqb t (_ignoredEvents w))
       then set_ignored (_ignoredEvents w ++ [t]) w else w).
Proof. reflexivity. Qed.

Lemma unignoreEventTypes_cons (t : string) (l : list string) (w : World) :
  unignoreEventTypes (t :: l) w
  = unignoreEventTypes l
      (if Py.list_in String.eqb t (_ignoredEvents w)
       then set_ignored (Py.list_remove String.eqb t (_ignoredEvents w)) w else w).
Proof. reflexivity. Qed.

Lemma set_ignored_same (w : World) : set_ignored (_ignoredEvents w) w = w.
Proof. destruct w; reflexivity. Qed.

Lemma set_ignored_twice (a b : list string) (w : World) :
  set_ignored a (set_ignored b w) = set_ignored a w.
Proof. reflexivity. Qed.

(** Ignoring types only adds to the end of the list. *)
Lemma ignoreEventTypes_extends (l : list string) (w : World) :
  exists added,
    ignoreEventTypes l w = set_ignored (_ignoredEvents w ++ added) w
    /\ (forall t, In t added -> In t l)
    /\ (forall t, In t l -> In t (_ignoredEvents w ++ added))
    /\ (NoDup (_ignoredEvents w) -> NoDup (_ignoredEvents w ++ added)).
Proof.
  revert w. induction l as [|t l IH]; intros w.
  - exists []. rewrite app_nil_r. simpl. rewrite set_ignored_same.
    repeat split; auto. intros t [].
  - rewrite ignoreEventTypes_cons.
    destruct (Py.list_in String.eqb t (_ignoredEvents w)) eqn:E; simpl.
    + destruct (IH w) as (added & E1 & Hsub & Hin & Hnd).
      exists added. split; [exact E1|]. split; [|split; [|exact Hnd]].
      * intros x Hx. right. apply Hsub, Hx.
      * intros x [<-|Hx]; [|apply Hin, Hx].
        apply list_in_string in E. apply in_or_app. left; exact E.
    + destruct (IH (set_ignored (_ignoredEvents w ++ [t]) w))
        as (added & E1 & Hsub & Hin & Hnd).
      simpl in E1, Hin, Hnd. rewrite <- app_assoc in E1, Hin, Hnd. simpl in E1, Hin, Hnd.
      exists (t :: added). split; [exact E1|]. split; [|split].
      * intros x [<-|Hx]; [left; reflexivity|right; apply Hsub, Hx].
      * intros x [<-|Hx]; [|apply Hin, Hx].
        apply in_or_app. right. left. reflexivity.
      * intros Hw. replace (_ignoredEvents w ++ t :: added)
          with ((_ignoredEvents w ++ [t]) ++ added) in *
          by (rewrite <- app_assoc; reflexivity).
        apply Hnd. apply NoDup_app. split; [exact Hw|]. split.
        -- intros x Hx Hx'. apply list_elem_of_In in Hx, Hx'.
           destruct Hx' as [<-|[]].
           assert (Py.list_in String.eqb t (_ignoredEvents w) = true)
             by (apply list_in_string; exact Hx).
           congruence.
        -- apply NoDup_singleton.
Qed.

(** X4.  Once a type has been handed to [ignoreEventTypes], the filter
    ignores every event whose type begins with it, and does so without
    changing anything: it does not get as far as asking [AXObject]. *)
Theorem ignored_type_is_filtered
    (env : Env) (c : Cache) (w : World) (l : list string) (p : string) (event : Event) :
  In p l ->
  Py.startswith (type event) p = true ->
  _ignore env c (ignoreEventTypes l w) event = (Returns true, ignoreEventTypes l w, c).
Proof.
  intros Hp Hs.
  destruct (ignoreEventTypes_extends l w) as (added & E & _ & Hin & _).
  assert (Hex : existsb (fun q => Py.startswith (type event) q)
                  (_ignoredEvents (ignoreEventTypes l w)) = true).
  { apply existsb_exists. exists p. split; [|exact Hs].
    rewrite E. simpl. apply Hin, Hp. }
  unfold _ignore. rewrite Hex.
  destruct (negb (_active (ignoreEventTypes l w))); reflexivity.
Qed.

Lemma ignored_type_is_filtered_witness :
  let w := ignoreEventTypes ["object:text-caret-moved"] (Scenario.start true) in
  _ignore Scenario.env no_cache w (Scenario.caret_moved 1) = (Returns true, w, no_cache)
  /\ fst (fst (_ignore Scenario.env no_cache (Scenario.start true) (Scenario.caret_moved 1)))
     = Returns false.
Proof.
  intros w. split; [|reflexivity].
  apply (ignored_type_is_filtered Scenario.env no_cache (Scenario.start true)
           ["object:text-caret-moved"] "object:text-caret-moved" (Scenario.caret_moved 1)).
  - left; reflexivity.
  - reflexivity.
Defined.

Lemma ignoreEventTypes_present (l : list string) (w : World) :
  (forall t, In t l -> In t (_ignoredEvents w)) -> ignoreEventTypes l w = w.
Proof.
  induction l as [|t l IH]; intros H; [reflexivity|].
  rewrite ignoreEventTypes_cons.
  assert (E : Py.list_in String.eqb t (_ignoredEvents w) = true).
  { apply list_in_string, H. left; reflexivity. }
  rewrite E. simpl. apply IH. intros x Hx. apply H. right; exact Hx.
Qed.

(** X5.  [ignoreEventTypes] is idempotent, and it keeps the list of
    ignored types free of duplicates. *)
Theorem ignoreEventTypes_idempotent (l : list string) (w : World) :
  ignoreEventTypes l (ignoreEventTypes l w) = ignoreEventTypes l w
  /\ (NoDup (_ignoredEvents w) -> NoDup (_ignoredEvents (ignoreEventTypes l w))).
Proof.
  destruct (ignoreEventTypes_extends l w) as (added & E & _ & Hin & Hnd).
  split.
  - apply ignoreEventTypes_present. intros t Ht. rewrite E. simpl. apply Hin, Ht.
  - intros H. rewrite E. simpl. apply Hnd, H.
Qed.

Lemma list_in_middle (t : string) (a b : list string) :
  Py.list_in String.eqb t (a ++ t :: b) = true.
Proof. apply list_in_string, in_or_app. right; left; reflexivity. Qed.

Lemma list_remove_middle (t : string) (a b : list string) :
  ~ In t a -> Py.list_remove String.eqb t (a ++ t :: b) = a ++ b.
Proof.
  induction a as [|x a IH]; intros H; simpl.
  - rewrite String.eqb_refl. reflexivity.
  - destruct (String.eqb_spec t x) as [->|Hne].
    + exfalso. apply H. left; reflexivity.
    + rewrite IH; [reflexivity|]. intros Hin. apply H. right; exact Hin.
Qed.

Lemma list_remove_NoDup (t : string) (l : list string) :
  NoDup l -> ~ In t (Py.list_remove String.eqb t l).
Proof.
  induction 1 as [|x l Hx Hnd IH]; simpl; [auto|].
  destruct (String.eqb_spec t x) as [->|Hne].
  - intros Hin. apply Hx. apply list_elem_of_In. exact Hin.
  - intros [E|Hin]; [congruence|exact (IH Hin)].
Qed.

Lemma ignoreEventTypes_fresh (l : list string) (w : World) :
  NoDup l ->
  (forall t, In t l -> ~ In t (_ignoredEvents w)) ->
  ignoreEventTypes l w = set_ignored (_ignoredEvents w ++ l) w.
Proof.
  intros Hnd. revert w. induction Hnd as [|t l Ht Hnd IH]; intros w H.
  - rewrite app_nil_r, set_ignored_same. reflexivity.
  - rewrite ignoreEventTypes_cons.
    assert (E : Py.list_in String.eqb t (_ignoredEvents w) = false).
    { destruct (Py.list_in String.eqb t (_ignoredEvents w)) eqn:E; [|reflexivity].
      apply list_in_string in E. exfalso. apply (H t); [left; reflexivity|exact E]. }
    rewrite E. simpl. rewrite IH.
    + simpl. rewrite <- app_assoc. reflexivity.
    + simpl. intros x Hx Hin. apply in_app_or in Hin as [Hin|[<-|[]]].
      * apply (H x); [right; exact Hx|exact Hin].
      * apply Ht. apply list_elem_of_In. exact Hx.
Qed.

Lemma unignoreEventTypes_fresh (l I : list string) (w : World) :
  (forall t, In t l -> ~ In t I) ->
  unignoreEventTypes l (set_ignored (I ++ l) w) = set_ignored I w.
Proof.
  revert w. induction l as [|t l IH]; intros w H.
  - rewrite app_nil_r. reflexivity.
  - rewrite unignoreEventTypes_cons. simpl.
    rewrite list_in_middle, list_remove_middle by (apply H; left; reflexivity).
    rewrite set_ignored_twice. apply IH. intros x Hx. apply H. right; exact Hx.
Qed.

(** X6.  Ignoring a list of distinct types none of which was ignored
    before, then unignoring the same list, gives back the state one
    started from.  For a type that was already ignored the round trip is
    not neutral: unignoring removes the entry that was there, so the
    type ends up not ignored. *)
Theorem ignore_then_unignore (l : list string) (w : World) :
  (NoDup l ->
   (forall t, In t l -> ~ In t (_ignoredEvents w)) ->
   unignoreEventTypes l (ignoreEventTypes l w) = w)
  /\ (forall t,
        NoDup (_ignoredEvents w) ->
        In t (_ignoredEvents w) ->
        ~ In t (_ignoredEvents (unignoreEventTypes [t] (ignoreEventTypes [t] w)))).
Proof.
  split.
  - intros Hnd H. rewrite ignoreEventTypes_fresh by assumption.
    rewrite unignoreEventTypes_fresh by exact H. apply set_ignored_same.
  - intros t Hnd Hin.
    assert (E : Py.list_in String.eqb t (_ignoredEvents w) = true)
      by (apply list_in_string; exact Hin).
    unfold ignoreEventTypes, unignoreEventTypes. simpl. rewrite E. simpl. rewrite E.
    simpl. apply list_remove_NoDup, Hnd.
Qed.

Lemma ignore_then_unignore_witness :
  let w := Scenario.start true in
  unignoreEventTypes ["focus:"; "object:text-caret-moved"]
    (ignoreEventTypes ["focus:"; "object:text-caret-moved"] w) = w
  /\ _ignoredEvents
       (unignoreEventTypes ["object:bounds-changed"]
          (ignoreEventTypes ["object:bounds-changed"] w))
     = ["object:state-changed:defunct"; "object:property-change:accessible-parent"].
Proof.
  intros w.
  destruct (ignore_then_unignore ["focus:"; "object:text-caret-moved"] w) as (R & _).
  split; [|reflexivity].
  apply R.
  - repeat constructor; simpl; intros H; apply list_elem_of_In in H; simpl in H;
      intuition discriminate.
  - intros t [<-|[<-|[]]]; simpl; intuition discriminate.
Defined.

(** ** Listeners of a script: registering and deregistering *)

(** X7.  On a table of positive counts, registering the listeners of a
    script and deregistering them again gives back the table, whatever
    the list holds and whatever was registered before. *)
Theorem script_listeners_round_trip (listeners : list string) (w : World) :
  counts_positive (_scriptListenerCounts w) ->
  _scriptListenerCounts
    (deregisterScriptListeners listeners (registerScriptListeners listeners w))
  = _scriptListenerCounts w.
Proof.
  intros Hpos. unfold deregisterScriptListeners, registerScriptListeners.
  apply map_eq. intros k.
  rewrite deregisterAll_lookup, registerAll_lookup.
  apply iter_drop_bump.
  destruct (_scriptListenerCounts w !! k) as [n|] eqn:E; simpl; [|exact I].
  exact (Hpos k n E).
Qed.

Lemma script_listeners_round_trip_witness :
  let w := registerListener "object:text-caret-moved" (Scenario.start true) in
  let listeners := ["object:text-caret-moved"; "window:activate"] in
  _scriptListenerCounts (registerScriptListeners listeners w) !! "window:activate"
  = Some 1%Z
  /\ _scriptListenerCounts
       (deregisterScriptListeners listeners (registerScriptListeners listeners w))
     = _scriptListenerCounts w.
Proof.
  intros w listeners. split; [reflexivity|].
  apply (script_listeners_round_trip listeners w).
  intros k n Hk. subst w. rewrite registerListener_lookup in Hk.
  change (_scriptListenerCounts (Scenario.start true)) with (∅ : gmap string Z) in Hk.
  rewrite lookup_empty in Hk.
  destruct (decide ("object:text-caret-moved" = k)); simpl in Hk.
  - injection Hk as <-. lia.
  - discriminate.
Defined.

(** X8.  A suspension that is entered and then left by the same trigger
    registers every suspendable type: a type that had listeners gets its
    count back, and a type nobody listened to ends up in the table with
    count 1.  Types that are not suspendable keep their entry. *)
Theorem suspension_registers_unlistened_types (w : World) (e : Event) :
  _eventsSuspended w = false ->
  _eventsTriggeringSuspension w = [] ->
  NoDup (_suspendableEvents w) ->
  let w' := _unsuspendEvents e false (_suspendEvents e w) in
  _eventsSuspended w' = false
  /\ _eventsTriggeringSuspension w' = []
  /\ forall k,
       _scriptListenerCounts w' !! k
       = if Py.list_in String.eqb k (_suspendableEvents w)
         then Some (default 1%Z (_scriptListenerCounts w !! k))
         else _scriptListenerCounts w !! k.
Proof.
  intros Hs Ht Hnd w'.
  set (S := _suspendableEvents w).
  pose (w0 := set_triggers [e] w).
  set (d := deregisterAll S w0).
  assert (E1 : _suspendEvents e w = set_suspended true d).
  { rewrite suspend_when_active by exact Hs. rewrite Ht. reflexivity. }
  destruct (listeners_only_fields _ _ (deregisterAll_frame S w0)) as (_ & Fl & Ftr & _).
  fold d in Fl, Ftr.
  assert (E2 : w' = set_suspended false (registerAll S (set_triggers [] (set_suspended true d)))).
  { subst w'. rewrite E1. rewrite unsuspend_last_trigger.
    - simpl. rewrite Fl. reflexivity.
    - reflexivity.
    - simpl. rewrite Ftr. simpl. unfold same_object. rewrite Pos.eqb_refl. reflexivity.
    - simpl. rewrite Ftr. simpl. unfold same_object. rewrite Pos.eqb_refl. reflexivity. }
  set (x := set_triggers [] (set_suspended true d)) in E2.
  destruct (listeners_only_fields _ _ (registerAll_frame S x)) as (_ & _ & Ftr' & _).
  split; [rewrite E2; reflexivity|]. split.
  - rewrite E2. simpl. rewrite Ftr'. reflexivity.
  - intros k. rewrite E2.
    transitivity (_scriptListenerCounts (registerAll S x) !! k); [reflexivity|].
    rewrite registerAll_lookup.
    replace (_scriptListenerCounts x) with (_scriptListenerCounts d) by reflexivity.
    unfold d. rewrite deregisterAll_lookup.
    replace (_scriptListenerCounts w0) with (_scriptListenerCounts w) by reflexivity.
    destruct (Py.list_in String.eqb k S) eqn:Ein.
    + apply list_in_string in Ein.
      assert (C : count_occ String.string_dec S k = 1).
      { pose proof (proj1 (List.NoDup_count_occ String.string_dec S)
                      (proj1 (NoDup_ListNoDup S) Hnd) k) as Hle.
        pose proof (proj1 (List.count_occ_In String.string_dec S k) Ein) as Hgt. lia. }
      rewrite C. simpl. apply bump_drop.
    + assert (C : count_occ String.string_dec S k = 0).
      { apply List.count_occ_not_In. intros Hin. apply list_in_string in Hin.
        congruence. }
      rewrite C. reflexivity.
Qed.

Lemma suspension_registers_unlistened_types_witness :
  let w := registerListener "object:state-changed:showing" (Scenario.start true) in
  let w' := _unsuspendEvents (Scenario.window_activate 1) false
              (_suspendEvents (Scenario.window_activate 1) w) in
  _scriptListenerCounts w !! "object:text-changed:delete" = None
  /\ _scriptListenerCounts w' !! "object:text-changed:delete" = Some 1%Z
  /\ _scriptListenerCounts w' !! "object:state-changed:showing" = Some 1%Z.
Proof.
  intros w w'.
  assert (H1 : _eventsSuspended w = false) by reflexivity.
  assert (H2 : _eventsTriggeringSuspension w = []) by reflexivity.
  assert (H3 : NoDup (_suspendableEvents w)).
  { repeat constructor; simpl; intros H; apply list_elem_of_In in H; simpl in H;
      intuition discriminate. }
  destruct (suspension_registers_unlistened_types w (Scenario.window_activate 1)
              H1 H2 H3) as (_ & _ & L).
  split; [reflexivity|]. split.
  - subst w'. rewrite L. reflexivity.
  - subst w'. rewrite L. reflexivity.
Defined.


(** ** The queue under [_dequeue] *)

Lemma unsuspendEvents_schedule (e : Event) (force : bool) (w : World) :
  _eventQueue (_unsuspendEvents e force w) = _eventQueue w
  /\ _gidleId (_unsuspendEvents e force w) = _gidleId w
  /\ delivered (_unsuspendEvents e force w) = delivered (w).
Proof.
  unfold _unsuspendEvents.
  set (w1 := if Py.list_in same_object e (_eventsTriggeringSuspension w) then _ else w).
  assert (F1 : _eventQueue w1 = _eventQueue w /\ _gidleId w1 = _gidleId w
               /\ delivered w1 = delivered w).
  { subst w1. destruct (Py.list_in _ _ _); repeat split. }
  destruct F1 as (<- & <- & <-).
  destruct (negb (_eventsSuspended w1)); [repeat split|].
  assert (R : _eventQueue (set_suspended false (registerAll (_suspendableEvents w1) w1))
              = _eventQueue w1
              /\ _gidleId (set_suspended false (registerAll (_suspendableEvents w1) w1))
                 = _gidleId w1
              /\ delivered (set_suspended false (registerAll (_suspendableEvents w1) w1))
                 = delivered w1).
  { destruct (listeners_only_fields _ _ (registerAll_frame (_suspendableEvents w1) w1))
      as (_ & _ & _ & Fq & Fg & _).
    split; [exact Fq|]. split; [exact Fg|].
    transitivity (delivered (registerAll (_suspendableEvents w1) w1)); [reflexivity|].
    generalize (_suspendableEvents w1) as l. intros l.
    generalize w1 as v. induction l as [|t l IH]; intros v; [reflexivity|].
    change (registerAll (t :: l) v) with (registerAll l (registerListener t v)).
    rewrite IH. unfold registerListener.
    destruct (_scriptListenerCounts v !! t); [reflexivity|].
    transitivity (delivered (emit (ListenerRegister t) v)); [reflexivity|].
    apply delivered_emit. discriminate. }
  destruct (_eventsTriggeringSuspension w1); [exact R|].
  destruct force; [exact R|repeat split].
Qed.

Lemma after_processing_schedule (env : Env) (e : Event) (w : World) :
  _eventQueue (after_processing env e w) = _eventQueue w
  /\ _gidleId (after_processing env e w) = _gidleId w
  /\ delivered (after_processing env e w) = delivered w.
Proof.
  unfold after_processing.
  destruct (_didSuspendEventsFor e w); [apply unsuspendEvents_schedule|].
  destruct (_ && _); [apply unsuspendEvents_schedule|repeat split].
Qed.

Lemma deliver_schedule (env : Env) (c : Cache) (script : Script) (e : Event) (w : World) :
  _eventQueue (fst (deliver env c script e w)) = _eventQueue w
  /\ _gidleId (fst (deliver env c script e w)) = _gidleId w.
Proof.
  unfold deliver.
  destruct (_isActivatableEvent env c w e (Some script)) as [[b r] c'].
  destruct b.
  - destruct (setActiveScript_raises env (Some script)); [repeat split|].
    destruct (processObjectEvent env script e _); repeat split.
  - destruct (processObjectEvent env script e _); repeat split.
Qed.

Lemma prune_schedule (env : Env) (c : Cache) (w : World) :
  sublist (_eventQueue (fst (_pruneEventsDuringFlood env c w))) (_eventQueue w)
  /\ _gidleId (fst (_pruneEventsDuringFlood env c w)) = _gidleId w.
Proof.
  split.
  - destruct (prune_queue env c w) as [E _]. rewrite E. apply filter_sublist.
  - unfold _pruneEventsDuringFlood. destruct (prune_loop env c w (_eventQueue w) []).
    reflexivity.
Qed.

Lemma flood_gate_schedule (env : Env) (c : Cache) (e : Event) (w v : World) :
  fst (flood_gate env c e w) = Some v ->
  sublist (_eventQueue v) (_eventQueue w) /\ _gidleId v = _gidleId w.
Proof.
  unfold flood_gate.
  destruct (_inFlood w); [|intros [= <-]; split; reflexivity].
  destruct (_processDuringFlood env c w e) as [p c1].
  destruct p; [|discriminate]. cbn [negb].
  destruct (_prioritizeDuringFlood env e); [|intros [= <-]; split; reflexivity].
  pose proof (prune_schedule env c1 w) as P.
  destruct (_pruneEventsDuringFlood env c1 w) as [wp cp]. intros [= <-]. exact P.
Qed.

Lemma processObjectEvent_schedule (env : Env) (c : Cache) (e : Event) (w : World) :
  sublist (_eventQueue (snd (fst (_processObjectEvent env c e w)))) (_eventQueue w)
  /\ _gidleId (snd (fst (_processObjectEvent env c e w))) = _gidleId w.
Proof.
  unfold _processObjectEvent.
  destruct (_ && same_handle (source e) (get_desktop env)); [split; reflexivity|].
  set (w1 := if Py.startswith (type e) "window:" && _ then _ else _).
  assert (G1 : _eventQueue w1 = _eventQueue w /\ _gidleId w1 = _gidleId w).
  { subst w1. destruct (_ && negb _); [split; reflexivity|].
    destruct (_ && AXUtilities env is_frame _); split; reflexivity. }
  destruct G1 as (<- & <-).
  destruct (AXObject.is_dead env c (obj (source e))) as [dead c1].
  destruct (dead || AXUtilities env is_defunct _).
  - destruct (_ || _); [|split; reflexivity].
    destruct (setActiveScript_raises env None); split; reflexivity.
  - destruct (AXUtilities env is_iconified _); [split; reflexivity|].
    destruct (flood_gate env c1 e w1) as [[v|] c2] eqn:E; [|split; reflexivity].
    apply (f_equal fst) in E. apply flood_gate_schedule in E as [Hq Hg].
    destruct (Py.startswith (type e) "object:selection-changed" && _);
      [simpl; split; assumption|].
    destruct (_getScriptForEvent env c2 e) as [[script|] c3]; [|simpl; split; assumption].
    destruct (deliver_schedule env c3 script e v) as (Dq & Dg).
    destruct (deliver env c3 script e v) as [wd cd]. simpl in *.
    rewrite Dq, Dg. split; assumption.
Qed.

Lemma dequeue_epilogue_schedule (w : World) :
  _eventQueue (snd (dequeue_epilogue w)) = _eventQueue w
  /\ (_gidleId (snd (dequeue_epilogue w)) = _gidleId w
      \/ (_eventQueue w = [] /\ _gidleId (snd (dequeue_epilogue w)) = 0%Z))
  /\ (fst (dequeue_epilogue w) = false ->
      _eventQueue w = [] /\ _gidleId (snd (dequeue_epilogue w)) = 0%Z)
  /\ (fst (dequeue_epilogue w) = true -> _eventQueue w <> []).
Proof.
  unfold dequeue_epilogue. destruct (_eventQueue w) eqn:E; simpl;
    rewrite ?E; repeat split; auto; try discriminate.
Qed.


(** What one drain does to the queue and to the scheduling token. *)
Lemma drain_schedule (env : Env) (c : Cache) (e : Event) (w : World) :
  let r := fst (drain env c e w) in
  sublist (_eventQueue (snd r)) (_eventQueue w)
  /\ (_gidleId (snd r) = _gidleId w
      \/ (_eventQueue (snd r) = [] /\ _gidleId (snd r) = 0%Z))
  /\ (fst r = false -> _eventQueue (snd r) = [] /\ _gidleId (snd r) = 0%Z).
Proof.
  intros r. subst r. unfold drain.
  assert (K : forall v,
             sublist (_eventQueue v) (_eventQueue w) -> _gidleId v = _gidleId w ->
             sublist (_eventQueue (snd (dequeue_epilogue v))) (_eventQueue w)
             /\ (_gidleId (snd (dequeue_epilogue v)) = _gidleId w
                 \/ (_eventQueue (snd (dequeue_epilogue v)) = []
                     /\ _gidleId (snd (dequeue_epilogue v)) = 0%Z))
             /\ (fst (dequeue_epilogue v) = false ->
                 _eventQueue (snd (dequeue_epilogue v)) = []
                 /\ _gidleId (snd (dequeue_epilogue v)) = 0%Z)).
  { intros v Hq Hg.
    destruct (dequeue_epilogue_schedule v) as (Eq & Hgid & Hf & _).
    rewrite Eq. split; [exact Hq|]. split.
    - destruct Hgid as [H|[H1 H2]]; [left; congruence|right; split; assumption].
    - exact Hf. }
  destruct (is_inputEvent e).
  - cbn [fst]. apply K; unfold _processInputEvent;
      destruct (activeScript w); try destruct (kind e); reflexivity.
  - destruct (processObjectEvent_schedule env c e w) as (Hq & Hg).
    destruct (_processObjectEvent env c e w) as [[[u|] v] c']; simpl in Hq, Hg.
    + destruct (after_processing_schedule env e v) as (Aq & Ag & _).
      cbn [fst]. apply K; [rewrite Aq; exact Hq|rewrite Ag; exact Hg].
    + simpl. split; [exact Hq|]. split; [left; exact Hg|discriminate].
Qed.

Lemma dequeue_head_step (env : Env) (c : Cache) (w : World) :
  match _eventQueue w with
  | [] => _dequeue env c w = (false, set_gidleId 0 w, c)
  | e :: rest =>
      _dequeue env c w = drain env c e (set_queue rest w)
      /\ sublist (_eventQueue (snd (fst (_dequeue env c w)))) rest
  end
  /\ (fst (fst (_dequeue env c w)) = false ->
      _eventQueue (snd (fst (_dequeue env c w))) = []
      /\ _gidleId (snd (fst (_dequeue env c w))) = 0%Z).
Proof.
  unfold _dequeue. destruct (_eventQueue w) as [|e rest] eqn:E.
  - split; [reflexivity|]. intros _. simpl. rewrite E. split; reflexivity.
  - destruct (drain_schedule env c e (set_queue rest w)) as (Hq & _ & Hf).
    split; [split; [reflexivity|exact Hq]|exact Hf].
Qed.

(** X9.  [_dequeue] takes the event at the head of the queue and leaves,
    of the others, a subsequence in the same order (events only go away
    by pruning).  On an empty queue it changes nothing but the
    scheduling token, which it clears.  It returns [False] (do not call
    again) only with the queue empty and the token cleared. *)
Theorem dequeue_takes_the_head (env : Env) (c : Cache) (w : World) :
  match _eventQueue w with
  | [] => _dequeue env c w = (false, set_gidleId 0 w, c)
  | e :: rest =>
      _dequeue env c w = drain env c e (set_queue rest w)
      /\ sublist (_eventQueue (snd (fst (_dequeue env c w)))) rest
  end
  /\ (fst (fst (_dequeue env c w)) = false ->
      _eventQueue (snd (fst (_dequeue env c w))) = []
      /\ _gidleId (snd (fst (_dequeue env c w))) = 0%Z).
Proof.
  unfold _dequeue. destruct (_eventQueue w) as [|e rest] eqn:E.
  - split; [reflexivity|]. intros _. simpl. rewrite E. split; reflexivity.
  - destruct (drain_schedule env c e (set_queue rest w)) as (Hq & _ & Hf).
    split; [split; [reflexivity|exact Hq]|exact Hf].
Qed.

(** X10.  The idle callback empties the queue: called again for as long
    as it asks to be, [_dequeue] leaves, after at most one call more
    than there are events waiting, an empty queue and a cleared
    scheduling token. *)
Theorem idle_callback_empties_queue (env : Env) (fuel : nat) (c : Cache) (w : World) :
  length (_eventQueue w) < fuel ->
  _eventQueue (fst (run_idle env fuel c w)) = []
  /\ _gidleId (fst (run_idle env fuel c w)) = 0%Z.
Proof.
  revert c w. induction fuel as [|fuel IH]; intros c w Hlen; [lia|].
  simpl. destruct (dequeue_head_step env c w) as (Hhead & Hfalse).
  destruct (_dequeue env c w) as [[r w'] c'] eqn:D. cbn [fst snd] in Hfalse.
  destruct r; [|apply Hfalse; reflexivity].
  destruct (_eventQueue w) as [|e rest] eqn:E; [discriminate Hhead|].
  destruct Hhead as (_ & Hsub). cbn [fst snd] in Hsub.
  apply IH. apply sublist_length in Hsub. simpl in Hlen. lia.
Qed.

Lemma idle_callback_empties_queue_witness :
  let w := set_queue (Scenario.caret_moved 1 :: Scenario.backlog 60
                      ++ [Scenario.office_focus 99; Scenario.window_activate 100])
             (set_gidleId 1 (Scenario.start true)) in
  _eventQueue (fst (run_idle Scenario.env 64 no_cache w)) = []
  /\ _gidleId (fst (run_idle Scenario.env 64 no_cache w)) = 0%Z
  /\ length (delivered (fst (run_idle Scenario.env 64 no_cache w))) = 52.
Proof.
  intros w.
  destruct (idle_callback_empties_queue Scenario.env 64 no_cache w) as (Hq & Hg).
  - vm_compute. lia.
  - split; [exact Hq|]. split; [exact Hg|]. vm_compute. reflexivity.
Defined.

(** ** The scheduling token *)

Lemma dequeue_keeps_pending_scheduled (env : Env) (c : Cache) (w : World) :
  pending_scheduled w -> pending_scheduled (snd (fst (_dequeue env c w))).
Proof.
  intros Hw. unfold _dequeue. destruct (_eventQueue w) as [|e rest] eqn:E.
  - intros Hq. simpl in Hq. congruence.
  - destruct (drain_schedule env c e (set_queue rest w)) as (_ & [Hg|[Hq _]] & _).
    + intros _. rewrite Hg. simpl. apply Hw. rewrite E. discriminate.
    + intros Hne. contradiction.
Qed.

Lemma addToQueue_async_scheduled (env : Env) (e : Event) (v : World) :
  pending_scheduled v -> pending_scheduled (_addToQueue env e true v).
Proof.
  intros _ _. unfold _addToQueue. simpl.
  destruct (Z.eqb_spec (_gidleId v) 0); simpl; [discriminate|assumption].
Qed.

Lemma dequeue_schedule (env : Env) (c : Cache) (w : World) :
  _eventQueue (snd (fst (_dequeue env c w))) <> [] ->
  _gidleId (snd (fst (_dequeue env c w))) = _gidleId w
  /\ exists x rest, _eventQueue w = x :: rest
                    /\ sublist (_eventQueue (snd (fst (_dequeue env c w)))) rest.
Proof.
  unfold _dequeue. destruct (_eventQueue w) as [|x rest] eqn:E.
  - intros Hne. simpl in Hne. congruence.
  - destruct (drain_schedule env c x (set_queue rest w)) as (Hsub & [Hg|[Hq _]] & _).
    + intros _. split; [exact Hg|]. exists x, rest. split; [reflexivity|exact Hsub].
    + intros Hne. contradiction.
Qed.

Lemma addToQueue_sync_scheduled (env : Env) (c : Cache) (e : Event) (v : World) :
  pending_scheduled v ->
  pending_scheduled (snd (fst (_dequeue env c (_addToQueue env e false v)))).
Proof.
  intros Hv Hne.
  assert (Eq : _eventQueue (_addToQueue env e false v) = _eventQueue v ++ [e])
    by reflexivity.
  assert (Eg : _gidleId (_addToQueue env e false v) = _gidleId v) by reflexivity.
  destruct (dequeue_schedule env c _ Hne) as (Hg & x & rest & Hx & Hsub).
  rewrite Hg, Eg. apply Hv. intros Hnil.
  rewrite Eq, Hnil in Hx. simpl in Hx. injection Hx as _ <-.
  apply sublist_nil_r in Hsub. contradiction.
Qed.

Lemma suspendEvents_gidle (e : Event) (w : World) :
  _gidleId (_suspendEvents e w) = _gidleId w.
Proof.
  unfold _suspendEvents. simpl.
  destruct (_eventsSuspended w); [reflexivity|].
  set (w0 := set_triggers _ w).
  destruct (listeners_only_fields _ _ (deregisterAll_frame (_suspendableEvents w0) w0))
    as (_ & _ & _ & _ & Fg & _).
  exact Fg.
Qed.

Lemma enqueue_prune_schedule (env : Env) (c : Cache) (e : Event) (w : World) :
  sublist (_eventQueue (fst (enqueue_prune env c e w))) (_eventQueue w)
  /\ _gidleId (fst (enqueue_prune env c e w)) = _gidleId w.
Proof.
  unfold enqueue_prune. destruct (_ && _); [apply prune_schedule|].
  split; reflexivity.
Qed.

Lemma enqueue_suspend_schedule (env : Env) (c : Cache) (e : Event) (w : World) :
  _eventQueue (fst (enqueue_suspend env c e w)) = _eventQueue w
  /\ _gidleId (fst (enqueue_suspend env c e w)) = _gidleId w.
Proof.
  split; [apply enqueue_suspend_queue|].
  unfold enqueue_suspend. destruct (negb (is_inputEvent e)); [|reflexivity].
  destruct (_shouldSuspendEventsFor env c e) as [s c1].
  destruct s; [apply suspendEvents_gidle|reflexivity].
Qed.

Lemma sublist_pending_scheduled (w v : World) :
  sublist (_eventQueue v) (_eventQueue w) -> _gidleId v = _gidleId w ->
  pending_scheduled w -> pending_scheduled v.
Proof.
  intros Hsub Hg Hw Hne. rewrite Hg. apply Hw. intros Hnil.
  rewrite Hnil in Hsub. apply sublist_nil_r in Hsub. contradiction.
Qed.

Lemma enqueue_put_scheduled (env : Env) (c : Cache) (e : Event) (w : World) :
  pending_scheduled w -> pending_scheduled (snd (fst (enqueue_put env c e w))).
Proof.
  intros Hw. unfold enqueue_put.
  destruct (choose_asyncMode env c w e) as [m cm].
  assert (P : forall v c', pending_scheduled v ->
              pending_scheduled (snd (fst
                (let w := _addToQueue env e m v in
                 if m then (Returns tt, w, c')
                 else let '(_, w, c) := _dequeue env c' w in (Returns tt, w, c))))).
  { intros v c' Hv. destruct m; cbv zeta.
    - apply addToQueue_async_scheduled, Hv.
    - pose proof (addToQueue_sync_scheduled env c' e v Hv) as S.
      destruct (_dequeue env c' (_addToQueue env e false v)) as [[r w4] c4]. exact S. }
  destruct (negb (is_inputEvent e)); [|apply P, Hw].
  destruct (AXObject.get_application env cm (source e)) as [app ca].
  destruct (getScript env app (source e) false) as [script|]; [|exact Hw].
  apply P. exact Hw.
Qed.

(** X11.  No event is left waiting without a drain: if, whenever the
    queue is not empty, an idle callback is scheduled, the same holds
    after [_enqueue] (whatever it does with the event, and also when it
    raises) and after [_dequeue]. *)
Theorem pending_event_has_drain_scheduled (env : Env) (c : Cache) (w : World) (e : Event) :
  pending_scheduled w ->
  pending_scheduled (snd (fst (_enqueue env c w e)))
  /\ pending_scheduled (snd (fst (_dequeue env c w))).
Proof.
  intros Hw. split; [|apply dequeue_keeps_pending_scheduled, Hw].
  unfold _enqueue.
  pose proof (enqueue_filter_frame env c w e) as F.
  destruct (enqueue_filter env c w e) as [[ig w1] c1]. simpl in F.
  assert (H1 : pending_scheduled w1).
  { apply (sublist_pending_scheduled w); [| |exact Hw].
    - apply (f_equal _eventQueue) in F. simpl in F. rewrite F. reflexivity.
    - apply (f_equal _gidleId) in F. exact F. }
  destruct ig; [exact H1|].
  destruct (enqueue_prune_schedule env c1 e w1) as (Pq & Pg).
  destruct (enqueue_prune env c1 e w1) as [wp cp]. cbn [fst] in Pq, Pg.
  destruct (enqueue_suspend_schedule env cp e wp) as (Sq & Sg).
  destruct (enqueue_suspend env cp e wp) as [ws cs]. cbn [fst] in Sq, Sg.
  apply enqueue_put_scheduled.
  apply (sublist_pending_scheduled w1); [rewrite Sq; exact Pq|congruence|exact H1].
Qed.

Lemma pending_event_has_drain_scheduled_witness :
  let w := snd (fst (_enqueue Scenario.env no_cache (Scenario.start true)
                       (Scenario.caret_moved 1))) in
  (_eventQueue w = [Scenario.caret_moved 1] /\ _gidleId w = 1%Z)
  /\ pending_scheduled (snd (fst (_enqueue Scenario.env no_cache w (Scenario.office_focus 2))))
  /\ _gidleId (snd (fst (_enqueue Scenario.env no_cache w (Scenario.office_focus 2)))) = 1%Z.
Proof.
  intros w.
  assert (Hw : pending_scheduled w) by (intros _; discriminate).
  destruct (pending_event_has_drain_scheduled Scenario.env no_cache w
              (Scenario.office_focus 2) Hw)
    as (He & _).
  split; [split; reflexivity|]. split; [exact He|reflexivity].
Defined.

(** ** What processing an event delivers *)

(** With the script given, [_isActivatableEvent] does not reach
    [AXObject], and of the state it reads the active script and the
    active window only. *)
Lemma isActivatableEvent_given (env : Env) (c : Cache) (w : World) (e : Event) (s : Script) :
  snd (_isActivatableEvent env c w e (Some s)) = c.
Proof.
  unfold _isActivatableEvent. destruct (source e); [|reflexivity].
  repeat match goal with
         | |- context [if ?b then _ else _] => destruct b
         end; reflexivity.
Qed.

Lemma isActivatableEvent_ext (env : Env) (c c' : Cache) (v w : World) (e : Event)
    (s : Script) :
  activeScript v = activeScript w -> activeWindow v = activeWindow w ->
  fst (_isActivatableEvent env c v e (Some s)) = fst (_isActivatableEvent env c' w e (Some s)).
Proof.
  intros H1 H2. unfold _isActivatableEvent. rewrite H1, H2.
  destruct (source e); [|reflexivity].
  repeat match goal with
         | |- context [if ?b then _ else _] => destruct b
         end; reflexivity.
Qed.

Lemma deliver_delivered (env : Env) (c : Cache) (script : Script) (e : Event) (v : World) :
  let activate := fst (fst (_isActivatableEvent env c v e (Some script))) in
  let v' := fst (deliver env c script e v) in
  (activate = true /\ setActiveScript_raises env (Some script) = true /\ v' = v)
  \/ (delivered v' = delivered v ++ [e]
      /\ (activate = true ->
          setActiveScript_raises env (Some script) = false
          /\ activeScript v' = Some script)
      /\ (activate = false -> activeScript v' = activeScript v)).
Proof.
  unfold deliver.
  destruct (_isActivatableEvent env c v e (Some script)) as [[b r] c']. cbn [fst].
  destruct b.
  - destruct (setActiveScript_raises env (Some script)); [left; auto|].
    right. destruct (processObjectEvent env script e _) as [l a].
    split; [|split; [auto|discriminate]].
    unfold delivered. simpl. rewrite !omap_app. simpl. rewrite app_nil_r. reflexivity.
  - right. destruct (processObjectEvent env script e _) as [l a].
    split; [|split; [discriminate|auto]].
    unfold delivered. simpl. rewrite !omap_app. reflexivity.
Qed.

Lemma deliver_cache (env : Env) (c : Cache) (script : Script) (e : Event) (v : World) :
  snd (deliver env c script e v) = c.
Proof.
  unfold deliver. pose proof (isActivatableEvent_given env c v e script) as G.
  destruct (_isActivatableEvent env c v e (Some script)) as [[b r] c']. simpl in G.
  subst c'. destruct b; [|reflexivity].
  destruct (setActiveScript_raises env (Some script)); reflexivity.
Qed.

(** A source that [is_dead] found alive is valid, and stays so while
    [KNOWN_DEAD] grows by objects whose name cannot be read. *)
Lemma alive_is_valid (env : Env) (c c' : Cache) (o : option Handle) :
  fst (AXObject.is_dead env c (obj o)) = false ->
  dead_grows env c c' ->
  o <> None ->
  AXObject.is_valid c o = true /\ AXObject.is_valid c' o = true
  /\ snd (AXObject.is_dead env c (obj o)) = c.
Proof.
  intros Hd G Hn. destruct o as [h|]; [|contradiction].
  change (obj (Some h)) with (VObj h) in *. rewrite is_dead_value in Hd.
  apply orb_false_iff in Hd as [Hk Hf].
  unfold AXObject.is_valid. rewrite Hk. split; [reflexivity|]. split.
  - destruct (AXObject.object_is_known_dead c' h) eqn:E; [|reflexivity].
    destruct (proj2 (G h) E); congruence.
  - unfold AXObject.is_dead, AXObject.is_valid. rewrite Hk. cbn [negb].
    unfold names_fail in Hf. destruct (Atspi_get_name env h); [reflexivity|discriminate].
Qed.

Lemma getScriptForEvent_valid (env : Env) (c c' : Cache) (e : Event) :
  AXObject.is_valid c (source e) = AXObject.is_valid c' (source e) ->
  fst (_getScriptForEvent env c' e) = fst (_getScriptForEvent env c e).
Proof.
  intros H. unfold _getScriptForEvent.
  destruct (Py.startswith (type e) "mouse:"); [reflexivity|].
  unfold AXObject.get_application.
  destruct (source e) as [h|];
    [|destruct (AXUtilities env is_defunct _); reflexivity].
  rewrite H. destruct (negb (AXObject.is_valid c' (Some h)));
    [destruct (AXUtilities env is_defunct _); reflexivity|].
  destruct (Atspi_get_application env h) as [app|gone];
    destruct (AXUtilities env is_defunct _); reflexivity.
Qed.

Lemma flood_gate_grows (env : Env) (c : Cache) (e : Event) (w : World) :
  dead_grows env c (snd (flood_gate env c e w)).
Proof.
  unfold flood_gate. destruct (_inFlood w); [|apply dead_grows_refl].
  pose proof (processDuringFlood_grows env c w e) as G.
  destruct (_processDuringFlood env c w e) as [p c1]. simpl in G.
  destruct p; [|exact G]. cbn [negb].
  destruct (_prioritizeDuringFlood env e); [|exact G].
  destruct (prune_queue env c1 w) as [_ G2].
  destruct (_pruneEventsDuringFlood env c1 w) as [wp cp]. simpl in *.
  eapply dead_grows_trans; eassumption.
Qed.

Lemma flood_gate_spec (env : Env) (c c2 : Cache) (e : Event) (w v : World) :
  flood_gate env c e w = (Some v, c2) ->
  delivered v = delivered w
  /\ activeScript v = activeScript w /\ activeWindow v = activeWindow w
  /\ (_inFlood w = true -> fst (_processDuringFlood env c w e) = true)
  /\ dead_grows env c c2.
Proof.
  intros H. pose proof (flood_gate_grows env c e w) as G. rewrite H in G. simpl in G.
  revert H. unfold flood_gate.
  destruct (_inFlood w).
  2:{ intros [= <- <-]. split; [reflexivity|]. split; [reflexivity|].
      split; [reflexivity|]. split; [discriminate|exact G]. }
  destruct (_processDuringFlood env c w e) as [p c1].
  destruct p; cbn [negb]; [|discriminate].
  destruct (_prioritizeDuringFlood env e).
  - unfold _pruneEventsDuringFlood.
    destruct (prune_loop env c1 w (_eventQueue w) []) as [q cq].
    intros [= <- <-]. split; [reflexivity|]. split; [reflexivity|].
    split; [reflexivity|]. split; [reflexivity|exact G].
  - intros [= <- <-]. split; [reflexivity|]. split; [reflexivity|].
    split; [reflexivity|]. split; [reflexivity|exact G].
Qed.

(** X12.  Processing one object event hands at most that event to a
    script, and at most once.  It hands it over only if the source is
    neither dead nor defunct nor iconified, if the event is one to
    process during a flood when more than 50 events wait, and if a
    script is found for it; and when the event calls for activating
    that script, only if the activation succeeded, in which case the
    script is the active one afterwards. *)
Theorem processing_delivers_at_most_once (env : Env) (c : Cache) (e : Event) (w : World) :
  let w' := snd (fst (_processObjectEvent env c e w)) in
  delivered w' = delivered w
  \/ (delivered w' = delivered w ++ [e]
      /\ fst (AXObject.is_dead env c (obj (source e))) = false
      /\ AXUtilities env is_defunct (obj (source e)) = false
      /\ AXUtilities env is_iconified (obj (source e)) = false
      /\ (_inFlood w = true -> fst (_processDuringFlood env c w e) = true)
      /\ exists script,
           fst (_getScriptForEvent env c e) = Some script
           /\ (fst (fst (_isActivatableEvent env c w e (Some script))) = true ->
               setActiveScript_raises env (Some script) = false
               /\ activeScript w' = Some script)).
Proof.
  intros w'. subst w'. unfold _processObjectEvent.
  destruct (_ && same_handle (source e) (get_desktop env)).
  { left. apply delivered_emit. discriminate. }
  set (w1 := if Py.startswith (type e) "window:" && _ then _ else _).
  assert (G1 : delivered w1 = delivered w /\ _eventQueue w1 = _eventQueue w
               /\ locusOfFocus w1 = locusOfFocus w
               /\ activeScript w1 = activeScript w /\ activeWindow w1 = activeWindow w).
  { subst w1. destruct (_ && negb _).
    - split; [apply delivered_emit; discriminate|repeat split].
    - destruct (_ && AXUtilities env is_frame _).
      + split; [apply delivered_emit; discriminate|repeat split].
      + repeat split. }
  destruct G1 as (Gd & Gq & Gl & Gs & Gw).
  destruct (AXObject.is_dead env c (obj (source e))) as [dead c1] eqn:Edead.
  destruct dead; cbn [orb].
  { left. destruct (_ || _); [|exact Gd].
    destruct (setActiveScript_raises env None); simpl; [exact Gd|].
    transitivity (delivered (emit (SetActiveScript None) (set_focus None None w1)));
      [reflexivity|]. rewrite delivered_emit by discriminate. exact Gd. }
  destruct (AXUtilities env is_defunct (obj (source e))) eqn:Edef.
  { left. destruct (_ || _); [|exact Gd].
    destruct (setActiveScript_raises env None); simpl; [exact Gd|].
    transitivity (delivered (emit (SetActiveScript None) (set_focus None None w1)));
      [reflexivity|]. rewrite delivered_emit by discriminate. exact Gd. }
  destruct (AXUtilities env is_iconified (obj (source e))) eqn:Eico; [left; exact Gd|].
  assert (Hc1 : c1 = c).
  { destruct (source e) as [h|] eqn:Es.
    - pose proof (alive_is_valid env c c (Some h)) as A. rewrite Edead in A.
      destruct A as (_ & _ & A); [reflexivity|apply dead_grows_refl|discriminate|exact A].
    - simpl in Edead. congruence. }
  subst c1.
  destruct (flood_gate env c e w1) as [[v|] c2] eqn:Eg; [|left; exact Gd].
  apply flood_gate_spec in Eg as (Vd & Vs & Vw & Vf & Vg).
  destruct (Py.startswith (type e) "object:selection-changed" && _);
    [left; simpl; congruence|].
  assert (Hval : AXObject.is_valid c (source e) = AXObject.is_valid c2 (source e)).
  { destruct (source e) as [h|] eqn:Es; [|reflexivity].
    pose proof (alive_is_valid env c c2 (Some h)) as A. rewrite Edead in A.
    destruct A as (A1 & A2 & _); [reflexivity|exact Vg|discriminate|congruence]. }
  pose proof (getScriptForEvent_valid env c c2 e Hval) as Hsc.
  destruct (_getScriptForEvent env c2 e) as [[script|] c3]; [|left; simpl; congruence].
  cbn [fst] in Hsc.
  pose proof (deliver_delivered env c3 script e v) as D. cbv zeta in D.
  destruct (deliver env c3 script e v) as [wd cd]. cbn [fst snd] in *.
  destruct D as [(_ & _ & E)|(D & A & _)].
  - left. rewrite E. congruence.
  - right. rewrite D, Vd, Gd. split; [reflexivity|].
    split; [reflexivity|]. split; [reflexivity|]. split; [reflexivity|]. split.
    + intros Hfl. rewrite <- (processDuringFlood_locus env c w w1 e Gl). apply Vf.
      unfold _inFlood, qsize in *. rewrite Gq. exact Hfl.
    + exists script. split; [symmetry; exact Hsc|].
      rewrite (isActivatableEvent_ext env c c3 w v e script); [exact A| |]; congruence.
Qed.

(** ** A deactivated manager *)

(** X13.  After [deactivate] the queue and the subscription table are
    empty, while the suspension flag, the triggers and the bus
    subscriptions are what they were (no [deregister] is sent).  Every
    object event offered to [_enqueue] is then dropped with nothing
    changed, and a drain finds nothing to do.  An input event, which
    does not go through the filter, is still queued (and, in
    synchronous mode, drained at once). *)
Theorem deactivated_manager_drops_object_events
    (env : Env) (c : Cache) (w : World) (e : Event) :
  let d := deactivate w in
  (_eventQueue d = [] /\ _scriptListenerCounts d = ∅ /\ trace d = trace w
   /\ _eventsSuspended d = _eventsSuspended w
   /\ _eventsTriggeringSuspension d = _eventsTriggeringSuspension w)
  /\ (is_inputEvent e = false -> _enqueue env c d e = (Returns tt, d, c))
  /\ _dequeue env c d = (false, set_gidleId 0 d, c)
  /\ (is_inputEvent e = true ->
      fst (fst (_enqueue env c d e)) = Returns tt
      /\ _eventQueue (snd (fst (_enqueue env c d e))) = (if _asyncMode w then [e] else [])
      /\ (_asyncMode w = true -> _gidleId (snd (fst (_enqueue env c d e))) <> 0%Z)
      /\ snd (_enqueue env c d e) = c).
Proof.
  intros d. split; [repeat split|]. split; [|split; [reflexivity|]].
  - intros Hobj. unfold _enqueue, enqueue_filter. rewrite Hobj. reflexivity.
  - intros Hin.
    assert (E : _enqueue env c d e
                = (let w3 := _addToQueue env e (_asyncMode w) d in
                   if _asyncMode w then (Returns tt, w3, c)
                   else let '(_, w4, c4) := _dequeue env c w3 in (Returns tt, w4, c4))).
    { unfold _enqueue, enqueue_filter, enqueue_put, enqueue_suspend, enqueue_prune,
        choose_asyncMode. rewrite Hin. reflexivity. }
    rewrite E. destruct (_asyncMode w) eqn:Ea; cbv zeta.
    + split; [reflexivity|]. split; [|split; [|reflexivity]].
      * unfold _addToQueue. simpl. destruct (_gidleId w =? 0)%Z; reflexivity.
      * intros _. unfold _addToQueue. simpl.
        destruct (Z.eqb_spec (_gidleId w) 0); simpl; [discriminate|assumption].
    + unfold _dequeue, _addToQueue, drain. simpl. rewrite Hin.
      unfold dequeue_epilogue, _processInputEvent. simpl.
      destruct (activeScript w); [destruct (kind e)|];
        (split; [reflexivity|split; [reflexivity|split; [discriminate|reflexivity]]]).
Qed.

(** ** When a script is activated *)

(** X14.  [_isActivatableEvent] says yes only for an event with a
    source, whose script is not the active one and accepts the event
    ([isActivatableEvent]); short of the script forcing it, a
    "window:activate" event activates only for a window that is not the
    active window.  It does say yes whenever such a script forces the
    activation. *)
Theorem activation_needs_willing_inactive_script
    (env : Env) (c : Cache) (w : World) (e : Event) (script : option Script) :
  (fst (fst (_isActivatableEvent env c w e script)) = true ->
   source e <> None
   /\ exists s,
        candidate_script env c e script = Some s
        /\ Some s <> activeScript w
        /\ isActivatableEvent env s e = true
        /\ (forceScriptActivation env s e = false ->
            Py.startswith (type e) "window:activate" = true ->
            source e <> activeWindow w))
  /\ (forall s,
        source e <> None ->
        candidate_script env c e script = Some s ->
        Some s <> activeScript w ->
        isActivatableEvent env s e = true ->
        forceScriptActivation env s e = true ->
        fst (_isActivatableEvent env c w e script)
        = (true, "The script insists it should be activated for this event.")).
Proof.
  unfold _isActivatableEvent.
  assert (Hc : fst (match script with
                    | Some s => (Some s, c)
                    | None => _getScriptForEvent env c e
                    end) = candidate_script env c e script)
    by (destruct script; reflexivity).
  destruct (match script with Some s => (Some s, c) | None => _ end) as [cand c1].
  cbn [fst] in Hc. subst cand. split.
  - destruct (source e) as [h|] eqn:Es; [|discriminate].
    destruct (candidate_script env c e script) as [s|]; [|discriminate].
    destruct (bool_decide (Some s = activeScript w)) eqn:Eb; [discriminate|].
    apply bool_decide_eq_false in Eb.
    destruct (isActivatableEvent env s e) eqn:Ea; [|discriminate]. cbn [negb].
    destruct (forceScriptActivation env s e) eqn:Ef.
    + intros _. split; [discriminate|]. exists s.
      split; [reflexivity|]. split; [exact Eb|]. split; [exact Ea|].
      intros H. congruence.
    + destruct (Py.startswith (type e) "window:activate") eqn:Ew.
      * destruct (negb (same_handle (Some h) (activeWindow w))) eqn:En; [|discriminate].
        intros _. split; [discriminate|]. exists s.
        split; [reflexivity|]. split; [exact Eb|]. split; [exact Ea|].
        intros _ _ Heq. unfold same_handle in En.
        rewrite bool_decide_eq_true_2 in En by exact Heq. discriminate En.
      * intros _. split; [discriminate|]. exists s.
        split; [reflexivity|]. split; [exact Eb|]. split; [exact Ea|].
        intros _ H. congruence.
  - intros s Hsrc Hcs Hne Ha Hf.
    destruct (source e) as [h|]; [|contradiction].
    rewrite Hcs. rewrite bool_decide_eq_false_2 by exact Hne.
    rewrite Ha, Hf. reflexivity.
Qed.

(** ** [AXObject] on objects that are gone *)

(** X15.  For an object that is not valid ([None], or known to be dead)
    the queries of [AXObject] answer with their neutral values without
    asking AT-SPI, and such an object is dead exactly when it is not
    [None].  A valid object is dead exactly when asking AT-SPI for its
    name raises, and then its name reads as empty; when the exception
    says that the object is gone, the object is not valid afterwards. *)
Theorem invalid_object_gets_neutral_answers (env : Env) (c : Cache) (o : option Handle) :
  (AXObject.is_valid c o = false ->
   AXObject.get_name env c o = ("", c)
   /\ AXObject.get_role env c o = (INVALID, c)
   /\ AXObject.get_application env c o = (None, c)
   /\ AXObject.get_application_toolkit_name env c o = ("", c)
   /\ (fst (AXObject.is_dead env c (obj o)) = true <-> o <> None)
   /\ snd (AXObject.is_dead env c (obj o)) = c)
  /\ (AXObject.is_valid c o = true ->
      exists h, o = Some h
        /\ (fst (AXObject.is_dead env c (obj o)) = true
            <-> exists gone, Atspi_get_name env h = Error gone)
        /\ (fst (AXObject.is_dead env c (obj o)) = true ->
            fst (AXObject.get_name env c o) = "")
        /\ (Atspi_get_name env h = Error true ->
            AXObject.is_valid (snd (AXObject.is_dead env c (obj o))) o = false
            /\ AXObject.is_valid (snd (AXObject.get_name env c o)) o = false)).
Proof.
  split.
  - intros Hv. destruct o as [h|].
    + unfold AXObject.get_name, AXObject.get_role, AXObject.get_application,
        AXObject.get_application_toolkit_name, AXObject.is_dead, obj.
      rewrite Hv. cbn [negb fst snd].
      split; [reflexivity|]. split; [reflexivity|]. split; [reflexivity|].
      split; [reflexivity|]. split; [|reflexivity]. split; [discriminate|reflexivity].
    + simpl. split; [reflexivity|]. split; [reflexivity|]. split; [reflexivity|].
      split; [reflexivity|]. split; [|reflexivity].
      split; [discriminate|]. intros H; contradiction.
  - intros Hv. destruct o as [h|]; [|discriminate Hv]. exists h. split; [reflexivity|].
    unfold AXObject.get_name, AXObject.is_dead, obj. rewrite Hv. cbn [negb].
    destruct (Atspi_get_name env h) as [n|gone] eqn:E; cbn [fst snd].
    + split; [split; [discriminate|intros [g Hg]; discriminate]|].
      split; [discriminate|discriminate].
    + split; [split; [eauto|reflexivity]|]. split; [reflexivity|].
      intros [= ->]. unfold AXObject.is_valid.
      rewrite known_dead_handle_error, Pos.eqb_refl, orb_true_r. split; reflexivity.
Qed.

(** ** The memo of parents of defunct descendants *)

Lemma list_in_handle (x : option Handle) (l : list (option Handle)) :
  Py.list_in same_handle x l = true <-> In x l.
Proof.
  unfold Py.list_in, same_handle. rewrite existsb_exists. split.
  - intros (y & Hy & E). apply bool_decide_eq_true in E. subst y. exact Hy.
  - intros H. exists x. split; [exact H|]. apply bool_decide_eq_true. reflexivity.
Qed.

Lemma list_remove_handle_In (x p : option Handle) (l : list (option Handle)) :
  In p (Py.list_remove same_handle x l) -> In p l.
Proof.
  induction l as [|y l IH]; simpl; [auto|].
  destruct (same_handle x y); [auto|]. intros [H|H]; [left; exact H|right; apply IH, H].
Qed.

Lemma list_remove_handle_other (x p : option Handle) (l : list (option Handle)) :
  p <> x -> In p l -> In p (Py.list_remove same_handle x l).
Proof.
  intros Hne. induction l as [|y l IH]; simpl; [auto|].
  unfold same_handle at 1. destruct (bool_decide_reflect (x = y)) as [<-|Hxy].
  - intros [H|H]; [congruence|exact H].
  - intros [H|H]; [left; exact H|right; apply IH, H].
Qed.

Lemma list_remove_handle_NoDup (x : option Handle) (l : list (option Handle)) :
  NoDup l ->
  NoDup (Py.list_remove same_handle x l) /\ ~ In x (Py.list_remove same_handle x l).
Proof.
  induction 1 as [|y l Hy Hnd [IH1 IH2]]; simpl.
  - split; [constructor|auto].
  - unfold same_handle at 1 3. destruct (bool_decide_reflect (x = y)) as [<-|Hxy].
    + split; [exact Hnd|]. intros H. apply Hy, list_elem_of_In, H.
    + split.
      * constructor; [|exact IH1]. intros H. apply Hy.
        apply list_elem_of_In. apply list_elem_of_In in H.
        eapply list_remove_handle_In, H.
      * intros [H|H]; [congruence|exact (IH2 H)].
Qed.


Lemma cache_grows_refl (c : Cache) : cache_grows c c.
Proof. split; [exists []; symmetry; apply app_nil_r|reflexivity]. Qed.

Lemma cache_grows_trans (c1 c2 c3 : Cache) :
  cache_grows c1 c2 -> cache_grows c2 c3 -> cache_grows c1 c3.
Proof.
  intros [[a1 D1] R1] [[a2 D2] R2]. split.
  - exists (a1 ++ a2). rewrite D2, D1. symmetry; apply app_assoc.
  - etransitivity; eassumption.
Qed.

Lemma handle_error_grows (h : Handle) (gone : bool) (c : Cache) :
  cache_grows c (AXObject.handle_error h gone c).
Proof.
  unfold AXObject.handle_error. destruct gone; [|apply cache_grows_refl].
  split; [exists [h]; reflexivity|reflexivity].
Qed.

Lemma get_application_grows (env : Env) (c : Cache) (o : option Handle) :
  cache_grows c (snd (AXObject.get_application env c o)).
Proof.
  unfold AXObject.get_application. destruct o as [h|]; [|apply cache_grows_refl].
  destruct (negb _); [apply cache_grows_refl|].
  destruct (Atspi_get_application env h); [apply cache_grows_refl|apply handle_error_grows].
Qed.

Lemma get_name_grows (env : Env) (c : Cache) (o : option Handle) :
  cache_grows c (snd (AXObject.get_name env c o)).
Proof.
  unfold AXObject.get_name. destruct o as [h|]; [|apply cache_grows_refl].
  destruct (negb _); [apply cache_grows_refl|].
  destruct (Atspi_get_name env h); [apply cache_grows_refl|apply handle_error_grows].
Qed.

Lemma get_role_grows (env : Env) (c : Cache) (o : option Handle) :
  cache_grows c (snd (AXObject.get_role env c o)).
Proof.
  unfold AXObject.get_role. destruct o as [h|]; [|apply cache_grows_refl].
  destruct (negb _); [apply cache_grows_refl|].
  destruct (KNOWN_ROLES c !! h) eqn:E; [apply cache_grows_refl|].
  destruct (Atspi_get_role env h); [|apply handle_error_grows].
  split; [exists []; symmetry; apply app_nil_r|]. cbn [snd KNOWN_ROLES].
  apply insert_subseteq, E.
Qed.

Lemma is_dead_cache_grows (env : Env) (c : Cache) (v : Value) :
  cache_grows c (snd (AXObject.is_dead env c v)).
Proof.
  unfold AXObject.is_dead. destruct v as [|s|h]; try apply cache_grows_refl.
  destruct (negb _); [apply cache_grows_refl|].
  destruct (Atspi_get_name env h); [apply cache_grows_refl|apply handle_error_grows].
Qed.

Lemma ignoreDuringDeluge_grows (env : Env) (c : Cache) (w : World) (e : Event) :
  cache_grows c (snd (_ignoreDuringDeluge env c w e)).
Proof.
  unfold _ignoreDuringDeluge, _eventSourceIsDead.
  pose proof (is_dead_cache_grows env c (obj (source e))) as G.
  destruct (AXObject.is_dead env c (obj (source e))) as [dead c1]. simpl in G.
  destruct dead; [exact G|]. destruct (negb _); exact G.
Qed.

Lemma ignore_by_role_grows (env : Env) (c : Cache) (w : World) (e : Event) (role : Role) :
  cache_grows c (snd (ignore_by_role env c w e role)).
Proof.
  unfold ignore_by_role.
  repeat match goal with
         | |- context [if ?b then _ else _] => destruct b
         end; try apply cache_grows_refl.
  apply is_dead_cache_grows.
Qed.

Lemma ignore_structural_grows (env : Env) (c : Cache) (w : World) (e : Event)
    (role : Role) :
  cache_grows c (snd (ignore_structural env c w e role)).
Proof.
  unfold ignore_structural.
  destruct (_ || Py.startswith (type e) "object:active-descendant-changed");
    [|apply cache_grows_refl].
  destruct (role_in _ _); [apply cache_grows_refl|].
  destruct (bool_decide (any_data e = VNone)); [apply cache_grows_refl|].
  assert (G1 : cache_grows c
                 (snd (if Py.endswith (type e) "remove"
                       then if bool_decide (any_data e = obj (locusOfFocus w))
                            then (true, c)
                            else AXObject.is_dead env c (obj (locusOfFocus w))
                       else (false, c)))).
  { destruct (Py.endswith (type e) "remove"); [|apply cache_grows_refl].
    destruct (bool_decide _); [apply cache_grows_refl|apply is_dead_cache_grows]. }
  destruct (if Py.endswith (type e) "remove" then _ else _) as [lost c1]. simpl in G1.
  destruct lost; [exact G1|].
  pose proof (is_dead_cache_grows env c1 (any_data e)) as G2.
  destruct (AXObject.is_dead env c1 (any_data e)) as [dead c2]. simpl in G2.
  assert (G : cache_grows c c2) by (eapply cache_grows_trans; eassumption).
  destruct (dead || _).
  - destruct (_ && negb _); exact G.
  - destruct (AXUtilities env is_image _); [exact G|].
    destruct (_ && AXUtilities env is_menu_item _); exact G.
Qed.

(** The filter only adds to the caches. *)
Lemma ignore_grows (env : Env) (c : Cache) (w : World) (e : Event) :
  cache_grows c (snd (_ignore env c w e)).
Proof.
  unfold _ignore.
  destruct (negb (_active w)); [apply cache_grows_refl|].
  destruct (existsb _ (_ignoredEvents w)); [apply cache_grows_refl|].
  pose proof (get_application_grows env c (source e)) as G1.
  destruct (AXObject.get_application env c (source e)) as [app c1]. simpl in G1.
  pose proof (get_name_grows env c1 app) as G2.
  destruct (AXObject.get_name env c1 app) as [name c2]. simpl in G2.
  assert (H2 : cache_grows c c2) by (eapply cache_grows_trans; eassumption).
  destruct (_ && Py.startswith (type e) "object:children-changed:remove"); [exact H2|].
  destruct (Py.startswith (type e) "window"); [exact H2|].
  destruct (Py.startswith (type e) "mouse:button"); [exact H2|].
  destruct (_isDuplicateEvent env w e); [exact H2|].
  assert (G3 : cache_grows c2
                 (snd (if Py.endswith (type e) "system"
                       then let '(name, c) := AXObject.get_name env c2 app in
                            (Py.startswith (str_lower env name) "thunderbird", c)
                       else (false, c2)))).
  { destruct (Py.endswith (type e) "system"); [|apply cache_grows_refl].
    pose proof (get_name_grows env c2 app) as G.
    destruct (AXObject.get_name env c2 app). exact G. }
  destruct (if Py.endswith (type e) "system" then _ else _) as [tb c3]. simpl in G3.
  assert (H3 : cache_grows c c3) by (eapply cache_grows_trans; eassumption).
  destruct (tb && _); [exact H3|].
  assert (G4 : cache_grows c3
                 (snd (if _inDeluge w then _ignoreDuringDeluge env c3 w e
                       else (false, c3)))).
  { destruct (_inDeluge w); [apply ignoreDuringDeluge_grows|apply cache_grows_refl]. }
  destruct (if _inDeluge w then _ else _) as [d c4]. simpl in G4.
  assert (H4 : cache_grows c c4) by (eapply cache_grows_trans; eassumption).
  destruct d; [exact H4|].
  destruct ((_ || _) && _); [exact H4|].
  destruct (only_embedded_objects e) as [[|]|]; try exact H4.
  destruct (AXUtilities env has_no_state _); [exact H4|].
  destruct (AXUtilities env is_defunct _); [exact H4|].
  pose proof (get_role_grows env c4 (source e)) as G5.
  destruct (AXObject.get_role env c4 (source e)) as [role c5]. simpl in G5.
  pose proof (ignore_by_role_grows env c5 w e role) as G6.
  destruct (ignore_by_role env c5 w e role) as [i c6]. simpl in G6.
  assert (H6 : cache_grows c c6).
  { eapply cache_grows_trans; [exact H4|]. eapply cache_grows_trans; eassumption. }
  destruct i; [exact H6|].
  pose proof (ignore_structural_grows env c6 w e role) as G7.
  destruct (ignore_structural env c6 w e role) as [[i' w'] c7]. simpl in G7.
  eapply cache_grows_trans; eassumption.
Qed.

(** What the structural rules do to the memo. *)
Lemma ignore_structural_memo (env : Env) (c : Cache) (w : World) (e : Event) (role : Role) :
  let r := fst (ignore_structural env c w e role) in
  _parentsOfDefunctDescendants (snd r) = _parentsOfDefunctDescendants w
  \/ (_parentsOfDefunctDescendants (snd r)
      = _parentsOfDefunctDescendants w ++ [source e]
      /\ ~ In (source e) (_parentsOfDefunctDescendants w)
      /\ fst r = true)
  \/ (_parentsOfDefunctDescendants (snd r)
      = Py.list_remove same_handle (source e) (_parentsOfDefunctDescendants w)
      /\ In (source e) (_parentsOfDefunctDescendants w)).
Proof.
  intros r. subst r. unfold ignore_structural.
  destruct (_ || Py.startswith (type e) "object:active-descendant-changed");
    [|left; reflexivity].
  destruct (role_in _ _); [left; reflexivity|].
  destruct (bool_decide (any_data e = VNone)); [left; reflexivity|].
  destruct (if Py.endswith (type e) "remove" then _ else _) as [lost c1].
  destruct lost; [left; reflexivity|].
  destruct (AXObject.is_dead env c1 (any_data e)) as [dead c2].
  destruct (Py.list_in same_handle (source e) (_parentsOfDefunctDescendants w)) eqn:Ein.
  - destruct (dead || _).
    + rewrite andb_false_r. left; reflexivity.
    + right; right. apply list_in_handle in Ein.
      destruct (AXUtilities env is_image _); [split; [reflexivity|exact Ein]|].
      destruct (_ && AXUtilities env is_menu_item _); split; try reflexivity; exact Ein.
  - destruct (dead || _).
    + destruct (AXUtilities env manages_descendants _); simpl; [|left; reflexivity].
      right; left. split; [reflexivity|]. split; [|reflexivity].
      intros H. apply list_in_handle in H. congruence.
    + left. destruct (AXUtilities env is_image _); [reflexivity|].
      destruct (_ && AXUtilities env is_menu_item _); reflexivity.
Qed.

Lemma ignore_memo (env : Env) (c : Cache) (w : World) (e : Event) :
  snd (fst (_ignore env c w e)) = w
  \/ exists c' role,
       snd (fst (_ignore env c w e)) = snd (fst (ignore_structural env c' w e role))
       /\ fst (fst (_ignore env c w e))
          = Returns (fst (fst (ignore_structural env c' w e role))).
Proof.
  unfold _ignore.
  destruct (negb (_active w)); [left; reflexivity|].
  destruct (existsb _ (_ignoredEvents w)); [left; reflexivity|].
  destruct (AXObject.get_application env c (source e)) as [app c1].
  destruct (AXObject.get_name env c1 app) as [name c2].
  destruct (_ && Py.startswith (type e) "object:children-changed:remove");
    [left; reflexivity|].
  destruct (Py.startswith (type e) "window"); [left; reflexivity|].
  destruct (Py.startswith (type e) "mouse:button"); [left; reflexivity|].
  destruct (_isDuplicateEvent env w e); [left; reflexivity|].
  destruct (if Py.endswith (type e) "system" then _ else _) as [tb c3].
  destruct (tb && _); [left; reflexivity|].
  destruct (if _inDeluge w then _ else _) as [d c4].
  destruct d; [left; reflexivity|].
  destruct ((_ || _) && _); [left; reflexivity|].
  destruct (only_embedded_objects e) as [[|]|]; try (left; reflexivity).
  destruct (AXUtilities env has_no_state _); [left; reflexivity|].
  destruct (AXUtilities env is_defunct _); [left; reflexivity|].
  destruct (AXObject.get_role env c4 (source e)) as [role c5].
  destruct (ignore_by_role env c5 w e role) as [i c6].
  destruct i; [left; reflexivity|].
  right. exists c6, role. destruct (ignore_structural env c6 w e role) as [[i' w'] c7].
  split; reflexivity.
Qed.

(** X16.  Of the manager's state the filter writes nothing but the memo
    of parents of defunct descendants, and it keeps the memo free of
    duplicates.  One call leaves the memo alone, or adds the event's
    source at the end (and then the event is ignored), or takes the
    event's source out, after which the source is no longer in it and
    every other parent still is.  Besides, the filter writes to the
    caches of [AXObject], to which it only adds: objects found gone to
    [KNOWN_DEAD], roles to [KNOWN_ROLES]. *)
Theorem filter_keeps_memo_duplicate_free (env : Env) (c : Cache) (w : World) (e : Event) :
  NoDup (_parentsOfDefunctDescendants w) ->
  let w' := snd (fst (_ignore env c w e)) in
  parents_only w w'
  /\ cache_grows c (snd (_ignore env c w e))
  /\ NoDup (_parentsOfDefunctDescendants w')
  /\ (_parentsOfDefunctDescendants w' = _parentsOfDefunctDescendants w
      \/ (_parentsOfDefunctDescendants w'
          = _parentsOfDefunctDescendants w ++ [source e]
          /\ fst (fst (_ignore env c w e)) = Returns true)
      \/ (In (source e) (_parentsOfDefunctDescendants w)
          /\ ~ In (source e) (_parentsOfDefunctDescendants w')
          /\ forall p, p <> source e ->
               (In p (_parentsOfDefunctDescendants w')
                <-> In p (_parentsOfDefunctDescendants w)))).
Proof.
  intros Hnd w'. subst w'. split; [apply ignore_frame|]. split; [apply ignore_grows|].
  destruct (ignore_memo env c w e) as [E|(c' & role & E & Ef)].
  - rewrite E. split; [exact Hnd|left; reflexivity].
  - rewrite E.
    destruct (ignore_structural_memo env c' w e role) as [H|[(H & Hn & Ht)|(H & Hin)]].
    + rewrite H. split; [exact Hnd|left; reflexivity].
    + rewrite H. split.
      * apply NoDup_app. split; [exact Hnd|]. split; [|apply NoDup_singleton].
        intros x Hx Hx'. apply list_elem_of_In in Hx, Hx'. destruct Hx' as [<-|[]].
        exact (Hn Hx).
      * right; left. split; [reflexivity|]. rewrite Ef, Ht. reflexivity.
    + rewrite H. destruct (list_remove_handle_NoDup (source e) _ Hnd) as (N1 & N2).
      split; [exact N1|]. right; right. split; [exact Hin|]. split; [exact N2|].
      intros p Hp. split; [apply list_remove_handle_In|apply list_remove_handle_other, Hp].
Qed.

Lemma filter_keeps_memo_duplicate_free_witness :
  let w := Scenario.start true in
  let lost := Scenario.child_added 1 Scenario.lost_child in
  let r1 := _ignore Scenario.memo_env no_cache w lost in
  let w1 := snd (fst r1) in
  let w2 := snd (fst (_ignore Scenario.memo_env (snd r1) w1
                        (Scenario.child_added 2 Scenario.editor_frame))) in
  NoDup (_parentsOfDefunctDescendants w1)
  /\ _parentsOfDefunctDescendants w1 = [Some Scenario.editor_text]
  /\ fst (fst r1) = Returns true
  /\ KNOWN_ROLES (snd r1) !! Scenario.editor_text = Some TEXT
  /\ _parentsOfDefunctDescendants (snd (fst (_ignore Scenario.memo_env (snd r1) w1 lost)))
     = [Some Scenario.editor_text]
  /\ _parentsOfDefunctDescendants w2 = []
  /\ KNOWN_DEAD
       (snd (_ignore Scenario.gone_env no_cache w (Scenario.office_focus 3)))
     = [Scenario.office_doc].
Proof.
  intros w lost r1 w1 w2.
  assert (H0 : NoDup (_parentsOfDefunctDescendants w)) by constructor.
  destruct (filter_keeps_memo_duplicate_free Scenario.memo_env no_cache w lost H0)
    as (_ & _ & N & _).
  split; [exact N|]. repeat split.
Defined.

(** ** A suspension from entry to exit *)

Lemma processObjectEvent_returns (env : Env) (c : Cache) (e : Event) (w : World) :
  setActiveScript_raises env None = false ->
  fst (fst (_processObjectEvent env c e w)) = Returns tt.
Proof.
  intros Hr. unfold _processObjectEvent.
  destruct (_ && same_handle (source e) (get_desktop env)); [reflexivity|].
  destruct (AXObject.is_dead env c (obj (source e))) as [dead c1].
  destruct (dead || AXUtilities env is_defunct _).
  - destruct (_ || _); [rewrite Hr|]; reflexivity.
  - destruct (AXUtilities env is_iconified _); [reflexivity|].
    destruct (flood_gate env c1 e _) as [[w2|] c2]; [|reflexivity].
    destruct (Py.startswith (type e) "object:selection-changed" && _); [reflexivity|].
    destruct (_getScriptForEvent env c2 e) as [[script|] c3]; [|reflexivity].
    destruct (deliver env c3 script e w2); reflexivity.
Qed.

Lemma run_idle_once (env : Env) (c : Cache) (w : World) :
  fst (run_idle env 1 c w) = snd (fst (_dequeue env c w)).
Proof. simpl. destruct (_dequeue env c w) as [[[|] w'] c']; reflexivity. Qed.

(** The mode chosen for an event depends on the manager's state through
    its own mode and its set of synchronous toolkits only. *)
Lemma choose_asyncMode_ext (env : Env) (c : Cache) (w v : World) (e : Event) :
  _asyncMode v = _asyncMode w ->
  _synchronousToolkits v = _synchronousToolkits w ->
  choose_asyncMode env c v e = choose_asyncMode env c w e.
Proof. intros Ha Ht. unfold choose_asyncMode. rewrite Ha, Ht. reflexivity. Qed.

(** The trigger at the head of the queue, alone: draining it lifts the
    suspension it holds. *)
Lemma drain_of_only_trigger (env : Env) (c : Cache) (e : Event) (v : World) :
  is_inputEvent e = false ->
  setActiveScript_raises env None = false ->
  _eventQueue v = [e] ->
  _eventsSuspended v = true ->
  _eventsTriggeringSuspension v = [e] ->
  _eventsSuspended (snd (fst (_dequeue env c v))) = false
  /\ _eventsTriggeringSuspension (snd (fst (_dequeue env c v))) = []
  /\ _eventQueue (snd (fst (_dequeue env c v))) = [].
Proof.
  intros Hobj Hr Hq Hs Ht.
  destruct (dequeue_head_step env c v) as (Hhead & _).
  rewrite Hq in Hhead. destruct Hhead as (E & Hsub).
  apply sublist_nil_r in Hsub. split; [|split; [|exact Hsub]].
  - rewrite E. unfold drain. rewrite Hobj.
    pose proof (processObjectEvent_returns env c e (set_queue [] v) Hr) as Hret.
    pose proof (gate_processObjectEvent env c e (set_queue [] v)) as G.
    destruct (_processObjectEvent env c e (set_queue [] v)) as [[o vp] cp].
    simpl in Hret, G. subst o. unfold gate in G. simpl in G.
    injection G as Gc Gs Gl Gt.
    pose proof (gate_dequeue_epilogue (after_processing env e vp)) as Ge.
    unfold gate in Ge. injection Ge as _ Es _ _. cbn [fst snd]. rewrite Es.
    unfold after_processing, _didSuspendEventsFor. rewrite Gt, Ht. simpl.
    unfold same_object at 1. rewrite Pos.eqb_refl. simpl.
    rewrite unsuspend_last_trigger; [reflexivity|congruence| |].
    + rewrite Gt, Ht. simpl. unfold same_object. rewrite Pos.eqb_refl. reflexivity.
    + rewrite Gt, Ht. simpl. unfold same_object. rewrite Pos.eqb_refl. reflexivity.
  - rewrite E. unfold drain. rewrite Hobj.
    pose proof (processObjectEvent_returns env c e (set_queue [] v) Hr) as Hret.
    pose proof (gate_processObjectEvent env c e (set_queue [] v)) as G.
    destruct (_processObjectEvent env c e (set_queue [] v)) as [[o vp] cp].
    simpl in Hret, G. subst o. unfold gate in G. simpl in G.
    injection G as Gc Gs Gl Gt.
    pose proof (gate_dequeue_epilogue (after_processing env e vp)) as Ge.
    unfold gate in Ge. injection Ge as _ _ _ Et. cbn [fst snd]. rewrite Et.
    unfold after_processing, _didSuspendEventsFor. rewrite Gt, Ht. simpl.
    unfold same_object at 1. rewrite Pos.eqb_refl. simpl.
    rewrite unsuspend_last_trigger.
    + destruct (listeners_only_fields _ _
                  (registerAll_frame (_suspendableEvents vp) (set_triggers [] vp)))
        as (_ & _ & Ftr & _).
      transitivity (_eventsTriggeringSuspension
                      (registerAll (_suspendableEvents vp) (set_triggers [] vp)));
        [reflexivity|]. rewrite Ftr. reflexivity.
    + congruence.
    + rewrite Gt, Ht. simpl. unfold same_object. rewrite Pos.eqb_refl. reflexivity.
    + rewrite Gt, Ht. simpl. unfold same_object. rewrite Pos.eqb_refl. reflexivity.
Qed.

(** X17.  On a manager that is idle (nothing queued), not suspended and
    holding no trigger (none left behind by a forced unsuspension), an
    object event that gets past the filter and for which events are to
    be suspended starts a suspension that lasts exactly as long as the
    event waits: queued asynchronously it leaves the manager suspended
    with itself as the only trigger, and the next run of the idle
    callback drains it and lifts the suspension; in synchronous mode
    both happen inside [_enqueue].  (The script manager is taken to have
    a script for the source, and the processing not to raise:
    [setActiveScript (None)] succeeds.) *)
Theorem suspension_lasts_until_trigger_drained
    (env : Env) (c c1 : Cache) (w w1 : World) (e : Event) :
  is_inputEvent e = false ->
  enqueue_filter env c w e = (false, w1, c1) ->
  fst (_shouldSuspendEventsFor env c1 e) = true ->
  (forall app, getScript env app (source e) false <> None) ->
  _eventQueue w = [] ->
  _eventsSuspended w = false ->
  _eventsTriggeringSuspension w = [] ->
  setActiveScript_raises env None = false ->
  let q := snd (fst (_enqueue env c w e)) in
  let asyncMode :=
    fst (choose_asyncMode env (snd (_shouldSuspendEventsFor env c1 e)) w e) in
  (asyncMode = true ->
   _eventsSuspended q = true
   /\ _eventsTriggeringSuspension q = [e]
   /\ _eventQueue q = [e])
  /\ (asyncMode = false ->
      _eventsSuspended q = false /\ _eventsTriggeringSuspension q = []
      /\ _eventQueue q = [])
  /\ forall c', _eventsSuspended (fst (run_idle env 1 c' q)) = false
     /\ _eventsTriggeringSuspension (fst (run_idle env 1 c' q)) = []
     /\ _eventQueue (fst (run_idle env 1 c' q)) = [].
Proof.
  intros Hobj Hf Hsus Hscr Hq Hs Ht Hr q asyncMode.
  pose proof (enqueue_filter_frame env c w e) as F. rewrite Hf in F. simpl in F.
  destruct (parents_only_fields _ _ F) as (Fq & _ & _ & Fg & Fa & Fk).
  unfold gate in Fg. injection Fg as _ Fs _ Ftr.
  assert (Ep : enqueue_prune env c1 e w1 = (w1, c1)).
  { unfold enqueue_prune, _inFlood, qsize. rewrite Fq, Hq. reflexivity. }
  destruct (_shouldSuspendEventsFor env c1 e) as [sus cs] eqn:Esus.
  cbn [fst snd] in Hsus, asyncMode. subst sus.
  assert (Es : enqueue_suspend env c1 e w1
               = (set_suspended true
                    (deregisterAll (_suspendableEvents w1) (set_triggers [e] w1)), cs)).
  { unfold enqueue_suspend. rewrite Hobj, Esus. simpl.
    rewrite suspend_when_active by congruence. rewrite Ftr, Ht. reflexivity. }
  set (d := deregisterAll (_suspendableEvents w1) (set_triggers [e] w1)) in Es.
  destruct (listeners_only_fields _ _
              (deregisterAll_frame (_suspendableEvents w1) (set_triggers [e] w1)))
    as (_ & _ & Dtr & Dq & _ & _ & Da & Dk).
  fold d in Dtr, Dq, Da, Dk. simpl in Dtr, Dq, Da, Dk.
  assert (Hm : choose_asyncMode env cs (set_suspended true d) e
               = choose_asyncMode env cs w e).
  { apply choose_asyncMode_ext; simpl; congruence. }
  destruct (choose_asyncMode env cs w e) as [m cm] eqn:Em.
  cbn [fst] in asyncMode. subst asyncMode.
  destruct (AXObject.get_application env cm (source e)) as [app ca] eqn:Eapp.
  destruct (getScript env app (source e) false) as [script|] eqn:Escr;
    [|exfalso; exact (Hscr app Escr)].
  set (w2 := emit (EventCache script e) (set_suspended true d)).
  assert (E : fst (_enqueue env c w e)
              = (let w3 := _addToQueue env e m w2 in
                 if m then (Returns tt, w3)
                 else (Returns tt, snd (fst (_dequeue env ca w3))))).
  { unfold _enqueue. rewrite Hf. cbv iota. rewrite Ep, Es. unfold enqueue_put.
    rewrite Hm, Hobj. cbn [negb]. rewrite Eapp, Escr. fold w2. cbv zeta.
    destruct m; [reflexivity|].
    destruct (_dequeue env ca (_addToQueue env e false w2)) as [[r w4] c4].
    reflexivity. }
  assert (W3 : forall a,
             _eventQueue (_addToQueue env e a w2) = [e]
             /\ _eventsSuspended (_addToQueue env e a w2) = true
             /\ _eventsTriggeringSuspension (_addToQueue env e a w2) = [e]).
  { intros a. unfold _addToQueue. simpl.
    destruct (a && (_gidleId d =? 0)%Z); simpl; rewrite Dq, Fq, Hq, Dtr; repeat split. }
  assert (D : forall c' a,
            _eventsSuspended (snd (fst (_dequeue env c' (_addToQueue env e a w2)))) = false
            /\ _eventsTriggeringSuspension
                 (snd (fst (_dequeue env c' (_addToQueue env e a w2)))) = []
            /\ _eventQueue (snd (fst (_dequeue env c' (_addToQueue env e a w2)))) = []).
  { intros c' a. destruct (W3 a) as (A1 & A2 & A3).
    apply (drain_of_only_trigger env c' e); assumption. }
  subst q. rewrite E. destruct m; cbv zeta; cbn [snd].
  - split; [intros _; destruct (W3 true) as (A1 & A2 & A3); auto|].
    split; [discriminate|]. intros c'. rewrite !run_idle_once. apply D.
  - split; [discriminate|]. split; [intros _; apply D|]. intros c'.
    rewrite !run_idle_once.
    destruct (D ca false) as (D1 & D2 & D3).
    set (qa := snd (fst (_dequeue env ca (_addToQueue env e false w2)))) in *.
    assert (Eq : _dequeue env c' qa = (false, set_gidleId 0 qa, c'))
      by (unfold _dequeue; rewrite D3; reflexivity).
    rewrite Eq. cbn [fst snd]. repeat split; assumption.
Qed.

Lemma suspension_lasts_until_trigger_drained_witness :
  let w := Scenario.start true in
  let e := Scenario.window_activate 1 in
  let q := snd (fst (_enqueue Scenario.env no_cache w e)) in
  (_eventsSuspended q = true /\ _eventQueue q = [e])
  /\ _eventsSuspended (fst (run_idle Scenario.env 1 no_cache q)) = false
  /\ delivered (fst (run_idle Scenario.env 1 no_cache q)) = [e].
Proof.
  intros w e q.
  assert (H1 : is_inputEvent e = false) by reflexivity.
  assert (H2 : enqueue_filter Scenario.env no_cache w e = (false, w, no_cache))
    by reflexivity.
  assert (H3 : fst (_shouldSuspendEventsFor Scenario.env no_cache e) = true)
    by reflexivity.
  assert (H4 : forall app, getScript Scenario.env app (source e) false <> None)
    by (intros app; discriminate).
  destruct (suspension_lasts_until_trigger_drained Scenario.env no_cache no_cache w w e
              H1 H2 H3 H4 eq_refl eq_refl eq_refl eq_refl)
    as (A & _ & S).
  destruct (A eq_refl) as (A1 & _ & A3).
  destruct (S no_cache) as (S1 & _).
  split; [split; [exact A1|exact A3]|]. split; [exact S1|reflexivity].
Defined.

(** ** Braille events *)

Lemma enqueue_prune_idle (env : Env) (c : Cache) (e : Event) (w : World) :
  _eventQueue w = [] -> enqueue_prune env c e w = (w, c).
Proof. intros H. unfold enqueue_prune, _inFlood, qsize. rewrite H. reflexivity. Qed.

(** An input event goes past the filter, the gate and the script lookup,
    and nothing is asked of [AXObject] on its way. *)
Lemma enqueue_input_event (env : Env) (c : Cache) (w : World) (e : Event) :
  is_inputEvent e = true ->
  _enqueue env c w e
  = (let '(v, c) := enqueue_prune env c e w in
     let w3 := _addToQueue env e (_asyncMode v) v in
     if _asyncMode v then (Returns tt, w3, c)
     else let '(_, w4, c) := _dequeue env c w3 in (Returns tt, w4, c)).
Proof.
  intros H. unfold _enqueue, enqueue_filter. rewrite H. cbn [negb].
  destruct (enqueue_prune env c e w) as [v cv].
  unfold enqueue_suspend. rewrite H. cbn [negb].
  unfold enqueue_put, choose_asyncMode. rewrite H. reflexivity.
Qed.

(** X18.  [processBrailleEvent] queues the event exactly when there is
    an active script that consumes it, and says so; otherwise nothing
    changes.  On an idle asynchronous manager the queued event is
    handed, by the next run of the idle callback, to the script that is
    active then, once, without going through the filter; with no
    active script at that time, or for an input event that is not a
    braille event, the drain hands nothing to anyone. *)
Theorem consumed_braille_event_reaches_script
    (env : Env) (consumes : Script -> Event -> bool) (c : Cache) (w : World) (e : Event) :
  (fst (fst (processBrailleEvent env consumes c w e)) = true <->
   exists s, activeScript w = Some s /\ consumes s e = true)
  /\ (fst (fst (processBrailleEvent env consumes c w e)) = false ->
      snd (fst (processBrailleEvent env consumes c w e)) = w
      /\ snd (processBrailleEvent env consumes c w e) = c)
  /\ (is_inputEvent e = true -> _asyncMode w = true -> _eventQueue w = [] ->
      fst (fst (processBrailleEvent env consumes c w e)) = true ->
      let q := snd (fst (processBrailleEvent env consumes c w e)) in
      _eventQueue q = [e]
      /\ _gidleId q <> 0%Z
      /\ snd (processBrailleEvent env consumes c w e) = c
      /\ forall c' v, _eventQueue v = [e] ->
           _eventQueue (fst (run_idle env 1 c' v)) = []
           /\ snd (run_idle env 1 c' v) = c'
           /\ trace (fst (run_idle env 1 c' v))
              = trace v
                ++ match activeScript v, kind e with
                   | Some s, Braille => [ProcessBrailleEvent s e]
                   | _, _ => []
                   end
                ++ [TimeoutAdd]).
Proof.
  unfold processBrailleEvent. split; [|split].
  - destruct (activeScript w) as [s|]; simpl.
    + destruct (consumes s e) eqn:Ec; simpl.
      * destruct (_enqueue env c w e) as [[o w'] c'].
        split; [intros _; exists s; auto|reflexivity].
      * split; [discriminate|]. intros (s' & [= <-] & H). congruence.
    + split; [discriminate|]. intros (s' & H & _). discriminate.
  - destruct (activeScript w) as [s|]; [|split; reflexivity].
    destruct (consumes s e); [|split; reflexivity].
    destruct (_enqueue env c w e) as [[o w'] c']. discriminate.
  - intros Hin Ha Hq Hr.
    destruct (activeScript w) as [s|] eqn:Es; [|discriminate Hr].
    destruct (consumes s e); [|discriminate Hr].
    assert (E : _enqueue env c w e = (Returns tt, _addToQueue env e true w, c)).
    { rewrite (enqueue_input_event env c w e Hin).
      rewrite (enqueue_prune_idle env c e w Hq), Ha. reflexivity. }
    rewrite E. cbn [fst snd]. split; [|split; [|split; [reflexivity|]]].
    + unfold _addToQueue. simpl. rewrite Hq.
      destruct (_gidleId w =? 0)%Z; reflexivity.
    + unfold _addToQueue. simpl.
      destruct (Z.eqb_spec (_gidleId w) 0); simpl; [discriminate|assumption].
    + intros c' v Hv.
      assert (Ed : _dequeue env c' v
                   = (dequeue_epilogue (_processInputEvent e (set_queue [] v)), c')).
      { unfold _dequeue. rewrite Hv. unfold drain. rewrite Hin. reflexivity. }
      assert (Er : run_idle env 1 c' v
                   = (snd (dequeue_epilogue (_processInputEvent e (set_queue [] v))), c')).
      { simpl. rewrite Ed.
        destruct (dequeue_epilogue (_processInputEvent e (set_queue [] v))) as [[|] v'];
          reflexivity. }
      rewrite Er. cbn [fst snd]. unfold _processInputEvent, dequeue_epilogue.
      change (activeScript (set_queue [] v)) with (activeScript v).
      destruct (activeScript v) as [s'|]; [destruct (kind e)|]; simpl;
        (split; [reflexivity|]); (split; [reflexivity|]);
        rewrite <- ?app_assoc; reflexivity.
Qed.

(** * [AXObject]: actions and the tree *)

(** ** Names of actions *)

Example normalize_show_menu :
  AXTree._normalize_action_name Scenario.env "showMenu" = "show-menu"
  /\ AXTree._normalize_action_name Scenario.env "xY-Z" = "x-y-z"
  /\ AXTree._normalize_action_name Scenario.env "open_context menu" = "open-context menu"
  /\ AXTree._normalize_action_name Scenario.env "a\B" = "a\b"
  /\ AXTree._normalize_action_name Scenario.env "" = "".
Proof. repeat split. Qed.

Lemma normal_char_after (c : ascii) :
  normal_char (if AXTree.is_punctuation (Py.ascii_lower_char c) then "-"%char
               else Py.ascii_lower_char c) = true.
Proof. destruct c as [[|] [|] [|] [|] [|] [|] [|] [|]]; reflexivity. Qed.

Lemma normal_char_fixed (c : ascii) :
  normal_char c = true ->
  AXTree.is_upper c = false
  /\ Py.ascii_lower_char c = c
  /\ (if AXTree.is_punctuation c then "-"%char else c) = c.
Proof.
  destruct c as [[|] [|] [|] [|] [|] [|] [|] [|]]; intros H;
    try discriminate H; repeat split.
Qed.

Lemma ascii_char_after (c : ascii) :
  (nat_of_ascii c <? 128)%nat = true ->
  (nat_of_ascii (if AXTree.is_punctuation (Py.ascii_lower_char c) then "-"%char
                 else Py.ascii_lower_char c) <? 128)%nat = true.
Proof.
  destruct c as [[|] [|] [|] [|] [|] [|] [|] [|]]; intros H;
    try discriminate H; reflexivity.
Qed.

Lemma normalized_chars_normal (b : bool) (s : string) :
  all_chars normal_char
    (AXTree.dash_punctuation (Py.ascii_lower (AXTree.dash_capitals b s))) = true.
Proof.
  revert b. induction s as [|c s IH]; intros b; [reflexivity|].
  simpl. destruct (b && AXTree.is_upper c); simpl.
  - rewrite (normal_char_after c), IH. reflexivity.
  - rewrite (normal_char_after c), IH. reflexivity.
Qed.

Lemma dash_capitals_ascii (b : bool) (s : string) :
  Py.is_ascii s = true -> Py.is_ascii (AXTree.dash_capitals b s) = true.
Proof.
  revert b. induction s as [|c s IH]; intros b H; [reflexivity|].
  simpl in H. apply andb_true_iff in H as [Hc Hs]. simpl.
  destruct (b && AXTree.is_upper c); simpl; rewrite ?Hc, (IH _ Hs); reflexivity.
Qed.

Lemma normalized_chars_ascii (s : string) :
  Py.is_ascii s = true ->
  Py.is_ascii (AXTree.dash_punctuation (Py.ascii_lower s)) = true.
Proof.
  induction s as [|c s IH]; intros H; [reflexivity|].
  simpl in H. apply andb_true_iff in H as [Hc Hs]. simpl.
  rewrite (ascii_char_after c Hc), (IH Hs). reflexivity.
Qed.

Lemma normal_string_fixed (s : string) :
  all_chars normal_char s = true ->
  (forall b, AXTree.dash_capitals b s = s)
  /\ Py.ascii_lower s = s
  /\ AXTree.dash_punctuation s = s.
Proof.
  induction s as [|c s IH]; intros H; [repeat split|].
  simpl in H. apply andb_true_iff in H as [Hc Hs].
  destruct (IH Hs) as (I1 & I2 & I3).
  destruct (normal_char_fixed c Hc) as (U & L & P).
  split; [|split].
  - intros b. simpl. rewrite U, andb_false_r, I1. reflexivity.
  - simpl. rewrite L, I2. reflexivity.
  - simpl. rewrite P, I3. reflexivity.
Qed.

(** Normalizing ASCII text, in an environment whose [lower] is the
    ASCII one on ASCII text. *)
Lemma normalize_action_name_normal (env : Env) (action_name : string) :
  Py.is_ascii action_name = true ->
  (forall s, Py.is_ascii s = true -> str_lower env s = Py.ascii_lower s) ->
  let n := AXTree._normalize_action_name env action_name in
  Py.is_ascii n = true
  /\ all_chars normal_char n = true
  /\ AXTree._normalize_action_name env n = n.
Proof.
  intros Ha Hl n.
  assert (E : n = if String.eqb action_name "" then ""
                  else AXTree.dash_punctuation
                         (Py.ascii_lower (AXTree.dash_capitals false action_name))).
  { subst n. unfold AXTree._normalize_action_name.
    destruct (String.eqb action_name ""); [reflexivity|].
    rewrite Hl by (apply dash_capitals_ascii, Ha). reflexivity. }
  assert (A : Py.is_ascii n = true).
  { rewrite E. destruct (String.eqb action_name ""); [reflexivity|].
    apply normalized_chars_ascii, dash_capitals_ascii, Ha. }
  assert (N : all_chars normal_char n = true).
  { rewrite E. destruct (String.eqb action_name ""); [reflexivity|].
    apply normalized_chars_normal. }
  split; [exact A|]. split; [exact N|].
  destruct (normal_string_fixed _ N) as (I1 & I2 & I3).
  clearbody n. unfold AXTree._normalize_action_name.
  destruct (String.eqb_spec n ""); [congruence|].
  rewrite I1, (Hl n A), I2, I3. reflexivity.
Qed.

(** X19.  For a name of ASCII characters, and with a [lower] that on
    ASCII text turns the capitals A to Z into small letters and leaves
    the rest: the normalized action name is ASCII text again, it holds
    no capital letter and none of the punctuation characters of the
    pattern but the dash (the backslash is not one of them, and stays),
    and normalizing it again changes nothing. *)
Theorem normalize_action_name_idempotent (env : Env) (action_name : string) :
  Py.is_ascii action_name = true ->
  (forall s, Py.is_ascii s = true -> str_lower env s = Py.ascii_lower s) ->
  let n := AXTree._normalize_action_name env action_name in
  Py.is_ascii n = true
  /\ all_chars normal_char n = true
  /\ AXTree._normalize_action_name env n = n.
Proof.
  intros Ha Hl n.
  assert (E : n = if String.eqb action_name "" then ""
                  else AXTree.dash_punctuation
                         (Py.ascii_lower (AXTree.dash_capitals false action_name))).
  { subst n. unfold AXTree._normalize_action_name.
    destruct (String.eqb action_name ""); [reflexivity|].
    rewrite Hl by (apply dash_capitals_ascii, Ha). reflexivity. }
  assert (A : Py.is_ascii n = true).
  { rewrite E. destruct (String.eqb action_name ""); [reflexivity|].
    apply normalized_chars_ascii, dash_capitals_ascii, Ha. }
  assert (N : all_chars normal_char n = true).
  { rewrite E. destruct (String.eqb action_name ""); [reflexivity|].
    apply normalized_chars_normal. }
  split; [exact A|]. split; [exact N|].
  destruct (normal_string_fixed _ N) as (I1 & I2 & I3).
  clearbody n. unfold AXTree._normalize_action_name.
  destruct (String.eqb_spec n ""); [congruence|].
  rewrite I1, (Hl n A), I2, I3. reflexivity.
Qed.

Lemma normalize_action_name_idempotent_witness :
  AXTree._normalize_action_name Scenario.env "Show_Context\Menu" = "show-context\menu"
  /\ AXTree._normalize_action_name Scenario.env
       (AXTree._normalize_action_name Scenario.env "Show_Context\Menu")
     = AXTree._normalize_action_name Scenario.env "Show_Context\Menu".
Proof.
  split; [reflexivity|].
  exact (proj2 (proj2 (normalize_action_name_idempotent Scenario.env
                         "Show_Context\Menu" eq_refl (fun s _ => eq_refl)))).
Defined.

(** ** Looking an action up by name *)

Lemma action_index_loop_spec (env : Env) (t : Tree) (c : Cache) (o : option Handle)
    (name : string) (len a : nat) :
  (forall i, snd (AXTree.get_action_name env t c o i) = c) ->
  let r := AXTree.action_index_loop env t c o name (map Z.of_nat (seq a len)) in
  snd r = c
  /\ ((fst r = (-1)%Z
       /\ forall k, a <= k < a + len ->
            fst (AXTree.get_action_name env t c o (Z.of_nat k)) <> name)
      \/ (exists k, a <= k < a + len /\ fst r = Z.of_nat k
            /\ fst (AXTree.get_action_name env t c o (Z.of_nat k)) = name
            /\ forall j, a <= j < k ->
                 fst (AXTree.get_action_name env t c o (Z.of_nat j)) <> name)).
Proof.
  intros Hc. revert a. induction len as [|len IH]; intros a r; subst r.
  - split; [reflexivity|]. left. split; [reflexivity|]. intros k Hk. lia.
  - simpl. pose proof (Hc (Z.of_nat a)) as Hca.
    destruct (AXTree.get_action_name env t c o (Z.of_nat a)) as [nm c'] eqn:En.
    cbn [snd] in Hca. subst c'.
    destruct (String.eqb_spec name nm) as [E|E].
    + split; [reflexivity|]. right. exists a. split; [lia|]. split; [reflexivity|].
      rewrite En. split; [auto|]. intros j Hj. lia.
    + destruct (IH (S a)) as (Rc & [(R & Hall)|(k & Hk & R & Hm & Hbefore)]).
      * split; [exact Rc|]. left. split; [exact R|]. intros k Hk.
        destruct (Nat.eq_dec k a) as [->|Hne]; [rewrite En; cbn [fst]; congruence|].
        apply Hall. lia.
      * split; [exact Rc|]. right. exists k. split; [lia|]. split; [exact R|].
        split; [exact Hm|].
        intros j Hj.
        destruct (Nat.eq_dec j a) as [->|Hne]; [rewrite En; cbn [fst]; congruence|].
        apply Hbefore. lia.
Qed.

(** X20.  As long as reading the object's actions adds nothing to
    [KNOWN_DEAD] (no read fails with an error [handle_error] takes for
    the object being gone), [get_action_index] answers with the first
    index, among those of the object's actions, whose name is the
    normalized form of the name asked for, and with -1 when there is
    none; [has_action] says whether there is one.  For a name of ASCII
    characters, and with a [lower] that is the ASCII one on ASCII text,
    it answers the same for a name and for its normalized form. *)
Theorem action_index_is_first_match
    (env : Env) (t : Tree) (c : Cache) (o : option Handle) (action_name : string) :
  snd (AXTree.get_n_actions t c o) = c ->
  (forall i, snd (AXTree.get_action_name env t c o i) = c) ->
  let r := fst (AXTree.get_action_index env t c o action_name) in
  let n := fst (AXTree.get_n_actions t c o) in
  let name := AXTree._normalize_action_name env action_name in
  snd (AXTree.get_action_index env t c o action_name) = c
  /\ ((r = (-1)%Z
       /\ fst (AXTree.has_action env t c o action_name) = false
       /\ forall i, (0 <= i < n)%Z ->
            fst (AXTree.get_action_name env t c o i) <> name)
      \/ ((0 <= r < n)%Z
          /\ fst (AXTree.has_action env t c o action_name) = true
          /\ fst (AXTree.get_action_name env t c o r) = name
          /\ forall i, (0 <= i < r)%Z ->
               fst (AXTree.get_action_name env t c o i) <> name))
  /\ (Py.is_ascii action_name = true ->
      (forall s, Py.is_ascii s = true -> str_lower env s = Py.ascii_lower s) ->
      AXTree.get_action_index env t c o name
      = AXTree.get_action_index env t c o action_name).
Proof.
  intros Hn Hc r n name.
  assert (E : AXTree.get_action_index env t c o action_name
              = AXTree.action_index_loop env t c o name
                  (map Z.of_nat (seq 0 (Z.to_nat n)))).
  { unfold AXTree.get_action_index, range. subst n name.
    destruct (AXTree.get_n_actions t c o) as [n' c']. cbn [fst snd] in *. subst c'.
    reflexivity. }
  assert (Eh : fst (AXTree.has_action env t c o action_name) = (0 <=? r)%Z).
  { unfold AXTree.has_action. subst r.
    destruct (AXTree.get_action_index env t c o action_name). reflexivity. }
  rewrite Eh. subst r. rewrite E.
  destruct (action_index_loop_spec env t c o name (Z.to_nat n) 0 Hc)
    as (Rc & [(R & Hall)|(k & Hk & R & Hm & Hbefore)]).
  - split; [exact Rc|]. split.
    + left. rewrite R. split; [reflexivity|]. split; [reflexivity|].
      intros i Hi. replace i with (Z.of_nat (Z.to_nat i)) by lia. apply Hall. lia.
    + intros Ha Hl. unfold AXTree.get_action_index at 1.
      destruct (normalize_action_name_normal env action_name Ha Hl) as (_ & _ & I).
      fold name in I. rewrite I. fold name. rewrite <- E. reflexivity.
  - split; [exact Rc|]. split.
    + right. rewrite R. split; [lia|]. split; [apply Z.leb_le; lia|].
      split; [exact Hm|]. intros i Hi.
      replace i with (Z.of_nat (Z.to_nat i)) by lia. apply Hbefore. lia.
    + intros Ha Hl. unfold AXTree.get_action_index at 1.
      destruct (normalize_action_name_normal env action_name Ha Hl) as (_ & _ & I).
      fold name in I. rewrite I. fold name. rewrite <- E. reflexivity.
Qed.

Lemma action_index_is_first_match_witness :
  fst (AXTree.get_action_index Scenario.env Scenario.editor_tree no_cache
         (Some Scenario.editor_text) "showMenu") = 1%Z
  /\ fst (AXTree.has_action Scenario.env Scenario.editor_tree no_cache
            (Some Scenario.editor_text) "show_menu") = true
  /\ fst (AXTree.get_action_index Scenario.env Scenario.editor_tree no_cache
            (Some Scenario.editor_text) "press") = (-1)%Z
  /\ AXTree.get_action_index Scenario.env Scenario.editor_tree no_cache
       (Some Scenario.editor_text) "show-menu"
     = AXTree.get_action_index Scenario.env Scenario.editor_tree no_cache
         (Some Scenario.editor_text) "showMenu".
Proof.
  split; [reflexivity|]. split; [reflexivity|]. split; [reflexivity|].
  assert (Hc : forall i,
             snd (AXTree.get_action_name Scenario.env Scenario.editor_tree no_cache
                    (Some Scenario.editor_text) i) = no_cache).
  { intros i. unfold AXTree.get_action_name.
    destruct (negb (0 <=? i)%Z); [reflexivity|].
    change (AXTree.get_n_actions Scenario.editor_tree no_cache
              (Some Scenario.editor_text)) with (2%Z, no_cache).
    cbv iota. destruct (i <? 2)%Z eqn:Ei; [|reflexivity]. cbn [negb].
    unfold Scenario.editor_tree, Atspi_get_action_name.
    destruct (_ && _)%bool; [reflexivity|]. destruct (_ && _)%bool; reflexivity. }
  exact (proj2 (proj2 (action_index_is_first_match Scenario.env Scenario.editor_tree
                         no_cache (Some Scenario.editor_text) "showMenu" eq_refl Hc))
           eq_refl (fun s _ => eq_refl)).
Defined.

(** ** Children, parents and siblings *)

Lemma get_child_bounds (t : Tree) (c : Cache) (o : option Handle) (index : Z)
    (ch : Handle) :
  fst (AXTree.get_child t c o index) = Some ch ->
  AXObject.is_valid c o = true
  /\ Some ch <> o
  /\ (-1 <= index < fst (AXTree.get_child_count t c o))%Z
  /\ snd (AXTree.get_child t c o index) = c.
Proof.
  unfold AXTree.get_child. destruct o as [h|]; [|discriminate].
  destruct (AXObject.is_valid c (Some h)) eqn:Ev; cbn [negb]; [|discriminate].
  assert (Hc : (0 < fst (AXTree.get_child_count t c (Some h)))%Z ->
               snd (AXTree.get_child_count t c (Some h)) = c).
  { unfold AXTree.get_child_count. rewrite Ev. cbn [negb].
    destruct (Atspi_get_child_count t h); cbn [fst snd]; [reflexivity|lia]. }
  destruct (AXTree.get_child_count t c (Some h)) as [n c1]. cbn [fst snd] in *.
  destruct (Z.leb_spec n 0) as [Hn|Hn]; [discriminate|]. cbv zeta.
  rewrite (Hc Hn).
  destruct (Z.eqb_spec index (-1)) as [->|Hi].
  - destruct (Z.leb_spec 0 (n - 1)); destruct (Z.ltb_spec (n - 1) n);
      cbn [andb negb]; try discriminate.
    destruct (Atspi_get_child_at_index t h (n - 1)) as [child|]; [|discriminate].
    unfold same_handle. destruct (bool_decide_reflect (child = Some h)) as [E|E];
      [discriminate|]. cbn [fst snd]. intros ->.
    split; [reflexivity|]. split; [exact E|]. split; [lia|reflexivity].
  - destruct (Z.leb_spec 0 index); destruct (Z.ltb_spec index n);
      cbn [andb negb]; try discriminate.
    destruct (Atspi_get_child_at_index t h index) as [child|]; [|discriminate].
    unfold same_handle. destruct (bool_decide_reflect (child = Some h)) as [E|E];
      [discriminate|]. cbn [fst snd]. intros ->.
    split; [reflexivity|]. split; [exact E|]. split; [lia|reflexivity].
Qed.

(** X21.  [get_child] answers with a child only for a valid object and
    an index from -1 to the child count less one, never with the object
    itself; the index -1 stands for the last child, and an object
    without children has no child at any index. *)
Theorem get_child_within_bounds
    (t : Tree) (c : Cache) (o : option Handle) (index : Z) :
  (forall ch, fst (AXTree.get_child t c o index) = Some ch ->
     AXObject.is_valid c o = true
     /\ Some ch <> o
     /\ (-1 <= index < fst (AXTree.get_child_count t c o))%Z)
  /\ AXTree.get_child t c o (-1)
     = AXTree.get_child t c o (fst (AXTree.get_child_count t c o) - 1)
  /\ (fst (AXTree.get_child_count t c o) <= 0 ->
      fst (AXTree.get_child t c o index) = None)%Z.
Proof.
  split.
  { intros ch H. destruct (get_child_bounds t c o index ch H) as (A & B & C & _).
    split; [exact A|]. split; [exact B|exact C]. }
  unfold AXTree.get_child. destruct o as [h|]; [|split; reflexivity].
  destruct (AXObject.is_valid c (Some h)) eqn:Ev; cbn [negb]; [|split; reflexivity].
  destruct (AXTree.get_child_count t c (Some h)) as [n c1]. cbn [fst].
  destruct (Z.leb_spec n 0) as [Hn|Hn]; [split; reflexivity|].
  split; [|lia].
  cbv zeta. change (-1 =? -1)%Z with true. cbv iota.
  destruct (Z.eqb_spec (n - 1) (-1)); [lia|]. reflexivity.
Qed.

Lemma list_in_pos (p : Handle) (l : list Handle) :
  Py.list_in Pos.eqb p l = true <-> In p l.
Proof.
  unfold Py.list_in. rewrite existsb_exists. split.
  - intros (x & Hx & E). apply Pos.eqb_eq in E. subst x. exact Hx.
  - intros H. exists p. split; [exact H|apply Pos.eqb_refl].
Qed.

Lemma find_ancestor_loop_result (env : Env) (t : Tree) (pred : Handle -> bool)
    (fuel : nat) (c : Cache) (objects : list Handle) (parent : option Handle)
    (a : Handle) :
  fst (AXTree.find_ancestor_loop env t pred fuel c objects parent) = Some (Some a) ->
  pred a = true /\ ~ In a objects.
Proof.
  revert c objects parent. induction fuel as [|fuel IH]; intros c objects parent; simpl.
  - destruct parent as [p|]; [|discriminate].
    destruct (Py.list_in Pos.eqb p objects) eqn:Ein; [discriminate|].
    destruct (pred p) eqn:Ep; [|discriminate]. intros [= <-]. split; [exact Ep|].
    intros Hin. apply list_in_pos in Hin. congruence.
  - destruct parent as [p|]; [|discriminate].
    destruct (Py.list_in Pos.eqb p objects) eqn:Ein; [discriminate|].
    destruct (pred p) eqn:Ep.
    + intros [= <-]. split; [exact Ep|].
      intros Hin. apply list_in_pos in Hin. congruence.
    + destruct (AXTree.get_parent_checked env t c (Some p)) as [parent' c'].
      intros H. apply IH in H as [H1 H2]. split; [exact H1|].
      intros Hin. apply H2. apply in_or_app. left; exact Hin.
Qed.

(** In a finite tree the loop comes to an end: with the objects met so
    far distinct and in [V], and the parents all in [V], the fuel left
    need only cover the objects of [V] not met yet. *)
Lemma find_ancestor_loop_ends (env : Env) (t : Tree) (pred : Handle -> bool)
    (V : list Handle) (fuel : nat) (c : Cache) (objects : list Handle)
    (parent : option Handle) :
  (forall c' h p, fst (AXTree.get_parent_checked env t c' (Some h)) = Some p -> In p V) ->
  NoDup objects ->
  (forall x, In x objects -> In x V) ->
  (forall p, parent = Some p -> In p V) ->
  length V <= length objects + fuel ->
  exists r,
    fst (AXTree.find_ancestor_loop env t pred fuel c objects parent) = Some r
    /\ forall more,
         AXTree.find_ancestor_loop env t pred (fuel + more) c objects parent
         = AXTree.find_ancestor_loop env t pred fuel c objects parent.
Proof.
  intros Hclosed. revert c objects parent.
  induction fuel as [|fuel IH]; intros c objects parent Hnd Hsub Hp Hlen.
  - destruct parent as [p|];
      [|exists None; split; [reflexivity|intros; destruct more; reflexivity]].
    assert (Hin : In p objects).
    { assert (Hpm : objects ⊆+ V).
      { apply NoDup_submseteq; [exact Hnd|]. intros x Hx.
        apply list_elem_of_In, Hsub, list_elem_of_In, Hx. }
      assert (Hperm : objects ≡ₚ V)
        by (apply submseteq_length_Permutation; [exact Hpm|lia]).
      apply list_elem_of_In. rewrite Hperm. apply list_elem_of_In, Hp. reflexivity. }
    apply list_in_pos in Hin. exists None. simpl. rewrite Hin.
    split; [reflexivity|]. intros more. destruct more; simpl; rewrite Hin; reflexivity.
  - destruct parent as [p|]; [|exists None; split; [reflexivity|intros; reflexivity]].
    simpl. destruct (Py.list_in Pos.eqb p objects) eqn:Ein;
      [exists None; split; [reflexivity|intros; reflexivity]|].
    destruct (pred p); [exists (Some p); split; [reflexivity|intros; reflexivity]|].
    pose proof (Hclosed c p) as Hcp.
    destruct (AXTree.get_parent_checked env t c (Some p)) as [parent' c'].
    cbn [fst] in Hcp. apply IH.
    + apply NoDup_app. split; [exact Hnd|]. split; [|apply NoDup_singleton].
      intros x Hx Hx'. apply list_elem_of_In in Hx, Hx'. destruct Hx' as [<-|[]].
      apply list_in_pos in Hx. congruence.
    + intros x Hx. apply in_app_or in Hx as [Hx|[<-|[]]];
        [apply Hsub, Hx|apply Hp; reflexivity].
    + intros q Hq. apply (Hcp q Hq).
    + rewrite length_app. simpl. lia.
Qed.

(** What [get_parent_checked] answers with is what AT-SPI gave as the
    parent. *)
Lemma get_parent_checked_parent (env : Env) (t : Tree) (c : Cache) (h p : Handle) :
  fst (AXTree.get_parent_checked env t c (Some h)) = Some p ->
  Atspi_get_parent t h = Ok (Some p).
Proof.
  unfold AXTree.get_parent_checked.
  destruct (negb (AXObject.is_valid c (Some h))); [discriminate|].
  destruct (AXObject.get_role env c (Some h)) as [role c1].
  destruct (role_in _ _); [discriminate|].
  assert (G : forall q, fst (AXTree.get_parent t c1 (Some h)) = Some q ->
                Atspi_get_parent t h = Ok (Some q)).
  { intros q. unfold AXTree.get_parent.
    destruct (negb (AXObject.is_valid c1 (Some h))); [discriminate|].
    destruct (Atspi_get_parent t h) as [parent|]; [|discriminate].
    destruct (same_handle parent (Some h)); [discriminate|].
    cbn [fst]. intros ->. reflexivity. }
  destruct (AXTree.get_parent t c1 (Some h)) as [[q|] c2]; [|discriminate].
  cbn [fst] in G. intros H. rewrite (G q eq_refl). f_equal.
  destruct (negb (debug_info env)); [exact H|].
  destruct (AXObject.is_dead env c2 (obj (Some h))) as [dead c3].
  destruct dead; [exact H|].
  destruct (AXTree.get_index_in_parent t c3 (Some h)) as [index c4].
  destruct (AXTree.get_child_count t c4 (Some q)) as [n c5].
  destruct (_ || _); [exact H|].
  destruct (Atspi_get_child_at_index t q index) as [child|]; [|exact H].
  destruct (same_handle child (Some h)); exact H.
Qed.

(** X22.  In a tree with finitely many objects, circular or not,
    [find_ancestor] comes to an end: once the fuel covers the objects
    that can be reached, it returns, more fuel changes nothing, and
    what it returns satisfies [pred] and is not the object asked
    about. *)
Theorem find_ancestor_ends_in_finite_tree
    (env : Env) (t : Tree) (V : list Handle) (c : Cache) (o : option Handle)
    (pred : Handle -> bool)
    (Hclosed : forall c' h p,
        fst (AXTree.get_parent_checked env t c' (Some h)) = Some p -> In p V) :
  exists r,
    (forall more,
       fst (AXTree.find_ancestor env t (length V + more) c o pred) = Some r)
    /\ (forall more,
          AXTree.find_ancestor env t (length V + more) c o pred
          = AXTree.find_ancestor env t (length V) c o pred)
    /\ (forall a, r = Some a -> pred a = true /\ Some a <> o).
Proof.
  unfold AXTree.find_ancestor. destruct o as [h|];
    [|exists None; split; [reflexivity|split; [reflexivity|discriminate]]].
  destruct (negb (AXObject.is_valid c (Some h)));
    [exists None; split; [reflexivity|split; [reflexivity|discriminate]]|].
  pose proof (Hclosed c h) as Hch.
  destruct (AXTree.get_parent_checked env t c (Some h)) as [parent c1].
  cbn [fst] in Hch.
  destruct (find_ancestor_loop_ends env t pred (h :: V) (length V) c1 [h] parent)
    as (r & Hr & Hmore).
  - intros c' x p Hp. right. exact (Hclosed c' x p Hp).
  - apply NoDup_singleton.
  - intros x [<-|[]]. left; reflexivity.
  - intros p Hp. right. exact (Hch p Hp).
  - simpl. lia.
  - exists r. split; [intros more; rewrite Hmore; exact Hr|]. split; [exact Hmore|].
    intros a ->. apply find_ancestor_loop_result in Hr as [Hp Hn].
    split; [exact Hp|]. intros [= ->]. apply Hn. left; reflexivity.
Qed.

Lemma find_ancestor_ends_in_finite_tree_witness :
  exists r,
    (forall more,
       fst (AXTree.find_ancestor Scenario.env Scenario.circular_tree (3 + more) no_cache
              (Some Scenario.editor_text) (fun _ => false)) = Some r)
    /\ (forall more,
          AXTree.find_ancestor Scenario.env Scenario.circular_tree (3 + more) no_cache
            (Some Scenario.editor_text) (fun _ => false)
          = AXTree.find_ancestor Scenario.env Scenario.circular_tree 3 no_cache
              (Some Scenario.editor_text) (fun _ => false))
    /\ (forall a, r = Some a -> false = true /\ Some a <> Some Scenario.editor_text).
Proof.
  apply (find_ancestor_ends_in_finite_tree Scenario.env Scenario.circular_tree
           [Scenario.editor_app; Scenario.editor_frame; Scenario.editor_text]
           no_cache (Some Scenario.editor_text) (fun _ => false)).
  intros c' h p Hp. apply get_parent_checked_parent in Hp. revert Hp.
  cbn [Atspi_get_parent Scenario.circular_tree Scenario.editor_tree].
  destruct (h =? Scenario.editor_app)%positive.
  - intros [= <-]. right; right; left; reflexivity.
  - destruct (h =? Scenario.editor_frame)%positive.
    + intros [= <-]. left; reflexivity.
    + destruct ((h =? Scenario.editor_text)%positive || (h =? Scenario.lost_child)%positive).
      * intros [= <-]. right; left; reflexivity.
      * discriminate.
Defined.

(** X23.  No object is its own ancestor, not even in a circular tree:
    [is_ancestor obj obj] never answers True; and an answer True for
    another object means both are valid and differ. *)
Theorem object_is_not_its_own_ancestor
    (env : Env) (t : Tree) (fuel : nat) (c : Cache) (o ancestor : option Handle) :
  fst (AXTree.is_ancestor env t fuel c o o) <> Some true
  /\ (fst (AXTree.is_ancestor env t fuel c o ancestor) = Some true ->
      AXObject.is_valid c o = true /\ AXObject.is_valid c ancestor = true
      /\ ancestor <> o).
Proof.
  assert (Hgen : forall anc, fst (AXTree.is_ancestor env t fuel c o anc) = Some true ->
      AXObject.is_valid c o = true /\ AXObject.is_valid c anc = true /\ anc <> o).
  { intros anc. unfold AXTree.is_ancestor.
    destruct (AXObject.is_valid c o) eqn:Eo; cbn [negb]; [|discriminate].
    destruct (AXObject.is_valid c anc) eqn:Ea; cbn [negb]; [|discriminate].
    destruct (AXTree.find_ancestor env t fuel c o _) as [[[a|]|] cf] eqn:Ef;
      try discriminate.
    intros _. split; [reflexivity|]. split; [reflexivity|].
    apply (f_equal fst) in Ef. cbn [fst] in Ef.
    unfold AXTree.find_ancestor in Ef. destruct o as [h|]; [|discriminate].
    rewrite Eo in Ef. cbn [negb] in Ef.
    destruct (AXTree.get_parent_checked env t c (Some h)) as [parent c1].
    apply find_ancestor_loop_result in Ef as [Hp Hn].
    unfold same_handle in Hp. apply bool_decide_eq_true in Hp. subst anc.
    intros [= ->]. apply Hn. left; reflexivity. }
  split; [|apply Hgen].
  intros H. apply Hgen in H as (_ & _ & H). apply H. reflexivity.
Qed.

(** The parent and the index read on the way to a sibling. *)
Lemma get_parent_some (t : Tree) (c : Cache) (o : option Handle) (p : Handle) :
  fst (AXTree.get_parent t c o) = Some p -> snd (AXTree.get_parent t c o) = c.
Proof.
  unfold AXTree.get_parent. destruct o as [h|]; [|discriminate].
  destruct (negb _); [discriminate|].
  destruct (Atspi_get_parent t h) as [parent|]; [|discriminate].
  destruct (same_handle parent (Some h)); [discriminate|reflexivity].
Qed.

Lemma get_index_in_parent_some (t : Tree) (c : Cache) (o : option Handle) :
  (0 <= fst (AXTree.get_index_in_parent t c o))%Z ->
  snd (AXTree.get_index_in_parent t c o) = c.
Proof.
  unfold AXTree.get_index_in_parent. destruct o as [h|]; [|reflexivity].
  destruct (negb _); [reflexivity|].
  destruct (Atspi_get_index_in_parent t h); cbn [fst snd]; [reflexivity|].
  intros H. exfalso. revert H. apply Z.lt_nge. reflexivity.
Qed.

(** X24.  A sibling found by [get_next_sibling] or [get_previous_sibling]
    is another object than the one asked about and than its parent, and
    is the parent's child at the next (previous) index, which lies
    within the parent's child count; a first child has no previous
    sibling.  Finding a sibling adds nothing to the caches. *)
Theorem sibling_is_another_child_of_parent
    (t : Tree) (c : Cache) (o : option Handle) (s : Handle) :
  (fst (AXTree.get_next_sibling t c o) = Some s ->
     exists parent,
       fst (AXTree.get_parent t c o) = Some parent
       /\ fst (AXTree.get_child t c (Some parent)
                 (fst (AXTree.get_index_in_parent t c o) + 1))
          = Some s
       /\ (0 < fst (AXTree.get_index_in_parent t c o) + 1
             < fst (AXTree.get_child_count t c (Some parent)))%Z
       /\ Some s <> o /\ s <> parent
       /\ snd (AXTree.get_next_sibling t c o) = c)
  /\ (fst (AXTree.get_previous_sibling t c o) = Some s ->
     exists parent,
       fst (AXTree.get_parent t c o) = Some parent
       /\ fst (AXTree.get_child t c (Some parent)
                 (fst (AXTree.get_index_in_parent t c o) - 1))
          = Some s
       /\ (0 <= fst (AXTree.get_index_in_parent t c o) - 1
             < fst (AXTree.get_child_count t c (Some parent)))%Z
       /\ Some s <> o /\ s <> parent
       /\ snd (AXTree.get_previous_sibling t c o) = c)
  /\ ((fst (AXTree.get_index_in_parent t c o) <= 0)%Z ->
      fst (AXTree.get_previous_sibling t c o) = None).
Proof.
  unfold AXTree.get_next_sibling, AXTree.get_previous_sibling.
  destruct (negb (AXObject.is_valid c o));
    [split; [discriminate|split; [discriminate|reflexivity]]|].
  pose proof (get_parent_some t c o) as Hpc.
  destruct (AXTree.get_parent t c o) as [[parent|] c1];
    [|split; [discriminate|split; [discriminate|reflexivity]]].
  cbn [fst snd] in Hpc. rewrite (Hpc parent eq_refl). clear Hpc c1.
  pose proof (get_index_in_parent_some t c o) as Hic.
  destruct (AXTree.get_index_in_parent t c o) as [index c2]. cbn [fst snd] in *.
  split; [|split].
  - destruct (Z.ltb_spec index 0) as [Hi|Hi]; [discriminate|].
    rewrite (Hic Hi).
    pose proof (get_child_bounds t c (Some parent) (index + 1) s) as Hb.
    destruct (AXTree.get_child t c (Some parent) (index + 1)) as [sibling c3] eqn:Ec.
    cbn [fst snd] in *. unfold same_handle.
    destruct (bool_decide_reflect (sibling = o)) as [E|E]; [discriminate|].
    cbn [fst snd]. intros Hs. exists parent. split; [reflexivity|].
    rewrite Ec. split; [exact Hs|].
    destruct (Hb Hs) as (_ & Hne & Hbd & Hc3).
    split; [lia|]. split; [congruence|]. split; [|exact Hc3].
    intros ->. apply Hne. reflexivity.
  - destruct (Z.leb_spec index 0) as [Hi|Hi]; [discriminate|].
    rewrite (Hic ltac:(lia)).
    pose proof (get_child_bounds t c (Some parent) (index - 1) s) as Hb.
    destruct (AXTree.get_child t c (Some parent) (index - 1)) as [sibling c3] eqn:Ec.
    cbn [fst snd] in *. unfold same_handle.
    destruct (bool_decide_reflect (sibling = o)) as [E|E]; [discriminate|].
    cbn [fst snd]. intros Hs. exists parent. split; [reflexivity|].
    rewrite Ec. split; [exact Hs|].
    destruct (Hb Hs) as (_ & Hne & Hbd & Hc3).
    split; [lia|]. split; [congruence|]. split; [|exact Hc3].
    intros ->. apply Hne. reflexivity.
  - intros Hi. destruct (Z.leb_spec index 0); [reflexivity|lia].
Qed.
